(** * AnveshAI video generator: a shallow embedding of [app.py]

    The Flask application is modelled as a set of request handlers acting
    on an explicit [world]: the transient frames directory, the videos
    directory, the metadata document on disk and the session of the
    client. One request is served at a time.

    What the program obtains from outside is passed to it as an oracle:
    the answers of the image service (one [outcome] per frame index and
    attempt), the clock, the random numbers, and whether the imaging and
    encoding libraries raise. The asynchronous frame pipeline is a pure
    function that returns its result together with the trace of its
    effects (requests, sleeps, files written); [asyncio_run] replays the
    trace on the world.

    Conventions.
    - Python integers are [Z], loop indices are [nat].
    - In the request handlers the duration arithmetic of [create_video]
      ([len(frame_paths) / fps], [4 / duration]) is carried out over the
      exact rationals [Q], and of a moviepy clip only the duration is
      kept. Python computes these numbers as IEEE 754 doubles: module
      [Double] renders lines 100-109 in that arithmetic, with a clip
      kept as the expression that builds it. At the frame rate the
      application uses (24) the two computations take the same branch
      and loop the same number of times for 1 to 95 frames
      ([default_rate_agrees]); at other frame rates they can differ.
    - [ImageSequenceClip], [concatenate_videoclips] and [subclipped] are
      the library's operations, described by what they do to the
      duration.
    - Local file operations (writing a frame, unlinking a file, reading
      and writing the metadata document) do what they are asked to do;
      the network and the encoder may fail.
    - Console output is left out, except for the start-up warning. *)

From Stdlib Require Import ZArith QArith Qround String Ascii List Lia DecimalString.
From Stdlib Require DecimalPos DecimalZ SpecFloat.
From stdpp Require Import base gmap sets list strings.
Import ListNotations.

Local Open Scope string_scope.
Local Open Scope list_scope.
Local Open Scope Z_scope.

(** ** Python helpers *)

Module Py.

(** [str(n)] for an integer. *)
Definition str_int (n : Z) : string :=
  NilZero.string_of_int (Z.to_int n).

Fixpoint zeros (n : nat) : string :=
  match n with
  | O => EmptyString
  | S k => String "0" (zeros k)
  end.

(** [f"{n:03d}"] for a non-negative index: zero padding to width 3. *)
Definition fmt_03d (n : nat) : string :=
  let s := str_int (Z.of_nat n) in
  zeros (3 - String.length s) +:+ s.

(** [str.isspace] on one ASCII character. *)
Definition isspace (c : ascii) : bool :=
  let n := nat_of_ascii c in
  ((9 <=? n) && (n <=? 13) || (28 <=? n) && (n <=? 32))%nat.

Fixpoint lstrip (s : string) : string :=
  match s with
  | EmptyString => EmptyString
  | String c r => if isspace c then lstrip r else s
  end.

Fixpoint rstrip (s : string) : string :=
  match s with
  | EmptyString => EmptyString
  | String c r =>
      match rstrip r with
      | EmptyString => if isspace c then EmptyString else String c EmptyString
      | r' => String c r'
      end
  end.

(** [s.strip()] *)
Definition strip (s : string) : string := rstrip (lstrip s).

(** Truthiness of a string ([if s:] / [not s]). *)
Definition truthy_str (s : string) : bool :=
  match s with EmptyString => false | _ => true end.

(** Truthiness of an optional string ([None] is falsy). *)
Definition truthy_opt (o : option string) : bool :=
  match o with None => false | Some s => truthy_str s end.

Definition ends_with_slash (s : string) : bool :=
  match String.length s with
  | O => false
  | S k => match String.get k s with
           | Some c => Ascii.eqb c "/"
           | None => false
           end
  end.

(** [os.path.join(a, b)] (posix), two components. *)
Definition path_join (a b : string) : string :=
  match b with
  | String "/" _ => b
  | _ => if (negb (truthy_str a) || ends_with_slash a)%bool
         then a +:+ b else a +:+ "/" +:+ b
  end.

(** [int(q)]: truncation towards zero. *)
Definition int (q : Q) : Z := Z.quot (Qnum q) (Zpos (Qden q)).

End Py.

(** ** Module-level configuration (lines 14-27) *)

(** [os.environ] *)
Abbreviation environ := (gmap string string).

Definition FRAMES_DIR : string := "frames".
Definition VIDEOS_DIR : string := "static/videos".
Definition fallback_secret : string := "anvesh-ai-video-generator-secret".

(** [app.secret_key = os.environ.get('SESSION_SECRET', '...')] *)
Definition secret_key (env : environ) : string :=
  default fallback_secret (env !! "SESSION_SECRET").

(** [ADMIN_PASSWORD = os.environ.get('ADMIN_PASSWORD')] *)
Definition ADMIN_PASSWORD (env : environ) : option string :=
  env !! "ADMIN_PASSWORD".

Definition warning_1 : string :=
  "WARNING: ADMIN_PASSWORD environment variable is not set. Admin panel will be inaccessible.".
Definition warning_2 : string :=
  "Please set the ADMIN_PASSWORD secret in Replit Secrets to enable admin access.".

(** What module import prints on the console; importing never raises. *)
Definition startup_console (env : environ) : list string :=
  if negb (Py.truthy_opt (ADMIN_PASSWORD env))
  then [warning_1; warning_2]
  else [].

(** ** Data model *)

(** One entry of [metadata['videos']]. *)
Record video_info := {
  vi_id : string;
  vi_filename : string;
  vi_prompt : string;
  vi_num_frames : Z;
  vi_created_at : string;
  vi_file_size : Z
}.

(** The metadata document [{'videos': [...], 'total_generated': n}]. *)
Record metadata := {
  videos : list video_info;
  total_generated : Z
}.

(** An encoded video on disk: its playing time in seconds and its size. *)
Record video_file := {
  vf_duration : Q;
  vf_size : Z
}.

(** Observable effects of the asynchronous frame pipeline. [Request]
    is one [session.get(url)]; the url is determined by the prompt and the
    seed, the frame index and the attempt are the loop variables. *)
Inductive event :=
| Request (index attempt : nat) (prompt : string) (seed : Z)
| Sleep (seconds : Z)
| WriteFrame (path : string).

(** The process state the handlers read and write. Directories are keyed
    by the path of the regular files they hold; [metadata_file = None]
    means that [video_metadata.json] does not exist. *)
Record world := {
  frames_dir : gset string;
  videos_dir : gmap string video_file;
  metadata_file : option metadata;
  session : gmap string bool;
  net_log : list event
}.

Definition set_frames_dir (f : gset string) (w : world) : world :=
  {| frames_dir := f; videos_dir := videos_dir w;
     metadata_file := metadata_file w; session := session w;
     net_log := net_log w |}.

Definition set_videos_dir (v : gmap string video_file) (w : world) : world :=
  {| frames_dir := frames_dir w; videos_dir := v;
     metadata_file := metadata_file w; session := session w;
     net_log := net_log w |}.

Definition set_metadata_file (m : option metadata) (w : world) : world :=
  {| frames_dir := frames_dir w; videos_dir := videos_dir w;
     metadata_file := m; session := session w;
     net_log := net_log w |}.

Definition set_session (s : gmap string bool) (w : world) : world :=
  {| frames_dir := frames_dir w; videos_dir := videos_dir w;
     metadata_file := metadata_file w; session := s;
     net_log := net_log w |}.

Definition set_net_log (l : list event) (w : world) : world :=
  {| frames_dir := frames_dir w; videos_dir := videos_dir w;
     metadata_file := metadata_file w; session := session w;
     net_log := l |}.

(** ** Computations that may raise *)

Inductive res (A : Type) :=
| Ret (a : A)
| Raise (msg : string).
Arguments Ret {A} a.
Arguments Raise {A} msg.

Definition M (A : Type) : Type := world -> res A * world.

Definition ret {A} (a : A) : M A := fun w => (Ret a, w).
Definition raise {A} (msg : string) : M A := fun w => (Raise msg, w).
Definition bind {A B} (m : M A) (k : A -> M B) : M B :=
  fun w => match m w with
           | (Ret a, w') => k a w'
           | (Raise msg, w') => (Raise msg, w')
           end.
(** [try: m except Exception as e: h(str(e))]; effects of [m] are kept. *)
Definition try_except {A} (m : M A) (h : string -> M A) : M A :=
  fun w => match m w with
           | (Ret a, w') => (Ret a, w')
           | (Raise msg, w') => h msg w'
           end.
Definition lift {A} (r : res A) : M A := fun w => (r, w).
Definition modify (f : world -> world) : M unit := fun w => (Ret tt, f w).
Definition gets {A} (f : world -> A) : M A := fun w => (Ret (f w), w).

Notation "'do' x <- m ;; k" := (bind m (fun x => k))
  (at level 10, x name, m at level 99, k at level 200).
Notation "'run' m ;; k" := (bind m (fun _ => k))
  (at level 10, m at level 99, k at level 200).

(** ** Metadata store (lines 29-37) *)

Definition empty_metadata : metadata :=
  {| videos := []; total_generated := 0 |}.

Definition load_metadata (w : world) : metadata :=
  match metadata_file w with
  | Some m => m
  | None => empty_metadata
  end.

Definition save_metadata (m : metadata) (w : world) : world :=
  set_metadata_file (Some m) w.

(** ** Remote image fetcher (lines 39-66) *)

(** What one pass through the [try] block meets: a response with a status
    code (for 200 the body is then read and saved), or an exception
    raised by the request or by reading the body. *)
Inductive outcome :=
| Status (code : Z)
| TransportError.

Definition frame_file (index : nat) : string :=
  Py.path_join FRAMES_DIR ("frame_" +:+ Py.fmt_03d index +:+ ".png").

(** The body of the retry loop for one attempt: the value returned from
    the function, if any, and the effects after the request. *)
Definition attempt_body (o : outcome) (index attempt max_retries : nat)
  : option string * list event :=
  match o with
  | Status code =>
      if code =? 200 then
        (Some (frame_file index), [WriteFrame (frame_file index)])
      else if code =? 429 then
        (None, [Sleep ((Z.of_nat attempt + 1) * 5)])
      else
        (None, [Sleep 3])
  | TransportError =>
      (None, if Z.of_nat attempt <? Z.of_nat max_retries - 1
             then [Sleep 3] else [])
  end.

(** [for attempt in attempts: ...] followed by [return None]. *)
Fixpoint retry_loop (srv : nat -> outcome) (prompt : string) (seed : Z)
    (index max_retries : nat) (attempts : list nat)
  : option string * list event :=
  match attempts with
  | [] => (None, [])
  | attempt :: rest =>
      match attempt_body (srv attempt) index attempt max_retries with
      | (Some p, evs) => (Some p, Request index attempt prompt seed :: evs)
      | (None, evs) =>
          let '(r, evs') := retry_loop srv prompt seed index max_retries rest in
          (r, Request index attempt prompt seed :: evs ++ evs')
      end
  end.

Definition generate_image_async (srv : nat -> outcome) (prompt : string)
    (seed : Z) (index : nat) (max_retries : nat) : option string * list event :=
  retry_loop srv prompt seed index max_retries (seq 0 max_retries).

(** ** Frame sequence orchestrator (lines 68-91) *)

(** [range(n)] *)
Definition py_range (n : Z) : list nat := seq 0 (Z.to_nat n).

Fixpoint frames_loop (srv : nat -> nat -> outcome) (prompt : string)
    (base_seed num_frames : Z) (indices : list nat)
  : list (option string) * list event :=
  match indices with
  | [] => ([], [])
  | i :: rest =>
      let seed := base_seed + Z.of_nat i in
      let variation_prompt :=
        prompt +:+ ", cinematic scene " +:+ Py.str_int (Z.of_nat i + 1) in
      let '(frame_path, evs) :=
        generate_image_async (srv i) variation_prompt seed i 5 in
      let pause := if Z.of_nat i <? num_frames - 1 then [Sleep 2] else [] in
      let '(paths, evs') := frames_loop srv prompt base_seed num_frames rest in
      (frame_path :: paths, evs ++ pause ++ evs')
  end.

Definition generate_frames (srv : nat -> nat -> outcome) (prompt : string)
    (base_seed num_frames : Z) : list string * list event :=
  let '(frame_paths, evs) :=
    frames_loop srv prompt base_seed num_frames (py_range num_frames) in
  (omap id frame_paths, evs).

(** [asyncio.run(coro)]: the effects of the coroutine reach the world. *)
Definition apply_event (ev : event) (w : world) : world :=
  match ev with
  | WriteFrame p => set_net_log (net_log w ++ [ev]) (set_frames_dir ({[p]} ∪ frames_dir w) w)
  | _ => set_net_log (net_log w ++ [ev]) w
  end.

Definition asyncio_run {A} (coro : A * list event) : M A :=
  fun w => (Ret (fst coro), fold_left (fun w ev => apply_event ev w) (snd coro) w).

(** ** Video assembler (lines 93-120) *)

(** A moviepy clip; only its playing time (seconds) is tracked. *)
Record clip := { clip_duration : Q }.

Definition Qltb (a b : Q) : bool :=
  (Qnum a * QDen b <? Qnum b * QDen a)%Z.

(** [a / b] on integers (true division); raises on a zero divisor. *)
Definition py_div (a b : Z) : res Q :=
  if b =? 0 then Raise "division by zero"
  else Ret (inject_Z a / inject_Z b)%Q.

(** [ImageSequenceClip(frame_paths, fps=fps)]: every image is shown for
    [1/fps] seconds; an empty sequence is rejected. *)
Definition ImageSequenceClip (frame_paths : list string) (fps : Z) : res clip :=
  match frame_paths with
  | [] => Raise "list index out of range"
  | _ =>
      match py_div (Z.of_nat (length frame_paths)) fps with
      | Ret d => Ret {| clip_duration := d |}
      | Raise msg => Raise msg
      end
  end.

(** [concatenate_videoclips(clips)]: the clips are played one after the
    other. *)
Definition concatenate_videoclips (clips : list clip) : res clip :=
  match clips with
  | [] => Raise "list index out of range"
  | _ => Ret {| clip_duration :=
                  fold_right (fun c acc => (clip_duration c + acc)%Q) 0%Q clips |}
  end.

(** [clip.subclipped(start, end)]: the part of the clip between the two
    times, which must lie inside the clip; it lasts [end - start]. *)
Definition subclipped (c : clip) (start_time end_time : Q) : res clip :=
  if Qltb start_time (clip_duration c) && Qle_bool end_time (clip_duration c)
  then Ret {| clip_duration := (end_time - start_time)%Q |}
  else Raise "subclip times outside the clip".

(** [[clip] * n] *)
Definition list_mul {A} (x : A) (n : Z) : list A := repeat x (Z.to_nat n).

(** [int(4 / duration) + 1] *)
Definition num_loops (duration : Q) : res Z :=
  if Qeq_bool duration 0 then Raise "float division by zero"
  else Ret (Py.int (4 / duration)%Q + 1).

(** Lines 104-109: the duration normalisation. *)
Definition normalize_duration (c : clip) (duration : Q) : res clip :=
  if Qltb duration 4 then
    match num_loops duration with
    | Ret n =>
        match concatenate_videoclips (list_mul c n) with
        | Ret looped => subclipped looped 0 4
        | Raise msg => Raise msg
        end
    | Raise msg => Raise msg
    end
  else if Qltb 6 duration then
    subclipped c 0 6
  else Ret c.

(** [Image.open(p)], [resize], [save(p)] for every frame: the files stay
    where they are; a missing file raises. The world records which frame
    files exist, not their pixels, so the resize in place does not show
    in it. *)
Definition resize_frames (frame_paths : list string) : M unit :=
  fun w =>
    if forallb (fun p => bool_decide (p ∈ frames_dir w)) frame_paths
    then (Ret tt, w)
    else (Raise "No such file or directory", w).

(** [clip.write_videofile(output_path, ...)]. [fault] is the exception
    raised by the imaging or encoding library, if any; as nothing before
    this step changes the directories, it is raised here; a failing
    encoder is taken to leave no file behind. [size] is the size of the
    file produced. *)
Definition write_videofile (fault : option string) (size : Z) (c : clip)
    (output_path : string) : M unit :=
  match fault with
  | Some msg => raise msg
  | None =>
      modify (fun w =>
        set_videos_dir
          (<[output_path := {| vf_duration := clip_duration c; vf_size := size |}]>
             (videos_dir w)) w)
  end.

Definition create_video (fault : option string) (size : Z)
    (frame_paths : list string) (output_filename : string) (fps : Z) : M string :=
  run resize_frames frame_paths ;;
  do clip0 <- lift (ImageSequenceClip frame_paths fps) ;;
  do duration <- lift (py_div (Z.of_nat (length frame_paths)) fps) ;;
  do clip1 <- lift (normalize_duration clip0 duration) ;;
  let output_path := Py.path_join VIDEOS_DIR output_filename in
  run write_videofile fault size clip1 output_path ;;
  ret output_path.

(** ** The duration arithmetic in double precision (lines 100-109)

    Python's [float] is the IEEE 754 binary64 format: 53 bits of
    precision, results rounded to the nearest value, ties to even. The
    operations are those of the standard library's [SpecFloat]. *)

Module Double.

Definition float : Type := SpecFloat.spec_float.

Definition prec : Z := 53.
Definition emax : Z := 1024.

(** [float(n)]; exact for the integers met here (below 2^53). *)
Definition of_int (n : Z) : float := SpecFloat.binary_normalize prec emax n 0 false.

Definition add : float -> float -> float := SpecFloat.SFadd prec emax.
Definition sub : float -> float -> float := SpecFloat.SFsub prec emax.
Definition div : float -> float -> float := SpecFloat.SFdiv prec emax.
Definition ltb : float -> float -> bool := SpecFloat.SFltb.
Definition leb : float -> float -> bool := SpecFloat.SFleb.

Definition is_zero (x : float) : bool :=
  match x with SpecFloat.S754_zero _ => true | _ => false end.

(** [int(x)]: the fractional part is dropped. *)
Definition int (x : float) : res Z :=
  match x with
  | SpecFloat.S754_zero _ => Ret 0
  | SpecFloat.S754_finite s m e =>
      let magnitude := if 0 <=? e then Z.pos m * 2 ^ e else Z.pos m / 2 ^ (- e) in
      Ret (if s then - magnitude else magnitude)
  | SpecFloat.S754_infinity _ => Raise "cannot convert float infinity to integer"
  | SpecFloat.S754_nan => Raise "cannot convert float NaN to integer"
  end.

(** [a / b] on integers: the quotient, rounded once. *)
Definition py_div (a b : Z) : res float :=
  if b =? 0 then Raise "division by zero" else Ret (div (of_int a) (of_int b)).

(** The terms added one after the other, starting from 0, as numpy's
    [cumsum] does, and [sum] in CPython before 3.12. *)
Definition sum (xs : list float) : float := fold_left add xs (of_int 0).

(** A moviepy clip, kept as the expression that builds it. *)
#[warnings="-register-all"]
Inductive clip :=
| Images (frame_paths : list string) (fps : Z)
| Concatenated (clips : list clip)
| Subclip (c : clip) (start_time end_time : Z).

(** [clip.duration]. An image sequence shows every image for [1.0 / fps]
    seconds and lasts the sum of these; a concatenation lasts the sum of
    its parts; a subclip lasts [end_time - start_time]. *)
Fixpoint clip_duration (c : clip) : float :=
  match c with
  | Images frame_paths fps =>
      sum (map (fun _ => div (of_int 1) (of_int fps)) frame_paths)
  | Concatenated clips => sum (map clip_duration clips)
  | Subclip _ start_time end_time => sub (of_int end_time) (of_int start_time)
  end.

Definition ImageSequenceClip (frame_paths : list string) (fps : Z) : res clip :=
  match frame_paths with
  | [] => Raise "list index out of range"
  | _ =>
      if fps =? 0 then Raise "float division by zero"
      else Ret (Images frame_paths fps)
  end.

Definition concatenate_videoclips (clips : list clip) : res clip :=
  match clips with
  | [] => Raise "list index out of range"
  | _ => Ret (Concatenated clips)
  end.

(** [0.00000001] *)
Definition tolerance : float := div (of_int 1) (of_int 100000000).

(** [clip.subclipped(start_time, end_time)] for times that are not
    negative: the start must lie before the end of the clip, and the end
    at most [tolerance] after it. *)
Definition subclipped (c : clip) (start_time end_time : Z) : res clip :=
  if leb (clip_duration c) (of_int start_time)
  then Raise "start_time should be smaller than the clip's duration"
  else if ltb tolerance (sub (of_int end_time) (clip_duration c))
  then Raise "end_time should be smaller or equal to the clip's duration"
  else Ret (Subclip c start_time end_time).

(** Line 105: [int(4 / duration) + 1] *)
Definition num_loops (duration : float) : res Z :=
  if is_zero duration then Raise "float division by zero"
  else
    match int (div (of_int 4) duration) with
    | Ret n => Ret (n + 1)
    | Raise msg => Raise msg
    end.

(** Lines 104-109. *)
Definition normalize_duration (c : clip) (duration : float) : res clip :=
  if ltb duration (of_int 4) then
    match num_loops duration with
    | Ret n =>
        match concatenate_videoclips (list_mul c n) with
        | Ret looped => subclipped looped 0 4
        | Raise msg => Raise msg
        end
    | Raise msg => Raise msg
    end
  else if ltb (of_int 6) duration then
    subclipped c 0 6
  else Ret c.

(** Lines 100-109: the clip [create_video] hands to [write_videofile]. *)
Definition create_video_clip (frame_paths : list string) (fps : Z) : res clip :=
  match ImageSequenceClip frame_paths fps with
  | Ret c =>
      match py_div (Z.of_nat (length frame_paths)) fps with
      | Ret duration => normalize_duration c duration
      | Raise msg => Raise msg
      end
  | Raise msg => Raise msg
  end.

End Double.

(** ** Transient frames (lines 122-130) *)

Definition cleanup_frames : M unit := modify (set_frames_dir ∅).

(** ** HTTP responses *)

Inductive jvalue :=
| JBool (b : bool)
| JStr (s : string)
| JInt (n : Z)
| JMegabytes (bytes : Z).   (* round(bytes / (1024 * 1024), 2) *)

Inductive body :=
| Jsonify (obj : list (string * jvalue))
| RenderTemplate (name : string) (context : option metadata)
| RedirectTo (endpoint : string)
| SendFile (path : string)
| Text (s : string).

Record response := { resp_body : body; resp_status : Z }.

Definition jsonify (obj : list (string * jvalue)) (status : Z) : response :=
  {| resp_body := Jsonify obj; resp_status := status |}.

(** ** Admin routes (lines 132-186) *)

(** [session.get('admin_logged_in')] as a truth value. *)
Definition logged_in (w : world) : bool :=
  match session w !! "admin_logged_in" with
  | Some b => b
  | None => false
  end.

Definition index (w : world) : response * world :=
  ({| resp_body := RenderTemplate "index.html" None; resp_status := 200 |}, w).

Definition admin (w : world) : response * world :=
  if negb (logged_in w) then
    ({| resp_body := RedirectTo "admin_login"; resp_status := 302 |}, w)
  else
    ({| resp_body := RenderTemplate "admin.html" (Some (load_metadata w));
        resp_status := 200 |}, w).

Inductive method := GET | POST.

(** [password] is [request.json.get('password')]. *)
Definition admin_login (env : environ) (m : method) (password : option string)
    (w : world) : response * world :=
  match m with
  | POST =>
      if negb (Py.truthy_opt (ADMIN_PASSWORD env)) then
        (jsonify [("success", JBool false);
                  ("error", JStr "Admin password not configured. Please set ADMIN_PASSWORD in Replit Secrets.")]
                 500, w)
      else if Py.truthy_opt password
              && bool_decide (password = ADMIN_PASSWORD env) then
        (jsonify [("success", JBool true)] 200,
         set_session (<["admin_logged_in" := true]> (session w)) w)
      else
        (jsonify [("success", JBool false); ("error", JStr "Invalid password")] 401, w)
  | GET =>
      ({| resp_body := RenderTemplate "admin_login.html" None; resp_status := 200 |}, w)
  end.

Definition admin_logout (w : world) : response * world :=
  ({| resp_body := RedirectTo "index"; resp_status := 302 |},
   set_session (delete "admin_logged_in" (session w)) w).

(** The [for video in metadata['videos']: ... break] search. *)
Fixpoint find_video (video_id : string) (vs : list video_info) : option video_info :=
  match vs with
  | [] => None
  | video :: rest =>
      if String.eqb (vi_id video) video_id then Some video
      else find_video video_id rest
  end.

Definition delete_video (video_id : string) (w : world) : response * world :=
  if negb (logged_in w) then (jsonify [("error", JStr "Unauthorized")] 401, w)
  else
    let metadata := load_metadata w in
    match find_video video_id (videos metadata) with
    | Some video_to_delete =>
        let video_path := Py.path_join VIDEOS_DIR (vi_filename video_to_delete) in
        let w1 :=
          if bool_decide (is_Some (videos_dir w !! video_path))
          then set_videos_dir (delete video_path (videos_dir w)) w
          else w in
        let metadata' :=
          {| videos := List.filter (fun v => negb (String.eqb (vi_id v) video_id))
                                   (videos metadata);
             total_generated := total_generated metadata |} in
        (jsonify [("success", JBool true)] 200, save_metadata metadata' w1)
    | None => (jsonify [("error", JStr "Video not found")] 404, w)
    end.

(** ** Generation route (lines 188-240) *)

(** What the outside world supplies to one [POST /generate]. *)
Record gen_env := {
  server : nat -> nat -> outcome;   (* answer to attempt [a] for frame [i] *)
  base_seed : Z;                    (* random.randint(1, 1000000) *)
  clock : Z;                        (* int(time.time()) *)
  id_suffix : Z;                    (* random.randint(1000, 9999) *)
  now_iso : string;                 (* datetime.now().isoformat() *)
  encoder_fault : option string;    (* exception raised while encoding *)
  encoded_size : Z                  (* size of the encoded file *)
}.

(** Lines 197-198. *)
Definition coerce_num_frames (num_frames : Z) : Z :=
  if (num_frames <? 10) || (num_frames >? 20) then 15 else num_frames.

(** [os.path.getsize(path)] *)
Definition getsize (path : string) : M Z :=
  fun w => match videos_dir w !! path with
           | Some f => (Ret (vf_size f), w)
           | None => (Raise "No such file or directory", w)
           end.

Definition error_response (msg : string) (status : Z) : response :=
  jsonify [("error", JStr msg)] status.

(** The [try] block of [generate_video]. *)
Definition generate_video_try (prompt : string) (num_frames : Z) (e : gen_env)
  : M response :=
  run cleanup_frames ;;
  do frame_paths <-
    asyncio_run (generate_frames (server e) prompt (base_seed e) num_frames) ;;
  match frame_paths with
  | [] => ret (error_response "Failed to generate frames" 500)
  | _ =>
      let timestamp := clock e in
      let output_filename := "anvesh_video_" +:+ Py.str_int timestamp +:+ ".mp4" in
      do video_path <-
        create_video (encoder_fault e) (encoded_size e) frame_paths output_filename 24 ;;
      run cleanup_frames ;;
      do metadata <- gets load_metadata ;;
      let video_id :=
        "vid_" +:+ Py.str_int timestamp +:+ "_" +:+ Py.str_int (id_suffix e) in
      do file_size <- getsize video_path ;;
      let video_info :=
        {| vi_id := video_id;
           vi_filename := output_filename;
           vi_prompt := prompt;
           vi_num_frames := Z.of_nat (length frame_paths);
           vi_created_at := now_iso e;
           vi_file_size := file_size |} in
      run modify (save_metadata
                    {| videos := video_info :: videos metadata;
                       total_generated := total_generated metadata + 1 |}) ;;
      ret (jsonify [("success", JBool true);
                    ("video_url", JStr ("/static/videos/" +:+ output_filename));
                    ("download_url", JStr ("/download/" +:+ output_filename));
                    ("frames_generated", JInt (Z.of_nat (length frame_paths)))]
                   200)
  end.

(** [prompt] and [num_frames] are the two keys of the JSON body, [None]
    when the key is absent. *)
Definition generate_video (prompt : option string) (num_frames : option Z)
    (e : gen_env) : M response :=
  let prompt := Py.strip (default "" prompt) in
  let num_frames := default 15 num_frames in
  if negb (Py.truthy_str prompt) then
    ret (error_response "Prompt is required" 400)
  else
    let num_frames := coerce_num_frames num_frames in
    try_except (generate_video_try prompt num_frames e)
      (fun msg => run cleanup_frames ;; ret (error_response msg 500)).

(** ** Remaining routes (lines 242-261) *)

Definition download_video (filename : string) (w : world) : response * world :=
  let video_path := Py.path_join VIDEOS_DIR filename in
  if bool_decide (is_Some (videos_dir w !! video_path)) then
    ({| resp_body := SendFile video_path; resp_status := 200 |}, w)
  else
    ({| resp_body := Text "Video not found"; resp_status := 404 |}, w).

Definition stats (w : world) : response * world :=
  if negb (logged_in w) then (error_response "Unauthorized" 401, w)
  else
    let metadata := load_metadata w in
    let total_size :=
      fold_right Z.add 0 (map vi_file_size (videos metadata)) in
    (jsonify [("total_videos", JInt (Z.of_nat (length (videos metadata))));
              ("total_generated", JInt (total_generated metadata));
              ("total_storage_mb", JMegabytes total_size)] 200, w).

(** ** The application as a transition system *)

Inductive request :=
| GetIndex
| GetAdmin
| AdminLogin (m : method) (password : option string)
| GetAdminLogout
| DeleteVideo (video_id : string)
| PostGenerate (prompt : option string) (num_frames : option Z) (e : gen_env)
| GetDownload (filename : string)
| GetStats.

(** Flask turns an exception that escapes a view into a 500 response. *)
Definition flask_view (m : M response) (w : world) : response * world :=
  match m w with
  | (Ret r, w') => (r, w')
  | (Raise msg, w') =>
      ({| resp_body := Text "Internal Server Error"; resp_status := 500 |}, w')
  end.

Definition handle (env : environ) (r : request) (w : world) : response * world :=
  match r with
  | GetIndex => index w
  | GetAdmin => admin w
  | AdminLogin m password => admin_login env m password w
  | GetAdminLogout => admin_logout w
  | DeleteVideo video_id => delete_video video_id w
  | PostGenerate prompt num_frames e => flask_view (generate_video prompt num_frames e) w
  | GetDownload filename => download_video filename w
  | GetStats => stats w
  end.

(** Serving a sequence of requests, one after the other. *)
Fixpoint serve (env : environ) (rs : list request) (w : world) : world :=
  match rs with
  | [] => w
  | r :: rest => serve env rest (snd (handle env r w))
  end.

(** The process right after start-up, with no metadata document yet. *)
Definition initial_world : world :=
  {| frames_dir := ∅; videos_dir := ∅; metadata_file := None;
     session := ∅; net_log := [] |}.

(** ** Sample environments *)

Definition all_ok : nat -> nat -> outcome := fun _ _ => Status 200.

Definition env_at (srv : nat -> nat -> outcome) (t r : Z) : gen_env :=
  {| server := srv; base_seed := 42; clock := t; id_suffix := r;
     now_iso := "2025-01-01T00:00:00"; encoder_fault := None;
     encoded_size := 1000 |}.

(** * Vocabulary of the properties *)

Definition written (evs : list event) : list string :=
  omap (fun ev => match ev with WriteFrame p => Some p | _ => None end) evs.

Definition after_events (evs : list event) (w : world) : world :=
  fold_left (fun w ev => apply_event ev w) evs w.

Definition frames_present (frame_paths : list string) (w : world) : bool :=
  forallb (fun p => bool_decide (p ∈ frames_dir w)) frame_paths.

Definition stored (c : clip) (size : Z) : video_file :=
  {| vf_duration := clip_duration c; vf_size := size |}.

Definition output_name (e : gen_env) : string :=
  "anvesh_video_" +:+ Py.str_int (clock e) +:+ ".mp4".

Definition new_id (e : gen_env) : string :=
  "vid_" +:+ Py.str_int (clock e) +:+ "_" +:+ Py.str_int (id_suffix e).

Definition new_record (prompt : string) (frames : list string) (e : gen_env)
  : video_info :=
  {| vi_id := new_id e;
     vi_filename := output_name e;
     vi_prompt := prompt;
     vi_num_frames := Z.of_nat (length frames);
     vi_created_at := now_iso e;
     vi_file_size := encoded_size e |}.

Definition success_response (frames : list string) (e : gen_env) : response :=
  jsonify [("success", JBool true);
           ("video_url", JStr ("/static/videos/" +:+ output_name e));
           ("download_url", JStr ("/download/" +:+ output_name e));
           ("frames_generated", JInt (Z.of_nat (length frames)))] 200.

(** The world once the frames have been fetched. *)
Definition fetched (prompt : string) (num_frames : Z) (e : gen_env) (w : world)
  : world :=
  after_events (snd (generate_frames (server e) prompt (base_seed e) num_frames))
    (set_frames_dir ∅ w).

Definition is_ok (o : outcome) : bool :=
  match o with
  | Status code => code =? 200
  | TransportError => false
  end.

Definition is_request (ev : event) : bool :=
  match ev with Request _ _ _ _ => true | _ => false end.

(** [e2] is the effect right after [e1] in the trace. *)
Definition followed_by (tr : list event) (e1 e2 : event) : Prop :=
  exists pre post, tr = pre ++ e1 :: e2 :: post.

(** [e] is the last effect of the trace. *)
Definition ends_with (tr : list event) (e : event) : Prop :=
  exists pre, tr = pre ++ [e].

Definition one_frame_world : world :=
  set_frames_dir {[ frame_file 0 ]} initial_world.

(** Frame [i] is obtained iff one of its five attempts is answered 200. *)
Definition succeeds (srv_i : nat -> outcome) : bool :=
  existsb (fun a => is_ok (srv_i a)) (seq 0 5).

(** The frames a trace asks the service for, in the order of their
    first request. *)
Definition requested_frames (evs : list event) : list nat :=
  omap (fun ev => match ev with Request i O _ _ => Some i | _ => None end) evs.

Definition frame_result (srv : nat -> nat -> outcome) (i : nat) : option string :=
  if succeeds (srv i) then Some (frame_file i) else None.

(** The clip every successful request stores: 4 seconds long. *)
Definition four_seconds : clip := {| clip_duration := 4 - 0 |}.

(** The service answers 429 to every attempt for frame 3 and 200
    otherwise. *)
Definition frame_3_limited : nat -> nat -> outcome :=
  fun i _ => if (i =? 3)%nat then Status 429 else Status 200.

Definition never_ok : nat -> nat -> outcome := fun _ _ => Status 503.

Definition stale_world : world :=
  set_frames_dir {[ frame_file 0; frame_file 1 ]}
    (set_metadata_file (Some {| videos := []; total_generated := 7 |}) initial_world).

Definition broken_encoder : gen_env :=
  {| server := all_ok; base_seed := 42; clock := 1700000000; id_suffix := 1234;
     now_iso := "2025-01-01T00:00:00";
     encoder_fault := Some "MoviePy error: failed to write the video";
     encoded_size := 0 |}.

Definition other_id (video_id : string) (v : video_info) : bool :=
  negb (String.eqb (vi_id v) video_id).

Definition record_of (id filename : string) : video_info :=
  {| vi_id := id; vi_filename := filename; vi_prompt := "a calm lake at dawn";
     vi_num_frames := 15; vi_created_at := "2025-01-01T00:00:00";
     vi_file_size := 1000 |}.

Definition admin_session : gmap string bool := {[ "admin_logged_in" := true ]}.

(** A document with two different videos. *)
Definition two_videos_world : world :=
  {| frames_dir := ∅;
     videos_dir :=
       {[ "static/videos/anvesh_video_1700000100.mp4" := stored four_seconds 1000;
          "static/videos/anvesh_video_1700000000.mp4" := stored four_seconds 1000 ]};
     metadata_file :=
       Some {| videos := [record_of "vid_1700000100_4321" "anvesh_video_1700000100.mp4";
                          record_of "vid_1700000000_1234" "anvesh_video_1700000000.mp4"];
               total_generated := 2 |};
     session := admin_session;
     net_log := [] |}.

Definition total (w : world) : Z := total_generated (load_metadata w).

Definition is_generate (r : request) : bool :=
  match r with PostGenerate _ _ _ => true | _ => false end.

Definition admin_world : world := set_session admin_session initial_world.

Definition lake (t r : Z) : request :=
  PostGenerate (Some "a calm lake at dawn") (Some 15) (env_at all_ok t r).

(** What [Double.create_video_clip] goes through at 24 frames per second,
    as a function of the number of frames: the natural duration is below
    4, the loop count is the one of exact arithmetic, the looped clip
    lasts longer than 4 seconds and its first 4 seconds can be cut. *)
Definition default_rate_check (len : nat) : bool :=
  let d := Double.div (Double.of_int (Z.of_nat len)) (Double.of_int 24) in
  let shown := Double.sum (repeat (Double.div (Double.of_int 1) (Double.of_int 24)) len) in
  let n := Py.int (4 / (inject_Z (Z.of_nat len) / inject_Z 24))%Q + 1 in
  Double.ltb d (Double.of_int 4)
  && negb (Double.is_zero d)
  && match Double.int (Double.div (Double.of_int 4) d) with
     | Ret k => k + 1 =? n
     | Raise _ => false
     end
  && (0 <? n)
  && (let looped := Double.sum (repeat shown (Z.to_nat n)) in
      Double.ltb (Double.of_int 4) looped
      && negb (Double.leb looped (Double.of_int 0))
      && negb (Double.ltb Double.tolerance (Double.sub (Double.of_int 4) looped))).

(** ** Further vocabulary *)

Definition secret_env : environ := {[ "ADMIN_PASSWORD" := "s3cret" ]}.

Definition touches_session (r : request) : bool :=
  match r with AdminLogin POST _ | GetAdminLogout => true | _ => false end.

Definition touches_videos (r : request) : bool :=
  match r with PostGenerate _ _ _ | DeleteVideo _ => true | _ => false end.

Definition touches_frames (r : request) : bool :=
  match r with PostGenerate _ _ _ => true | _ => false end.

Definition stored_count (w : world) : Z :=
  Z.of_nat (length (videos (load_metadata w))).

Definition video_path (e : gen_env) : string :=
  Py.path_join VIDEOS_DIR (output_name e).

Definition storage_bytes (w : world) : Z :=
  fold_right Z.add 0 (map vi_file_size (videos (load_metadata w))).

Definition stats_response (videos_count generated bytes : Z) : response :=
  jsonify [("total_videos", JInt videos_count);
           ("total_generated", JInt generated);
           ("total_storage_mb", JMegabytes bytes)] 200.

Definition sleep_total (evs : list event) : Z :=
  fold_right (fun ev acc => match ev with Sleep s => s + acc | _ => acc end) 0 evs.

Definition count_requests (evs : list event) : nat :=
  length (List.filter is_request evs).

Definition is_pause (ev : event) : bool :=
  match ev with Sleep s => s =? 2 | _ => false end.

Definition count_pauses (evs : list event) : nat :=
  length (List.filter is_pause evs).

Definition variation (prompt : string) (i : nat) : string :=
  prompt +:+ ", cinematic scene " +:+ Py.str_int (Z.of_nat i + 1).

Definition pause_after (num_frames : Z) (i : nat) : list event :=
  if Z.of_nat i <? num_frames - 1 then [Sleep 2] else [].

Definition before_last (num_frames : Z) (i : nat) : bool :=
  Z.of_nat i <? num_frames - 1.

(** The number a string of decimal digits stands for. *)
Definition digits_value (s : string) : option Z :=
  option_map Z.of_uint (NilEmpty.uint_of_string s).

Fixpoint has_char (c : ascii) (s : string) : bool :=
  match s with
  | EmptyString => false
  | String a r => Ascii.eqb a c || has_char c r
  end.

Definition ids (w : world) : list string := map vi_id (videos (load_metadata w)).

(** * Properties *)

(** ** Sanity checks of the model *)

Example str_int_12 : Py.str_int 12 = "12". Proof. reflexivity. Qed.
Example str_int_neg : Py.str_int (-7) = "-7". Proof. reflexivity. Qed.
Example fmt_03d_7 : Py.fmt_03d 7 = "007". Proof. reflexivity. Qed.
Example fmt_03d_19 : Py.fmt_03d 19 = "019". Proof. reflexivity. Qed.
Example strip_lake : Py.strip "  a calm lake  " = "a calm lake". Proof. reflexivity. Qed.
Example join_frames : Py.path_join "frames" "frame_000.png" = "frames/frame_000.png".
Proof. reflexivity. Qed.
Example int_trunc : Py.int (7 # 2) = 3. Proof. reflexivity. Qed.

Example lake_scenario :
  let '(r, w) := handle ∅ (PostGenerate (Some "a calm lake at dawn") (Some 15)
                              (env_at all_ok 1700000000 1234)) initial_world in
  resp_status r = 200 /\
  (exists rest, resp_body r =
     Jsonify (("success", JBool true)
              :: ("video_url", JStr "/static/videos/anvesh_video_1700000000.mp4")
              :: rest)) /\
  (vi_num_frames <$> head (videos (load_metadata w))) = Some 15 /\
  (vi_prompt <$> head (videos (load_metadata w))) = Some "a calm lake at dawn" /\
  (vi_id <$> head (videos (load_metadata w))) = Some "vid_1700000000_1234".
Proof. vm_compute. repeat split; eauto. Qed.

(** ** Effects of the frame pipeline on the world *)

Lemma written_app (l1 l2 : list event) :
  written (l1 ++ l2) = written l1 ++ written l2.
Proof. unfold written. apply omap_app. Qed.

Lemma after_events_spec (evs : list event) (w : world) :
  after_events evs w =
  {| frames_dir := list_to_set (written evs) ∪ frames_dir w;
     videos_dir := videos_dir w;
     metadata_file := metadata_file w;
     session := session w;
     net_log := net_log w ++ evs |}.
Proof.
  unfold after_events. revert w.
  induction evs as [|ev evs IH]; intros w; simpl.
  - destruct w; simpl. f_equal; [by rewrite (left_id_L ∅ (∪)) | by rewrite app_nil_r].
  - rewrite IH. destruct ev; simpl; f_equal;
      try (by rewrite <- app_assoc). by rewrite (assoc_L (∪)), (comm_L (∪) _ {[path]}).
Qed.

Lemma asyncio_run_spec {A} (coro : A * list event) (w : world) :
  asyncio_run coro w = (Ret (fst coro), after_events (snd coro) w).
Proof. reflexivity. Qed.

(** ** The assembler, step by step *)

Lemma create_video_unfold fault size frame_paths output_filename fps w :
  create_video fault size frame_paths output_filename fps w =
  if frames_present frame_paths w then
    match ImageSequenceClip frame_paths fps with
    | Raise msg => (Raise msg, w)
    | Ret clip0 =>
        match py_div (Z.of_nat (length frame_paths)) fps with
        | Raise msg => (Raise msg, w)
        | Ret duration =>
            match normalize_duration clip0 duration with
            | Raise msg => (Raise msg, w)
            | Ret clip1 =>
                match fault with
                | Some msg => (Raise msg, w)
                | None =>
                    (Ret (Py.path_join VIDEOS_DIR output_filename),
                     set_videos_dir
                       (<[Py.path_join VIDEOS_DIR output_filename := stored clip1 size]>
                          (videos_dir w)) w)
                end
            end
        end
    end
  else (Raise "No such file or directory", w).
Proof.
  unfold create_video, bind, resize_frames, lift, frames_present.
  destruct (forallb _ _); [|reflexivity].
  destruct (ImageSequenceClip _ _); [|reflexivity].
  destruct (py_div _ _); [|reflexivity].
  destruct (normalize_duration _ _); [|reflexivity].
  destruct fault; reflexivity.
Qed.

(** [create_video] either raises and leaves the world alone, or stores one
    file under the output path. *)
Lemma create_video_cases fault size frame_paths output_filename fps w :
  (exists msg, create_video fault size frame_paths output_filename fps w = (Raise msg, w))
  \/ (exists c,
        fault = None /\
        create_video fault size frame_paths output_filename fps w =
        (Ret (Py.path_join VIDEOS_DIR output_filename),
         set_videos_dir
           (<[Py.path_join VIDEOS_DIR output_filename := stored c size]>
              (videos_dir w)) w)).
Proof.
  rewrite create_video_unfold.
  destruct (frames_present _ _); [|eauto].
  destruct (ImageSequenceClip _ _); [|eauto].
  destruct (py_div _ _); [|eauto].
  destruct (normalize_duration _ _); [|eauto].
  destruct fault; eauto.
Qed.

(** ** The generation route, step by step *)

Lemma generate_video_try_unfold prompt num_frames e w :
  let frames := fst (generate_frames (server e) prompt (base_seed e) num_frames) in
  let w1 := fetched prompt num_frames e w in
  generate_video_try prompt num_frames e w =
  match frames with
  | [] => (Ret (error_response "Failed to generate frames" 500), w1)
  | _ =>
      match create_video (encoder_fault e) (encoded_size e) frames (output_name e) 24 w1 with
      | (Raise msg, w2) => (Raise msg, w2)
      | (Ret _, w2) =>
          (Ret (success_response frames e),
           save_metadata
             {| videos := new_record prompt frames e :: videos (load_metadata w2);
                total_generated := total_generated (load_metadata w2) + 1 |}
             (set_frames_dir ∅ w2))
      end
  end.
Proof.
  intros frames w1.
  unfold generate_video_try, bind, cleanup_frames, modify.
  rewrite asyncio_run_spec. fold frames. fold (fetched prompt num_frames e w). fold w1.
  destruct frames as [|f fs] eqn:Hf; [reflexivity|]. rewrite <- Hf.
  fold (output_name e).
  destruct (create_video_cases (encoder_fault e) (encoded_size e) frames
              (output_name e) 24 w1) as [[msg ->]|[c [_ ->]]]; [reflexivity|].
  unfold gets, getsize, ret. cbn [videos_dir set_videos_dir set_frames_dir].
  rewrite lookup_insert_eq. reflexivity.
Qed.

Lemma generate_video_unfold prompt num_frames e w :
  let p := Py.strip (default "" prompt) in
  let n := coerce_num_frames (default 15 num_frames) in
  let frames := fst (generate_frames (server e) p (base_seed e) n) in
  let w1 := fetched p n e w in
  flask_view (generate_video prompt num_frames e) w =
  if negb (Py.truthy_str p) then (error_response "Prompt is required" 400, w)
  else
    match frames with
    | [] => (error_response "Failed to generate frames" 500, w1)
    | _ =>
        match create_video (encoder_fault e) (encoded_size e) frames (output_name e) 24 w1 with
        | (Raise msg, w2) => (error_response msg 500, set_frames_dir ∅ w2)
        | (Ret _, w2) =>
            (success_response frames e,
             save_metadata
               {| videos := new_record p frames e :: videos (load_metadata w2);
                  total_generated := total_generated (load_metadata w2) + 1 |}
               (set_frames_dir ∅ w2))
        end
    end.
Proof.
  intros p n frames w1. unfold flask_view, generate_video.
  fold p. fold n. destruct (negb (Py.truthy_str p)); [reflexivity|].
  unfold try_except. rewrite generate_video_try_unfold. fold frames. fold w1.
  destruct frames as [|f fs]; [reflexivity|].
  destruct (create_video _ _ _ _ _ _) as [[path|msg] w2]; reflexivity.
Qed.

(** Generation touches neither the session nor, unless it succeeds, the
    metadata document. *)
Lemma generate_video_session prompt num_frames e w :
  session (snd (flask_view (generate_video prompt num_frames e) w)) = session w.
Proof.
  rewrite generate_video_unfold. cbv zeta.
  destruct (negb _); [reflexivity|]. unfold fetched.
  destruct (fst (generate_frames _ _ _ _)) as [|f fs] eqn:Hf.
  { simpl. by rewrite after_events_spec. }
  match goal with
  | |- context [create_video ?a ?b ?c ?d ?f ?w0] =>
      destruct (create_video_cases a b c d f w0) as [[msg ->]|[c0 [_ ->]]]
  end; simpl; by rewrite after_events_spec.
Qed.

(** ** Configuration *)

(** C10: with [SESSION_SECRET] absent from the environment the
    application still computes a signing key, namely the built-in
    fallback string; with the variable present (whatever else the
    environment holds) the key is the supplied value. *)
Theorem secret_key_fallback_or_env (env : environ) (s : string) :
  secret_key (delete "SESSION_SECRET" env) = "anvesh-ai-video-generator-secret"
  /\ secret_key (<["SESSION_SECRET" := s]> env) = s.
Proof.
  unfold secret_key. split.
  - by rewrite lookup_delete_eq.
  - by rewrite lookup_insert_eq.
Qed.

(** ** Admin login without a configured password *)

Lemma admin_password_unset (env : environ) :
  ADMIN_PASSWORD (delete "ADMIN_PASSWORD" env) = None.
Proof. unfold ADMIN_PASSWORD. apply lookup_delete_eq. Qed.

Lemma handle_session_without_password (env : environ) (r : request) (w : world) :
  ADMIN_PASSWORD env = None ->
  logged_in w = false ->
  logged_in (snd (handle env r w)) = false.
Proof.
  intros Hpw Hw. destruct r; simpl; try assumption.
  - unfold admin. rewrite Hw. assumption.
  - unfold admin_login. destruct m; [assumption|]. rewrite Hpw. assumption.
  - unfold logged_in. simpl. by rewrite lookup_delete_eq.
  - unfold delete_video. rewrite Hw. assumption.
  - unfold logged_in. rewrite generate_video_session. exact Hw.
  - unfold download_video. destruct (bool_decide _); assumption.
  - unfold stats. rewrite Hw. assumption.
Qed.

(** Without a password no sequence of requests ever opens the admin
    session. *)
Lemma serve_fails_closed (env : environ) (rs : list request) (w : world) :
  ADMIN_PASSWORD env = None ->
  logged_in w = false ->
  logged_in (serve env rs w) = false.
Proof.
  intros Hpw. revert w. induction rs as [|r rs IH]; intros w Hw; [exact Hw|].
  simpl. apply IH. by apply handle_session_without_password.
Qed.

(** C8: with [ADMIN_PASSWORD] unset, start-up only prints the two warning
    lines, and every [POST /admin/login], whatever password it carries,
    is answered with status 500 (a 5xx status) and [success: false] and
    leaves the whole state, the session included, as it was. *)
Theorem admin_login_fails_closed (env : environ) (password : option string)
    (w : world) :
  let env' := delete "ADMIN_PASSWORD" env in
  let '(r, w') := handle env' (AdminLogin POST password) w in
  startup_console env' = [warning_1; warning_2]
  /\ resp_status r = 500
  /\ 500 <= resp_status r < 600
  /\ (exists msg, resp_body r = Jsonify [("success", JBool false); ("error", JStr msg)])
  /\ w' = w
  /\ session w' !! "admin_logged_in" = session w !! "admin_logged_in".
Proof.
  simpl. unfold admin_login, startup_console.
  rewrite admin_password_unset. simpl.
  repeat split; try lia. eexists; reflexivity.
Qed.

(** ** Remote image fetcher *)

Section Fetcher.
Variable srv : nat -> outcome.
Variables (prompt : string) (seed : Z) (index max_retries : nat).

Local Abbreviation loop := (retry_loop srv prompt seed index max_retries).

Lemma attempt_body_fst (o : outcome) (attempt : nat) :
  fst (attempt_body o index attempt max_retries) =
  if is_ok o then Some (frame_file index) else None.
Proof.
  destruct o as [code|]; simpl; [|reflexivity].
  destruct (code =? 200); [reflexivity|]. by destruct (code =? 429).
Qed.

Lemma retry_loop_cons (attempt : nat) (rest : list nat) :
  loop (attempt :: rest) =
  if is_ok (srv attempt) then
    (Some (frame_file index),
     Request index attempt prompt seed
       :: snd (attempt_body (srv attempt) index attempt max_retries))
  else
    (fst (loop rest),
     Request index attempt prompt seed
       :: snd (attempt_body (srv attempt) index attempt max_retries)
       ++ snd (loop rest)).
Proof.
  simpl.
  pose proof (attempt_body_fst (srv attempt) attempt) as Hb.
  destruct (attempt_body _ _ _ _) as [r evs]. simpl in Hb. subst r.
  destruct (is_ok (srv attempt)); [reflexivity|].
  by destruct (retry_loop _ _ _ _ _ rest).
Qed.

Lemma retry_loop_result (attempts : list nat) :
  fst (loop attempts) =
  if existsb (fun a => is_ok (srv a)) attempts
  then Some (frame_file index) else None.
Proof.
  induction attempts as [|a rest IH]; [reflexivity|].
  rewrite retry_loop_cons. simpl. by destruct (is_ok (srv a)).
Qed.

Lemma attempt_body_no_request (o : outcome) (attempt : nat) :
  List.filter is_request (snd (attempt_body o index attempt max_retries)) = [].
Proof.
  destruct o as [code|]; simpl.
  - destruct (code =? 200); [reflexivity|]. by destruct (code =? 429).
  - by destruct (_ <? _).
Qed.

Lemma retry_loop_requests (attempts : list nat) :
  (length (List.filter is_request (snd (loop attempts))) <= length attempts)%nat.
Proof.
  induction attempts as [|a rest IH]; [simpl; lia|].
  rewrite retry_loop_cons.
  destruct (is_ok (srv a)); simpl.
  - rewrite attempt_body_no_request. simpl. lia.
  - rewrite List.filter_app, attempt_body_no_request. simpl. lia.
Qed.

Lemma retry_loop_exhausted (attempts : list nat) :
  (forall a, a ∈ attempts -> is_ok (srv a) = false) ->
  fst (loop attempts) = None
  /\ length (List.filter is_request (snd (loop attempts))) = length attempts.
Proof.
  induction attempts as [|a rest IH]; intros Hall; [by split|].
  rewrite retry_loop_cons, (Hall a) by constructor.
  destruct IH as [IH1 IH2]; [intros; apply Hall; by constructor|].
  split; [exact IH1|]. simpl.
  rewrite List.filter_app, attempt_body_no_request. simpl. by rewrite IH2.
Qed.

(** Every attempt that is reached contributes its request, immediately
    followed by the effects of its loop body. *)
Lemma retry_loop_block (before : list nat) (attempt : nat) (after : list nat) :
  (forall b, b ∈ before -> is_ok (srv b) = false) ->
  exists pre post,
    snd (loop (before ++ attempt :: after)) =
    pre ++ Request index attempt prompt seed
        :: snd (attempt_body (srv attempt) index attempt max_retries) ++ post
    /\ (after = [] -> post = []).
Proof.
  induction before as [|b before IH]; intros Hall.
  - simpl app. rewrite retry_loop_cons.
    destruct (is_ok (srv attempt)).
    + exists [], []. simpl. by rewrite app_nil_r.
    + exists [], (snd (loop after)). simpl. split; [reflexivity|].
      by intros ->.
  - destruct IH as (pre & post & Heq & Hpost); [intros; apply Hall; by constructor|].
    simpl app. rewrite retry_loop_cons, (Hall b) by constructor.
    exists (Request index b prompt seed
              :: snd (attempt_body (srv b) index b max_retries) ++ pre), post.
    split; [|exact Hpost]. simpl. rewrite Heq.
    by rewrite <- app_assoc.
Qed.

End Fetcher.

Lemma range5_split (a : nat) :
  (a < 5)%nat -> seq 0 5 = seq 0 a ++ a :: seq (S a) (4 - a).
Proof.
  intros Ha. do 5 (destruct a as [|a]; [reflexivity|]). lia.
Qed.

(** C6: the fetcher issues at most five requests for a frame. Whenever
    attempt number [k] (counted from 1) is reached, a 429 answer is
    followed by a sleep of [k * 5] seconds, any other status except 200 by
    a sleep of 3 seconds, and a transport exception by a sleep of 3
    seconds unless [k = 5], in which case nothing follows the request.
    When none of the five attempts is answered with 200 the result is
    [None] after exactly five requests, and [None] is returned in no
    other case. *)
Theorem generate_image_async_retry_policy
    (srv : nat -> outcome) (prompt : string) (seed : Z) (index : nat) :
  let '(r, tr) := generate_image_async srv prompt seed index 5 in
  (length (List.filter is_request tr) <= 5)%nat
  /\ (forall k : nat,
        (1 <= k <= 5)%nat ->
        (forall j : nat, (1 <= j < k)%nat -> is_ok (srv (Nat.pred j)) = false) ->
        let req := Request index (Nat.pred k) prompt seed in
        (srv (Nat.pred k) = Status 429 ->
           followed_by tr req (Sleep (Z.of_nat k * 5)))
        /\ (forall code, srv (Nat.pred k) = Status code -> code <> 200 -> code <> 429 ->
              followed_by tr req (Sleep 3))
        /\ (srv (Nat.pred k) = TransportError -> (k < 5)%nat ->
              followed_by tr req (Sleep 3))
        /\ (srv (Nat.pred k) = TransportError -> k = 5%nat ->
              ends_with tr req))
  /\ ((forall k : nat, (1 <= k <= 5)%nat -> is_ok (srv (Nat.pred k)) = false) ->
        r = None /\ length (List.filter is_request tr) = 5%nat)
  /\ (r = None ->
        forall k : nat, (1 <= k <= 5)%nat -> is_ok (srv (Nat.pred k)) = false).
Proof.
  destruct (generate_image_async srv prompt seed index 5) as [r tr] eqn:Hrun.
  unfold generate_image_async in Hrun.
  assert (Hr : r = fst (retry_loop srv prompt seed index 5 (seq 0 5)))
    by (by rewrite Hrun).
  assert (Htr : tr = snd (retry_loop srv prompt seed index 5 (seq 0 5)))
    by (by rewrite Hrun).
  clear Hrun. split; [|split; [|split]].
  - subst tr. apply (retry_loop_requests srv prompt seed index 5 (seq 0 5)).
  - intros k Hk Hreach req.
    destruct k as [|a]; [lia|]. simpl Nat.pred in *.
    assert (Ha : (a < 5)%nat) by lia.
    destruct (retry_loop_block srv prompt seed index 5 (seq 0 a) a (seq (S a) (4 - a)))
      as (pre & post & Heq & Hpost).
    { intros b Hb. apply elem_of_seq in Hb.
      specialize (Hreach (S b)). simpl in Hreach. apply Hreach. lia. }
    rewrite <- range5_split in Heq by exact Ha. rewrite <- Htr in Heq.
    repeat split.
    + intros Ho. rewrite Ho in Heq. simpl in Heq.
      exists pre, post. rewrite Heq. subst req. repeat f_equal. lia.
    + intros code Ho H200 H429. rewrite Ho in Heq. simpl in Heq.
      destruct (Z.eqb_spec code 200); [contradiction|].
      destruct (Z.eqb_spec code 429); [contradiction|].
      by exists pre, post.
    + intros Ho Hlt. rewrite Ho in Heq. simpl in Heq.
      destruct (Z.ltb_spec (Z.of_nat a) (Z.of_nat 5 - 1)); [|lia].
      by exists pre, post.
    + intros Ho Hlast. rewrite Ho in Heq. simpl in Heq.
      destruct (Z.ltb_spec (Z.of_nat a) (Z.of_nat 5 - 1)); [lia|].
      assert (a = 4%nat) as -> by lia.
      rewrite (Hpost eq_refl) in Heq. by exists pre.
  - intros Hall. subst r tr.
    change 5%nat with (length (seq 0 5)) at 3.
    apply retry_loop_exhausted. intros a Ha. apply elem_of_seq in Ha.
    apply (Hall (S a)). lia.
  - intros Hnone k Hk. rewrite Hr, retry_loop_result in Hnone.
    destruct (existsb _ _) eqn:Hex; [discriminate|].
    destruct (is_ok (srv (Nat.pred k))) eqn:Hok; [|reflexivity].
    assert (Htrue : existsb (fun a => is_ok (srv a)) (seq 0 5) = true).
    { apply existsb_exists. exists (Nat.pred k). split; [|exact Hok].
      apply in_seq. lia. }
    congruence.
Qed.

Example always_rate_limited :
  generate_image_async (fun _ => Status 429) "p" 7 3 5 =
  (None, [Request 3 0 "p" 7; Sleep 5; Request 3 1 "p" 7; Sleep 10;
          Request 3 2 "p" 7; Sleep 15; Request 3 3 "p" 7; Sleep 20;
          Request 3 4 "p" 7; Sleep 25]).
Proof. reflexivity. Qed.

Example always_unreachable :
  generate_image_async (fun _ => TransportError) "p" 7 3 5 =
  (None, [Request 3 0 "p" 7; Sleep 3; Request 3 1 "p" 7; Sleep 3;
          Request 3 2 "p" 7; Sleep 3; Request 3 3 "p" 7; Sleep 3;
          Request 3 4 "p" 7]).
Proof. reflexivity. Qed.

Example third_time_lucky :
  generate_image_async
    (fun a => match a with 0%nat => Status 503 | 1%nat => Status 429 | _ => Status 200 end)
    "p" 7 3 5 =
  (Some "frames/frame_003.png",
   [Request 3 0 "p" 7; Sleep 3; Request 3 1 "p" 7; Sleep 10;
    Request 3 2 "p" 7; WriteFrame "frames/frame_003.png"]).
Proof. reflexivity. Qed.

(** ** Video assembler: duration normalisation in exact arithmetic *)

Lemma Qltb_lt (a b : Q) : Qltb a b = true <-> (a < b)%Q.
Proof. unfold Qltb, Qlt. apply Z.ltb_lt. Qed.

Lemma Qltb_ge (a b : Q) : Qltb a b = false <-> (b <= a)%Q.
Proof. unfold Qltb, Qle. apply Z.ltb_ge. Qed.

(** On a non-negative rational [int] is the floor, so [int(q) + 1]
    exceeds [q]. *)
Lemma int_succ_gt (q : Q) : (0 <= q)%Q -> (q < inject_Z (Py.int q + 1))%Q.
Proof.
  intros Hq. replace (Py.int q) with (Qfloor q); [apply Qlt_floor|].
  destruct q as [n d]. unfold Py.int, Qfloor. simpl.
  symmetry. apply Z.quot_div_nonneg; [|reflexivity].
  unfold Qle in Hq. simpl in Hq. lia.
Qed.

Lemma int_nonneg (q : Q) : (0 <= q)%Q -> 0 <= Py.int q.
Proof.
  intros Hq. destruct q as [n d]. unfold Py.int. simpl.
  unfold Qle in Hq. simpl in Hq. apply Z.quot_pos; lia.
Qed.

Lemma repeat_duration (c : clip) (n : nat) :
  (fold_right (fun c acc => clip_duration c + acc) 0 (repeat c n)
   == inject_Z (Z.of_nat n) * clip_duration c)%Q.
Proof.
  induction n as [|n IH].
  - simpl. ring.
  - cbn [repeat fold_right]. rewrite IH, Nat2Z.inj_succ.
    unfold Z.succ. rewrite inject_Z_plus. ring.
Qed.

Lemma natural_duration_pos (len fps : Z) :
  0 < len -> 0 < fps -> (0 < inject_Z len / inject_Z fps)%Q.
Proof.
  intros Hl Hf. apply Qlt_shift_div_l.
  - change 0%Q with (inject_Z 0). by rewrite <- Zlt_Qlt.
  - rewrite Qmult_0_l. change 0%Q with (inject_Z 0). by rewrite <- Zlt_Qlt.
Qed.

(** The loop branch: [int(4/d) + 1] copies last longer than 4 seconds, so
    the first 4 seconds can be cut out. *)
Lemma loop_branch (c : clip) :
  (0 < clip_duration c)%Q -> (clip_duration c < 4)%Q ->
  exists looped,
    num_loops (clip_duration c) = Ret (Py.int (4 / clip_duration c)%Q + 1)
    /\ concatenate_videoclips
         (list_mul c (Py.int (4 / clip_duration c)%Q + 1)) = Ret looped
    /\ (clip_duration looped ==
        inject_Z (Py.int (4 / clip_duration c)%Q + 1) * clip_duration c)%Q
    /\ (4 < clip_duration looped)%Q
    /\ subclipped looped 0 4 = Ret {| clip_duration := 4 - 0 |}.
Proof.
  intros Hpos Hlt. set (d := clip_duration c) in *.
  assert (Hq : (0 <= 4 / d)%Q).
  { apply Qle_shift_div_l; [exact Hpos|]. rewrite Qmult_0_l. discriminate. }
  pose proof (int_nonneg _ Hq) as Hn0.
  pose proof (int_succ_gt _ Hq) as Hgt.
  set (n := Py.int (4 / d)%Q + 1) in *.
  assert (Hsum : (fold_right (fun c acc => clip_duration c + acc) 0
                    (list_mul c n) == inject_Z n * d)%Q).
  { unfold list_mul. rewrite repeat_duration. rewrite Z2Nat.id by lia. reflexivity. }
  assert (Hlong : (4 < inject_Z n * d)%Q).
  { assert (Hd : ~ (d == 0)%Q) by (intros Hz; rewrite Hz in Hpos; discriminate).
    assert (H4 : (4 / d * d == 4)%Q) by (field; exact Hd).
    rewrite <- H4. apply Qmult_lt_r; [exact Hpos | exact Hgt]. }
  exists {| clip_duration :=
              fold_right (fun c acc => (clip_duration c + acc)%Q) 0%Q (list_mul c n) |}.
  repeat split.
  - unfold num_loops. destruct (Qeq_bool d 0) eqn:Hz; [|reflexivity].
    apply Qeq_bool_iff in Hz. rewrite Hz in Hpos. discriminate.
  - unfold concatenate_videoclips, list_mul.
    destruct (Z.to_nat n) eqn:Hn; [lia|]. reflexivity.
  - exact Hsum.
  - simpl. rewrite Hsum. exact Hlong.
  - unfold subclipped. simpl clip_duration.
    assert (H4 : (4 < fold_right (fun c acc => clip_duration c + acc) 0 (list_mul c n))%Q)
      by (rewrite Hsum; exact Hlong).
    assert (Hlt0 : Qltb 0 (fold_right (fun c acc => (clip_duration c + acc)%Q) 0%Q
                               (list_mul c n)) = true).
    { apply Qltb_lt. eapply Qlt_trans; [|exact H4]. reflexivity. }
    assert (Hle4 : Qle_bool 4 (fold_right (fun c acc => (clip_duration c + acc)%Q) 0%Q
                                  (list_mul c n)) = true).
    { apply Qle_bool_iff. by apply Qlt_le_weak. }
    rewrite Hlt0, Hle4. reflexivity.
Qed.

Lemma normalize_short (c : clip) :
  (0 < clip_duration c)%Q -> (clip_duration c < 4)%Q ->
  normalize_duration c (clip_duration c) = Ret {| clip_duration := 4 - 0 |}.
Proof.
  intros Hpos Hlt.
  destruct (loop_branch c Hpos Hlt) as (looped & Hn & Hcat & _ & _ & Hsub).
  unfold normalize_duration.
  rewrite (proj2 (Qltb_lt _ _) Hlt), Hn, Hcat. exact Hsub.
Qed.

Lemma normalize_long (c : clip) :
  (6 < clip_duration c)%Q ->
  normalize_duration c (clip_duration c) = Ret {| clip_duration := 6 - 0 |}
  /\ subclipped c 0 6 = Ret {| clip_duration := 6 - 0 |}.
Proof.
  intros Hgt.
  assert (Hsub : subclipped c 0 6 = Ret {| clip_duration := 6 - 0 |}).
  { unfold subclipped.
    assert (H0 : Qltb 0 (clip_duration c) = true).
    { apply Qltb_lt. eapply Qlt_trans; [|exact Hgt]. reflexivity. }
    assert (H6 : Qle_bool 6 (clip_duration c) = true).
    { apply Qle_bool_iff. by apply Qlt_le_weak. }
    rewrite H0, H6. reflexivity. }
  split; [|exact Hsub]. unfold normalize_duration.
  assert (H4 : Qltb (clip_duration c) 4 = false).
  { apply Qltb_ge. apply Qlt_le_weak. eapply Qlt_trans; [|exact Hgt]. reflexivity. }
  rewrite H4, (proj2 (Qltb_lt _ _) Hgt). exact Hsub.
Qed.

Lemma normalize_band (c : clip) :
  (4 <= clip_duration c)%Q -> (clip_duration c <= 6)%Q ->
  normalize_duration c (clip_duration c) = Ret c.
Proof.
  intros H4 H6. unfold normalize_duration.
  by rewrite (proj2 (Qltb_ge _ _) H4), (proj2 (Qltb_ge _ _) H6).
Qed.

(** The three branches on concrete clips: 1 frame, 120 frames and 200
    frames at 24 frames per second. *)
Example one_frame_loops :
  num_loops (1 # 24) = Ret 97
  /\ normalize_duration {| clip_duration := 1 # 24 |} (1 # 24) = Ret {| clip_duration := 4 |}.
Proof. split; reflexivity. Qed.

Example five_seconds_kept :
  normalize_duration {| clip_duration := 120 # 24 |} (120 # 24)
  = Ret {| clip_duration := 120 # 24 |}.
Proof. reflexivity. Qed.

Example long_clip_cut :
  normalize_duration {| clip_duration := 200 # 24 |} (200 # 24)
  = Ret {| clip_duration := 6 |}.
Proof. reflexivity. Qed.

(** ** The loop count in double precision *)

Lemma map_constant {A B} (x : B) (l : list A) :
  map (fun _ => x) l = repeat x (length l).
Proof. induction l as [|a l IH]; [reflexivity|]. simpl. by rewrite IH. Qed.

(** The durations depend on the frames through their number only. *)
Lemma images_duration (frame_paths : list string) (fps : Z) :
  Double.clip_duration (Double.Images frame_paths fps)
  = Double.sum (repeat (Double.div (Double.of_int 1) (Double.of_int fps))
                       (length frame_paths)).
Proof. cbn [Double.clip_duration]. by rewrite map_constant. Qed.

Lemma looped_duration (c : Double.clip) (n : Z) :
  Double.clip_duration (Double.Concatenated (list_mul c n))
  = Double.sum (repeat (Double.clip_duration c) (Z.to_nat n)).
Proof.
  cbn [Double.clip_duration]. unfold list_mul. f_equal.
  induction (Z.to_nat n) as [|k IH]; [reflexivity|]. simpl. by rewrite IH.
Qed.

(** Checked for every length from 1 to 95 by evaluation. *)
Lemma default_rate_checked (len : nat) :
  (1 <= len <= 95)%nat -> default_rate_check len = true.
Proof.
  intros Hlen.
  assert (Hall : forallb default_rate_check (seq 1 95) = true) by (vm_compute; reflexivity).
  rewrite forallb_forall in Hall. apply Hall. apply in_seq. lia.
Qed.

(** At 24 frames per second and for 1 to 95 frames (every natural
    duration below 4 seconds) the double-precision computation takes the
    loop branch with the loop count of exact arithmetic, and the looped
    clip lasts longer than 4 seconds. *)
Lemma default_rate_agrees (frame_paths : list string) :
  (1 <= length frame_paths <= 95)%nat ->
  let len := Z.of_nat (length frame_paths) in
  let natural := Double.Images frame_paths 24 in
  exists (d : Double.float) (n : Z),
    Double.py_div len 24 = Ret d
    /\ Double.ltb d (Double.of_int 4) = true
    /\ Double.num_loops d = Ret n
    /\ num_loops (inject_Z len / inject_Z 24) = Ret n
    /\ Double.ltb (Double.of_int 4)
         (Double.clip_duration (Double.Concatenated (list_mul natural n))) = true
    /\ Double.create_video_clip frame_paths 24
       = Ret (Double.Subclip (Double.Concatenated (list_mul natural n)) 0 4).
Proof.
  intros Hlen len natural.
  pose proof (default_rate_checked _ Hlen) as Hc. unfold default_rate_check in Hc.
  cbv zeta in Hc. fold len in Hc.
  set (d := Double.div (Double.of_int len) (Double.of_int 24)) in *.
  set (n := Py.int (4 / (inject_Z len / inject_Z 24))%Q + 1) in *.
  rewrite <- images_duration in Hc. fold natural in Hc.
  rewrite <- looped_duration in Hc.
  set (looped := Double.Concatenated (list_mul natural n)) in *.
  destruct (Double.ltb d (Double.of_int 4)) eqn:Hshort; [|discriminate].
  destruct (Double.is_zero d) eqn:Hnz; [discriminate|].
  destruct (Double.int (Double.div (Double.of_int 4) d)) as [k|] eqn:Hk; [|discriminate].
  destruct (Z.eqb_spec (k + 1) n) as [Hint|]; [|discriminate].
  destruct (Z.ltb_spec 0 n) as [Hn|]; [|discriminate].
  destruct (Double.ltb (Double.of_int 4) (Double.clip_duration looped)) eqn:Hlong;
    [|discriminate].
  destruct (Double.leb (Double.clip_duration looped) (Double.of_int 0)) eqn:Hstart;
    [discriminate|].
  destruct (Double.ltb Double.tolerance _) eqn:Hend; [discriminate|].
  clear Hc.
  assert (Hloops : Double.num_loops d = Ret n).
  { unfold Double.num_loops. rewrite Hnz, Hk. by rewrite Hint. }
  exists d, n.
  split; [reflexivity|]. split; [exact Hshort|]. split; [exact Hloops|].
  split.
  { unfold num_loops. destruct (Qeq_bool _ 0) eqn:Hz; [|reflexivity].
    exfalso. apply Qeq_bool_iff in Hz.
    assert (Hpos : (0 < inject_Z len / inject_Z 24)%Q)
      by (apply natural_duration_pos; lia).
    rewrite Hz in Hpos. discriminate. }
  split; [exact Hlong|].
  assert (Hseq : Double.ImageSequenceClip frame_paths 24 = Ret natural).
  { unfold Double.ImageSequenceClip. destruct frame_paths; [simpl in Hlen; lia | reflexivity]. }
  assert (Hcat : Double.concatenate_videoclips (list_mul natural n) = Ret looped).
  { unfold Double.concatenate_videoclips, looped, list_mul.
    destruct (Z.to_nat n) eqn:Hz; [lia | reflexivity]. }
  unfold Double.create_video_clip. rewrite Hseq.
  change (Double.py_div (Z.of_nat (length frame_paths)) 24) with (Ret d).
  unfold Double.normalize_duration. rewrite Hshort, Hloops, Hcat.
  unfold Double.subclipped. by rewrite Hstart, Hend.
Qed.


(** ** Frame sequence orchestrator *)

Lemma requested_frames_app (l1 l2 : list event) :
  requested_frames (l1 ++ l2) = requested_frames l1 ++ requested_frames l2.
Proof. unfold requested_frames. apply omap_app. Qed.

Section FetcherTrace.
Variable srv : nat -> outcome.
Variables (prompt : string) (seed : Z) (index max_retries : nat).

Local Abbreviation loop := (retry_loop srv prompt seed index max_retries).

Lemma attempt_body_written (o : outcome) (attempt : nat) :
  written (snd (attempt_body o index attempt max_retries)) =
  if is_ok o then [frame_file index] else [].
Proof.
  destruct o as [code|]; simpl.
  - destruct (code =? 200); [reflexivity|]. by destruct (code =? 429).
  - by destruct (_ <? _).
Qed.

Lemma attempt_body_requested (o : outcome) (attempt : nat) :
  requested_frames (snd (attempt_body o index attempt max_retries)) = [].
Proof.
  destruct o as [code|]; simpl.
  - destruct (code =? 200); [reflexivity|]. by destruct (code =? 429).
  - by destruct (_ <? _).
Qed.

(** The files written are exactly the path returned. *)
Lemma retry_loop_written (attempts : list nat) :
  written (snd (loop attempts)) =
  match fst (loop attempts) with Some p => [p] | None => [] end.
Proof.
  induction attempts as [|a rest IH]; [reflexivity|].
  rewrite retry_loop_cons. destruct (is_ok (srv a)) eqn:Hok; simpl.
  - change (written (?e :: ?l)) with (written l).
    by rewrite attempt_body_written, Hok.
  - change (written (Request ?a ?b ?c ?d :: ?l)) with (written l).
    rewrite written_app, attempt_body_written, Hok. exact IH.
Qed.

Lemma retry_loop_requested_later (attempts : list nat) :
  (forall a, a ∈ attempts -> a <> 0%nat) ->
  requested_frames (snd (loop attempts)) = [].
Proof.
  induction attempts as [|a rest IH]; intros Hpos; [reflexivity|].
  assert (Ha : a <> 0%nat) by (apply Hpos; constructor).
  assert (Hrest : requested_frames (snd (loop rest)) = [])
    by (apply IH; intros; apply Hpos; by constructor).
  rewrite retry_loop_cons.
  destruct a as [|a]; [contradiction|].
  destruct (is_ok (srv (S a))); simpl;
    change (requested_frames (Request ?i (S ?k) ?c ?d :: ?l))
      with (requested_frames l).
  - apply attempt_body_requested.
  - by rewrite requested_frames_app, attempt_body_requested, Hrest.
Qed.

End FetcherTrace.

Lemma generate_image_async_result srv prompt seed index :
  fst (generate_image_async srv prompt seed index 5) =
  if succeeds srv then Some (frame_file index) else None.
Proof. unfold generate_image_async, succeeds. apply retry_loop_result. Qed.

Lemma generate_image_async_written srv prompt seed index :
  written (snd (generate_image_async srv prompt seed index 5)) =
  if succeeds srv then [frame_file index] else [].
Proof.
  unfold generate_image_async. rewrite retry_loop_written.
  rewrite retry_loop_result. fold (succeeds srv). by destruct (succeeds srv).
Qed.

Lemma generate_image_async_requested srv prompt seed index :
  requested_frames (snd (generate_image_async srv prompt seed index 5)) = [index].
Proof.
  unfold generate_image_async. change (seq 0 5) with (0%nat :: seq 1 4).
  rewrite retry_loop_cons.
  assert (Hlater : requested_frames
            (snd (retry_loop srv prompt seed index 5 (seq 1 4))) = []).
  { apply retry_loop_requested_later. intros a Ha. apply elem_of_seq in Ha. lia. }
  destruct (is_ok (srv 0%nat)); cbn [snd];
    change (requested_frames (Request ?i O ?c ?d :: ?l))
      with (i :: requested_frames l).
  - by rewrite attempt_body_requested.
  - by rewrite requested_frames_app, attempt_body_requested, Hlater.
Qed.

Lemma filter_none {A} (f : A -> bool) (l : list A) :
  (forall x, In x l -> f x = false) -> List.filter f l = [].
Proof.
  induction l as [|x l IH]; intros Hall; [reflexivity|].
  simpl. rewrite (Hall x) by (by left). apply IH. intros y Hy. apply Hall. by right.
Qed.

Section Orchestrator.
Variable srv : nat -> nat -> outcome.
Variables (prompt : string) (base_seed num_frames : Z).

Local Abbreviation loop := (frames_loop srv prompt base_seed num_frames).

Lemma frames_loop_cons (i : nat) (rest : list nat) :
  exists evs,
    loop (i :: rest) =
    (frame_result srv i :: fst (loop rest), evs ++ snd (loop rest))
    /\ written evs = (if succeeds (srv i) then [frame_file i] else [])
    /\ requested_frames evs = [i].
Proof.
  simpl.
  set (vp := prompt +:+ ", cinematic scene " +:+ Py.str_int (Z.of_nat i + 1)).
  pose proof (generate_image_async_result (srv i) vp (base_seed + Z.of_nat i) i) as Hres.
  pose proof (generate_image_async_written (srv i) vp (base_seed + Z.of_nat i) i) as Hwr.
  pose proof (generate_image_async_requested (srv i) vp (base_seed + Z.of_nat i) i) as Hreq.
  destruct (generate_image_async _ _ _ _ _) as [frame_path evs].
  simpl in Hres, Hwr, Hreq.
  destruct (frames_loop _ _ _ _ rest) as [paths evs'].
  exists (evs ++ (if Z.of_nat i <? num_frames - 1 then [Sleep 2] else [])).
  split; [|split].
  - simpl. unfold frame_result. rewrite Hres. by rewrite <- app_assoc.
  - rewrite written_app, Hwr. destruct (_ <? _); simpl; by rewrite app_nil_r.
  - rewrite requested_frames_app, Hreq. by destruct (_ <? _).
Qed.

Lemma frames_loop_spec (indices : list nat) :
  fst (loop indices) = map (frame_result srv) indices
  /\ written (snd (loop indices)) = omap id (fst (loop indices))
  /\ requested_frames (snd (loop indices)) = indices.
Proof.
  induction indices as [|i rest (IH1 & IH2 & IH3)]; [by repeat split|].
  destruct (frames_loop_cons i rest) as (evs & -> & Hwr & Hreq).
  simpl fst. simpl snd. split; [|split].
  - by rewrite IH1.
  - rewrite written_app, Hwr, IH2. unfold frame_result.
    by destruct (succeeds (srv i)).
  - by rewrite requested_frames_app, Hreq, IH3.
Qed.

Lemma omap_frame_result (indices : list nat) :
  omap id (map (frame_result srv) indices) =
  map frame_file (List.filter (fun i => succeeds (srv i)) indices).
Proof.
  induction indices as [|i rest IH]; [reflexivity|].
  simpl. unfold frame_result at 1.
  destruct (succeeds (srv i)); simpl; by rewrite <- IH.
Qed.

(** The frames returned are those of the successful indices, in index
    order. *)
Lemma generate_frames_result :
  fst (generate_frames srv prompt base_seed num_frames) =
  map frame_file (List.filter (fun i => succeeds (srv i)) (py_range num_frames)).
Proof.
  unfold generate_frames.
  destruct (frames_loop_spec (py_range num_frames)) as (H1 & _ & _).
  destruct (frames_loop _ _ _ _ _) as [paths evs]. simpl in *.
  rewrite H1. apply omap_frame_result.
Qed.

(** Exactly the returned frames are written to the frames directory. *)
Lemma generate_frames_written :
  written (snd (generate_frames srv prompt base_seed num_frames)) =
  fst (generate_frames srv prompt base_seed num_frames).
Proof.
  unfold generate_frames.
  destruct (frames_loop_spec (py_range num_frames)) as (_ & H2 & _).
  destruct (frames_loop _ _ _ _ _) as [paths evs]. exact H2.
Qed.

(** Every index of [range(num_frames)] is requested, in order. *)
Lemma generate_frames_requested :
  requested_frames (snd (generate_frames srv prompt base_seed num_frames)) =
  py_range num_frames.
Proof.
  unfold generate_frames.
  destruct (frames_loop_spec (py_range num_frames)) as (_ & _ & H3).
  destruct (frames_loop _ _ _ _ _) as [paths evs]. exact H3.
Qed.

Lemma generate_frames_length :
  (length (fst (generate_frames srv prompt base_seed num_frames))
   <= Z.to_nat num_frames)%nat.
Proof.
  rewrite generate_frames_result, length_map.
  etransitivity; [apply List.filter_length_le|].
  unfold py_range. by rewrite length_seq.
Qed.

Lemma generate_frames_nil :
  fst (generate_frames srv prompt base_seed num_frames) = [] <->
  forall i, (i < Z.to_nat num_frames)%nat -> succeeds (srv i) = false.
Proof.
  rewrite generate_frames_result. unfold py_range. split.
  - intros Hnil i Hi.
    destruct (succeeds (srv i)) eqn:Hs; [|reflexivity].
    assert (Hin : In i (List.filter (fun i => succeeds (srv i)) (seq 0 (Z.to_nat num_frames)))).
    { apply List.filter_In. split; [apply in_seq; lia | exact Hs]. }
    apply map_eq_nil in Hnil. rewrite Hnil in Hin. destruct Hin.
  - intros Hall.
    rewrite filter_none; [reflexivity|].
    intros i Hi. apply in_seq in Hi. apply Hall. lia.
Qed.

End Orchestrator.

Lemma succeeds_false (srv_i : nat -> outcome) :
  succeeds srv_i = false <-> forall a, (a < 5)%nat -> is_ok (srv_i a) = false.
Proof.
  unfold succeeds. split.
  - intros Hex a Ha. destruct (is_ok (srv_i a)) eqn:Hok; [|reflexivity].
    assert (Htrue : existsb (fun a => is_ok (srv_i a)) (seq 0 5) = true).
    { apply existsb_exists. exists a. split; [apply in_seq; lia | exact Hok]. }
    congruence.
  - intros Hall. destruct (existsb _ _) eqn:Hex; [|reflexivity].
    apply existsb_exists in Hex. destruct Hex as (a & Ha & Hok).
    apply in_seq in Ha. rewrite Hall in Hok by lia. discriminate.
Qed.

(** ** The generation route: what a request does *)

Lemma coerce_num_frames_range (n : Z) : 10 <= coerce_num_frames n <= 20.
Proof.
  unfold coerce_num_frames.
  destruct (Z.ltb_spec n 10); simpl; [lia|].
  destruct (Z.gtb_spec n 20); lia.
Qed.

Lemma fetched_fields prompt n e w :
  let out := generate_frames (server e) prompt (base_seed e) n in
  frames_dir (fetched prompt n e w) = list_to_set (fst out)
  /\ videos_dir (fetched prompt n e w) = videos_dir w
  /\ metadata_file (fetched prompt n e w) = metadata_file w
  /\ session (fetched prompt n e w) = session w
  /\ net_log (fetched prompt n e w) = net_log w ++ snd out.
Proof.
  intros out. unfold fetched. rewrite after_events_spec. simpl.
  fold out. unfold out at 1. rewrite generate_frames_written. fold out.
  repeat split. by rewrite (right_id_L ∅ (∪)).
Qed.

Lemma frames_present_fetched prompt n e w :
  frames_present (fst (generate_frames (server e) prompt (base_seed e) n))
                 (fetched prompt n e w) = true.
Proof.
  destruct (fetched_fields prompt n e w) as (Hf & _).
  unfold frames_present. rewrite Hf. apply forallb_forall.
  intros p Hp. apply bool_decide_eq_true. apply elem_of_list_to_set.
  by apply list_elem_of_In.
Qed.

(** At most 20 frames at 24 frames per second last less than 4 seconds. *)
Lemma short_clip (len : Z) :
  0 <= len <= 20 ->
  (inject_Z len / inject_Z 24 <= 20 # 24)%Q
  /\ (inject_Z len / inject_Z 24 < 4)%Q.
Proof.
  intros Hlen.
  assert (Hle : (inject_Z len / inject_Z 24 <= 20 # 24)%Q).
  { apply Qle_shift_div_r; [reflexivity|].
    unfold Qle, inject_Z. simpl. lia. }
  split; [exact Hle|]. eapply Qle_lt_trans; [exact Hle|]. reflexivity.
Qed.

Lemma create_video_after_fetch prompt num_frames e w :
  let frames :=
    fst (generate_frames (server e) prompt (base_seed e) (coerce_num_frames num_frames)) in
  let w1 := fetched prompt (coerce_num_frames num_frames) e w in
  frames <> [] ->
  create_video (encoder_fault e) (encoded_size e) frames (output_name e) 24 w1 =
  match encoder_fault e with
  | Some msg => (Raise msg, w1)
  | None =>
      (Ret (Py.path_join VIDEOS_DIR (output_name e)),
       set_videos_dir
         (<[Py.path_join VIDEOS_DIR (output_name e) :=
              stored four_seconds (encoded_size e)]> (videos_dir w1)) w1)
  end.
Proof.
  intros frames w1 Hne.
  pose proof (coerce_num_frames_range num_frames) as Hrange.
  pose proof (generate_frames_length (server e) prompt (base_seed e)
                (coerce_num_frames num_frames)) as Hlen.
  fold frames in Hlen.
  assert (Hpos : 0 < Z.of_nat (length frames))
    by (destruct frames; [contradiction | simpl; lia]).
  set (d := (inject_Z (Z.of_nat (length frames)) / inject_Z 24)%Q).
  assert (Hd4 : (d < 4)%Q) by (apply short_clip; lia).
  assert (Hd0 : (0 < d)%Q) by (apply natural_duration_pos; lia).
  pose proof (normalize_short {| clip_duration := d |} Hd0 Hd4) as Hnorm.
  cbn [clip_duration] in Hnorm.
  assert (Hdiv : py_div (Z.of_nat (length frames)) 24 = Ret d) by reflexivity.
  assert (Hseq : ImageSequenceClip frames 24 = Ret {| clip_duration := d |}).
  { unfold ImageSequenceClip. rewrite Hdiv. destruct frames; [contradiction | reflexivity]. }
  rewrite create_video_unfold. unfold w1 at 1, frames at 1.
  rewrite frames_present_fetched. fold frames. fold w1.
  rewrite Hseq, Hdiv, Hnorm. reflexivity.
Qed.

(** The complete behaviour of [POST /generate]. *)
Lemma generate_video_spec prompt num_frames e w :
  let p := Py.strip (default "" prompt) in
  let n := coerce_num_frames (default 15 num_frames) in
  let frames := fst (generate_frames (server e) p (base_seed e) n) in
  let w1 := fetched p n e w in
  flask_view (generate_video prompt num_frames e) w =
  if negb (Py.truthy_str p) then (error_response "Prompt is required" 400, w)
  else
    match frames with
    | [] => (error_response "Failed to generate frames" 500, w1)
    | _ =>
        match encoder_fault e with
        | Some msg => (error_response msg 500, set_frames_dir ∅ w1)
        | None =>
            (success_response frames e,
             save_metadata
               {| videos := new_record p frames e :: videos (load_metadata w);
                  total_generated := total_generated (load_metadata w) + 1 |}
               (set_frames_dir ∅
                  (set_videos_dir
                     (<[Py.path_join VIDEOS_DIR (output_name e) :=
                          stored four_seconds (encoded_size e)]> (videos_dir w)) w1)))
        end
    end.
Proof.
  intros p n frames w1. rewrite generate_video_unfold. fold p n frames w1.
  destruct (negb (Py.truthy_str p)); [reflexivity|].
  destruct frames as [|f fs] eqn:Hf; [reflexivity|]. rewrite <- Hf.
  assert (Hne : frames <> []) by (rewrite Hf; discriminate).
  unfold frames, w1, n in *.
  rewrite (create_video_after_fetch p (default 15 num_frames) e w Hne).
  destruct (fetched_fields p (coerce_num_frames (default 15 num_frames)) e w)
    as (_ & Hv & Hm & _).
  destruct (encoder_fault e); [reflexivity|].
  unfold load_metadata. cbn [metadata_file set_videos_dir]. rewrite Hm, Hv.
  reflexivity.
Qed.

Lemma generate_video_net_log prompt num_frames e w :
  let p := Py.strip (default "" prompt) in
  let n := coerce_num_frames (default 15 num_frames) in
  net_log (snd (flask_view (generate_video prompt num_frames e) w)) =
  if negb (Py.truthy_str p) then net_log w
  else net_log w ++ snd (generate_frames (server e) p (base_seed e) n).
Proof.
  intros p n. rewrite generate_video_spec. fold p n.
  destruct (negb (Py.truthy_str p)); [reflexivity|].
  destruct (fetched_fields p n e w) as (_ & _ & _ & _ & Hlog).
  destruct (fst (generate_frames _ _ _ _)); [exact Hlog|].
  destruct (encoder_fault e); exact Hlog.
Qed.

(** C4: the frame count of a [POST /generate] body is replaced by 15 when
    it is below 10 or above 20 and kept when it lies in [10, 20]; the
    result always lies in [10, 20], and it is the coerced count that
    drives generation: the frames requested from the image service
    during the request are exactly those of [range] of the coerced
    count. *)
Theorem frame_count_coerced (n : Z) :
  (n < 10 \/ 20 < n -> coerce_num_frames n = 15)
  /\ (10 <= n <= 20 -> coerce_num_frames n = n)
  /\ 10 <= coerce_num_frames n <= 20
  /\ forall (env : environ) (prompt : string) (e : gen_env) (w : world),
       Py.truthy_str (Py.strip prompt) = true ->
       requested_frames
         (net_log (snd (handle env (PostGenerate (Some prompt) (Some n) e) w)))
       = requested_frames (net_log w) ++ py_range (coerce_num_frames n).
Proof.
  split; [|split; [|split]].
  - intros Hout. unfold coerce_num_frames.
    destruct (Z.ltb_spec n 10); [reflexivity|].
    destruct (Z.gtb_spec n 20); [reflexivity | lia].
  - intros Hin. unfold coerce_num_frames.
    destruct (Z.ltb_spec n 10); [lia|].
    destruct (Z.gtb_spec n 20); [lia | reflexivity].
  - apply coerce_num_frames_range.
  - intros env prompt e w Hp. cbn [handle].
    rewrite generate_video_net_log. cbn [from_option id]. rewrite Hp. cbn [negb].
    by rewrite requested_frames_app, generate_frames_requested.
Qed.

Example coerce_examples :
  map coerce_num_frames [-3; 0; 9; 10; 15; 20; 21; 1000]
  = [15; 15; 15; 10; 15; 20; 15; 15].
Proof. reflexivity. Qed.

(** C5: for a frame count in [10, 20] the orchestrator returns the paths
    of the frames that were obtained, in index order, the others being
    left out; there are at most [num_frames] of them, and none only if
    all five attempts failed for every frame. A request whose encoder
    works fails exactly in that case: as soon as one frame is obtained it
    succeeds and reports the number of frames obtained. *)
Theorem generate_frames_partial_success
    (srv : nat -> nat -> outcome) (prompt : string) (seed n : Z) :
  10 <= n <= 20 ->
  let frames := fst (generate_frames srv prompt seed n) in
  frames = map frame_file (List.filter (fun i => succeeds (srv i)) (py_range n))
  /\ Z.of_nat (length frames) <= n
  /\ (frames = [] <->
      forall i a, (i < Z.to_nat n)%nat -> (a < 5)%nat -> is_ok (srv i a) = false)
  /\ forall (env : environ) (prompt0 : string) (e : gen_env) (w : world),
       Py.strip prompt0 = prompt -> Py.truthy_str prompt = true ->
       server e = srv -> base_seed e = seed -> encoder_fault e = None ->
       let r := fst (handle env (PostGenerate (Some prompt0) (Some n) e) w) in
       (frames = [] -> r = error_response "Failed to generate frames" 500)
       /\ (frames <> [] -> r = success_response frames e /\ resp_status r = 200).
Proof.
  intros Hn frames. split; [|split; [|split]].
  - apply generate_frames_result.
  - pose proof (generate_frames_length srv prompt seed n) as Hlen.
    fold frames in Hlen. lia.
  - unfold frames. rewrite generate_frames_nil. split.
    + intros Hall i a Hi Ha. by apply succeeds_false; [apply Hall|].
    + intros Hall i Hi. apply succeeds_false. intros a Ha. by apply Hall.
  - intros env prompt0 e w Hp Ht Hsrv Hseed Hfault r. subst r. cbn [handle].
    rewrite generate_video_spec. cbn [from_option id]. rewrite Hp, Ht, Hsrv, Hseed, Hfault.
    cbn [negb].
    assert (Hc : coerce_num_frames n = n).
    { unfold coerce_num_frames.
      destruct (Z.ltb_spec n 10); [lia|]. destruct (Z.gtb_spec n 20); [lia | reflexivity]. }
    rewrite Hc. fold frames. split.
    + intros ->. reflexivity.
    + intros Hne. destruct frames; [contradiction|]. by split.
Qed.

(** Fifteen frames requested, frame 3 rate limited throughout. *)
Lemma generate_frames_partial_success_witness :
  10 <= 15 <= 20
  /\ let frames := fst (generate_frames frame_3_limited "a calm lake" 42 15) in
     frames = map frame_file
                (List.filter (fun i => succeeds (frame_3_limited i)) (py_range 15))
     /\ Z.of_nat (length frames) <= 15
     /\ (frames = [] <->
         forall i a, (i < Z.to_nat 15)%nat -> (a < 5)%nat ->
                     is_ok (frame_3_limited i a) = false)
     /\ forall (env : environ) (prompt0 : string) (e : gen_env) (w : world),
          Py.strip prompt0 = "a calm lake" -> Py.truthy_str "a calm lake" = true ->
          server e = frame_3_limited -> base_seed e = 42 -> encoder_fault e = None ->
          let r := fst (handle env (PostGenerate (Some prompt0) (Some 15) e) w) in
          (frames = [] -> r = error_response "Failed to generate frames" 500)
          /\ (frames <> [] -> r = success_response frames e /\ resp_status r = 200).
Proof.
  split; [lia|].
  apply (generate_frames_partial_success frame_3_limited "a calm lake" 42 15). lia.
Defined.

Example frame_3_omitted :
  fst (generate_frames frame_3_limited "a calm lake" 42 15) =
  map frame_file [0; 1; 2; 4; 5; 6; 7; 8; 9; 10; 11; 12; 13; 14]%nat
  /\ resp_body (fst (handle ∅ (PostGenerate (Some "a calm lake") (Some 15)
                                 (env_at frame_3_limited 1700000000 1234))
                       initial_world)) =
     Jsonify [("success", JBool true);
              ("video_url", JStr "/static/videos/anvesh_video_1700000000.mp4");
              ("download_url", JStr "/download/anvesh_video_1700000000.mp4");
              ("frames_generated", JInt 14)].
Proof. split; vm_compute; reflexivity. Qed.

(** ** Failed generation requests *)

(** C7: take a [POST /generate] with a non-blank prompt. If no frame
    could be generated, or if frames were generated and the encoder
    raised, the answer is a JSON object with an [error] message and
    status 500, the frames directory is empty afterwards and the metadata
    document is exactly what it was. More generally every such request
    that is not answered 200 is answered this way. *)
Theorem failed_generation_is_clean
    (env : environ) (prompt : string) (num_frames : option Z)
    (e : gen_env) (w : world) :
  Py.truthy_str (Py.strip prompt) = true ->
  let frames :=
    fst (generate_frames (server e) (Py.strip prompt) (base_seed e)
           (coerce_num_frames (default 15 num_frames))) in
  let '(r, w') := handle env (PostGenerate (Some prompt) num_frames e) w in
  (frames = [] ->
     r = error_response "Failed to generate frames" 500
     /\ frames_dir w' = ∅
     /\ metadata_file w' = metadata_file w)
  /\ (forall msg, frames <> [] -> encoder_fault e = Some msg ->
        r = error_response msg 500
        /\ frames_dir w' = ∅
        /\ metadata_file w' = metadata_file w)
  /\ (resp_status r <> 200 ->
        (exists msg, resp_body r = Jsonify [("error", JStr msg)])
        /\ 400 <= resp_status r < 600
        /\ frames_dir w' = ∅
        /\ metadata_file w' = metadata_file w).
Proof.
  intros Hp frames. cbn [handle].
  rewrite generate_video_spec. cbn [from_option id]. rewrite Hp. cbn [negb].
  fold frames.
  destruct (fetched_fields (Py.strip prompt)
              (coerce_num_frames (default 15 num_frames)) e w)
    as (Hdir & _ & Hmeta & _).
  cbn zeta in Hdir. fold frames in Hdir.
  destruct frames as [|f fs] eqn:Hf.
  - assert (Hclean : frames_dir (fetched (Py.strip prompt)
              (coerce_num_frames (default 15 num_frames)) e w) = ∅)
      by (by rewrite Hdir).
    split; [|split].
    + intros _. by repeat split.
    + intros msg Hne. contradiction.
    + intros _. repeat split; try done. by eexists.
  - destruct (encoder_fault e) as [msg|] eqn:Hfault.
    + split; [|split].
      * discriminate.
      * intros msg' _ [= <-]. by repeat split.
      * intros _. repeat split; try done. by eexists.
    + split; [|split].
      * discriminate.
      * discriminate.
      * intros Hst. by contradict Hst.
Qed.

(** No frame can be fetched; stale frames and a document are on disk. *)
Lemma failed_generation_is_clean_witness :
  Py.truthy_str (Py.strip "a calm lake") = true
  /\ let frames :=
       fst (generate_frames never_ok (Py.strip "a calm lake") 42
              (coerce_num_frames (default 15 (Some 12)))) in
     let '(r, w') := handle ∅ (PostGenerate (Some "a calm lake") (Some 12)
                                 (env_at never_ok 1700000000 1234)) stale_world in
     (frames = [] ->
        r = error_response "Failed to generate frames" 500
        /\ frames_dir w' = ∅
        /\ metadata_file w' = metadata_file stale_world)
     /\ (forall msg, frames <> [] ->
           encoder_fault (env_at never_ok 1700000000 1234) = Some msg ->
           r = error_response msg 500
           /\ frames_dir w' = ∅
           /\ metadata_file w' = metadata_file stale_world)
     /\ (resp_status r <> 200 ->
           (exists msg, resp_body r = Jsonify [("error", JStr msg)])
           /\ 400 <= resp_status r < 600
           /\ frames_dir w' = ∅
           /\ metadata_file w' = metadata_file stale_world).
Proof.
  split; [reflexivity|].
  apply (failed_generation_is_clean ∅ "a calm lake" (Some 12)
           (env_at never_ok 1700000000 1234) stale_world).
  reflexivity.
Defined.

Example encoder_failure_scenario :
  let '(r, w') := handle ∅ (PostGenerate (Some "a calm lake") (Some 12) broken_encoder)
                    stale_world in
  r = error_response "MoviePy error: failed to write the video" 500
  /\ frames_dir w' = ∅
  /\ metadata_file w' = metadata_file stale_world
  /\ videos_dir w' = ∅.
Proof. vm_compute. repeat split. Qed.

Example all_frames_fail_scenario :
  let '(r, w') := handle ∅ (PostGenerate (Some "a calm lake") (Some 12)
                              (env_at never_ok 1700000000 1234)) stale_world in
  r = error_response "Failed to generate frames" 500
  /\ frames_dir w' = ∅
  /\ metadata_file w' = metadata_file stale_world.
Proof. vm_compute. repeat split. Qed.

(** ** Every video produced by the endpoint lasts 4 seconds *)

(** C9: whatever the request, the frames that reach [create_video] from
    [POST /generate] number at most 20, so at 24 frames per second their
    natural duration is at most 20/24 and below 4 seconds: the test of the
    loop branch holds, neither the cut to 6 seconds nor the unchanged
    case applies, the normalisation yields the 4 second clip, and every
    request answered 200 has stored a video whose duration is 4. *)
Theorem endpoint_videos_last_four_seconds
    (env : environ) (prompt : option string) (num_frames : option Z)
    (e : gen_env) (w : world) :
  let frames :=
    fst (generate_frames (server e) (Py.strip (default "" prompt)) (base_seed e)
           (coerce_num_frames (default 15 num_frames))) in
  let d := (inject_Z (Z.of_nat (length frames)) / inject_Z 24)%Q in
  let '(r, w') := handle env (PostGenerate prompt num_frames e) w in
  (d <= 20 # 24)%Q
  /\ (d < 4)%Q
  /\ Qltb d 4 = true
  /\ Qltb 6 d = false
  /\ (frames <> [] ->
        normalize_duration {| clip_duration := d |} d = Ret four_seconds)
  /\ (clip_duration four_seconds == 4)%Q
  /\ (resp_status r = 200 ->
        frames <> []
        /\ videos_dir w' !! Py.path_join VIDEOS_DIR (output_name e)
           = Some (stored four_seconds (encoded_size e))).
Proof.
  intros frames d. cbn [handle].
  pose proof (coerce_num_frames_range (default 15 num_frames)) as Hrange.
  pose proof (generate_frames_length (server e) (Py.strip (default "" prompt))
                (base_seed e) (coerce_num_frames (default 15 num_frames))) as Hlen.
  fold frames in Hlen.
  assert (Hshort : (d <= 20 # 24)%Q /\ (d < 4)%Q) by (apply short_clip; lia).
  destruct Hshort as [H20 H4].
  rewrite generate_video_spec. fold frames.
  destruct (fetched_fields (Py.strip (default "" prompt))
              (coerce_num_frames (default 15 num_frames)) e w)
    as (_ & Hv & _).
  assert (Hcommon :
    (d <= 20 # 24)%Q /\ (d < 4)%Q /\ Qltb d 4 = true /\ Qltb 6 d = false
    /\ (frames <> [] -> normalize_duration {| clip_duration := d |} d = Ret four_seconds)
    /\ (clip_duration four_seconds == 4)%Q).
  { split; [exact H20|]. split; [exact H4|]. split; [by apply Qltb_lt|].
    split.
    { apply Qltb_ge. apply Qlt_le_weak. eapply Qlt_trans; [exact H4|]. reflexivity. }
    split; [|reflexivity].
    intros Hne. apply (normalize_short {| clip_duration := d |}); [|exact H4].
    apply natural_duration_pos; [|lia].
    destruct frames; [contradiction | simpl; lia]. }
  destruct Hcommon as (C1 & C2 & C3 & C4 & C5 & C6).
  destruct (negb _); [by repeat split|].
  destruct frames as [|f fs] eqn:Hf; [by repeat split|].
  destruct (encoder_fault e); [by repeat split|].
  repeat split; try done.
  cbn [videos_dir save_metadata set_metadata_file set_frames_dir set_videos_dir].
  apply lookup_insert_eq.
Qed.

(** ** Deleting videos *)

Lemma find_video_Some (video_id : string) (vs : list video_info) (v : video_info) :
  find_video video_id vs = Some v -> In v vs /\ vi_id v = video_id.
Proof.
  induction vs as [|x vs IH]; [discriminate|]. simpl.
  destruct (String.eqb_spec (vi_id x) video_id) as [Heq|Hne].
  - intros [= <-]. split; [by left | exact Heq].
  - intros Hfind. destruct (IH Hfind) as [Hin Hid]. split; [by right | exact Hid].
Qed.

Lemma find_video_None (video_id : string) (vs : list video_info) :
  find_video video_id vs = None <-> forall x, In x vs -> vi_id x <> video_id.
Proof.
  induction vs as [|x vs IH]; simpl.
  - split; [intros _ y [] | reflexivity].
  - destruct (String.eqb_spec (vi_id x) video_id) as [Heq|Hne].
    + split; [discriminate|]. intros Hall. exfalso. apply (Hall x); [by left | exact Heq].
    + rewrite IH. split.
      * intros Hall y [<-|Hy]; [exact Hne | by apply Hall].
      * intros Hall y Hy. apply Hall. by right.
Qed.

Lemma filter_other_id_In (video_id : string) (vs : list video_info) (x : video_info) :
  In x (List.filter (other_id video_id) vs) <-> In x vs /\ vi_id x <> video_id.
Proof.
  rewrite List.filter_In. unfold other_id.
  destruct (String.eqb_spec (vi_id x) video_id); simpl; intuition congruence.
Qed.

Lemma filter_other_id_all (video_id : string) (vs : list video_info) :
  (forall x, In x vs -> vi_id x <> video_id) ->
  List.filter (other_id video_id) vs = vs.
Proof.
  induction vs as [|x vs IH]; intros Hall; [reflexivity|]. simpl.
  unfold other_id at 1.
  destruct (String.eqb_spec (vi_id x) video_id) as [Heq|Hne]; simpl.
  - exfalso. apply (Hall x); [by left | exact Heq].
  - f_equal. apply IH. intros y Hy. apply Hall. by right.
Qed.

(** With unique ids the filter drops exactly one record. *)
Lemma filter_other_id_unique (video_id : string) (vs : list video_info) :
  NoDup (map vi_id vs) ->
  (exists v, In v vs /\ vi_id v = video_id) ->
  S (length (List.filter (other_id video_id) vs)) = length vs.
Proof.
  induction vs as [|x vs IH]; intros Hnd (v & Hin & Hid); [destruct Hin|].
  simpl in Hnd. apply NoDup_cons in Hnd. destruct Hnd as [Hx Hnd].
  simpl. unfold other_id at 1.
  destruct (String.eqb_spec (vi_id x) video_id) as [Heq|Hne]; simpl.
  - rewrite filter_other_id_all; [reflexivity|].
    intros y Hy Hyid. apply Hx. rewrite Heq, <- Hyid.
    apply list_elem_of_In. by apply in_map.
  - f_equal. apply IH; [exact Hnd|].
    destruct Hin as [<-|Hin]; [contradiction|]. by exists v.
Qed.

Lemma filter_other_id_NoDup (video_id : string) (vs : list video_info) :
  NoDup (map vi_id vs) -> NoDup (map vi_id (List.filter (other_id video_id) vs)).
Proof.
  induction vs as [|x vs IH]; intros Hnd; [exact Hnd|].
  simpl in Hnd. apply NoDup_cons in Hnd. destruct Hnd as [Hx Hnd].
  simpl. destruct (other_id video_id x); [|by apply IH].
  simpl. apply NoDup_cons. split; [|by apply IH].
  intros Hin. apply Hx. apply list_elem_of_In in Hin. apply list_elem_of_In.
  apply in_map_iff in Hin. destruct Hin as (y & Hy & Hyin).
  apply List.filter_In in Hyin. apply in_map_iff. exists y. tauto.
Qed.

(** An authorised delete, in one equation. *)
Lemma delete_video_spec (video_id : string) (w : world) :
  logged_in w = true ->
  delete_video video_id w =
  match find_video video_id (videos (load_metadata w)) with
  | Some v =>
      (jsonify [("success", JBool true)] 200,
       save_metadata
         {| videos := List.filter (other_id video_id) (videos (load_metadata w));
            total_generated := total_generated (load_metadata w) |}
         (set_videos_dir
            (delete (Py.path_join VIDEOS_DIR (vi_filename v)) (videos_dir w)) w))
  | None => (jsonify [("error", JStr "Video not found")] 404, w)
  end.
Proof.
  intros Hlog. unfold delete_video. rewrite Hlog. cbn [negb].
  destruct (find_video _ _) as [v|]; [|reflexivity].
  case_bool_decide as Hex; [reflexivity|].
  rewrite delete_id; [|by apply eq_None_not_Some].
  by destruct w.
Qed.

Lemma delete_video_unauthorized (video_id : string) (w : world) :
  logged_in w = false ->
  delete_video video_id w = (jsonify [("error", JStr "Unauthorized")] 401, w).
Proof. intros Hlog. unfold delete_video. by rewrite Hlog. Qed.

(** With unique ids the record found is the only one the filter drops:
    the document splits around it. *)
Lemma filter_other_id_split (video_id : string) (vs : list video_info) (v : video_info) :
  NoDup (map vi_id vs) ->
  find_video video_id vs = Some v ->
  exists l1 l2,
    vs = l1 ++ v :: l2
    /\ List.filter (other_id video_id) vs = l1 ++ l2
    /\ (forall x, In x (l1 ++ l2) -> vi_id x <> video_id).
Proof.
  induction vs as [|x vs IH]; intros Hnd Hfind; [discriminate|].
  simpl in Hnd. apply NoDup_cons in Hnd. destruct Hnd as [Hx Hnd].
  simpl in Hfind. simpl. unfold other_id at 1.
  destruct (String.eqb_spec (vi_id x) video_id) as [Heq|Hne]; simpl.
  - injection Hfind as <-. exists [], vs.
    assert (Hall : forall y, In y vs -> vi_id y <> video_id).
    { intros y Hy Hyid. apply Hx. rewrite Heq, <- Hyid.
      apply list_elem_of_In. by apply in_map. }
    split; [reflexivity|]. split; [by apply filter_other_id_all | exact Hall].
  - destruct (IH Hnd Hfind) as (l1 & l2 & -> & Hfilter & Hall).
    exists (x :: l1), l2. split; [reflexivity|]. split; [simpl; by rewrite Hfilter|].
    intros y [<-|Hy]; [exact Hne | by apply Hall].
Qed.

(** C3: on a document whose ids are pairwise distinct, an authorised
    delete of an id that occurs in the document removes exactly one
    record, the one carrying that id: the document splits around it and
    the two sides are kept, in order. The backing file of that record is
    gone from the videos directory, whose other files are kept, and the
    answer is the success response. An authorised delete of an id that
    does not occur answers 404 and changes nothing at all. *)
Theorem delete_video_removes_exactly_one
    (env : environ) (video_id : string) (w : world) :
  logged_in w = true ->
  NoDup (map vi_id (videos (load_metadata w))) ->
  let before := videos (load_metadata w) in
  let '(r, w') := handle env (DeleteVideo video_id) w in
  ((exists v, In v before /\ vi_id v = video_id) ->
     exists l1 v l2,
       before = l1 ++ v :: l2
       /\ vi_id v = video_id
       /\ videos (load_metadata w') = l1 ++ l2
       /\ (forall x, In x (l1 ++ l2) -> vi_id x <> video_id)
       /\ S (length (videos (load_metadata w'))) = length before
       /\ videos_dir w' !! Py.path_join VIDEOS_DIR (vi_filename v) = None
       /\ (forall path, path <> Py.path_join VIDEOS_DIR (vi_filename v) ->
             videos_dir w' !! path = videos_dir w !! path)
       /\ r = jsonify [("success", JBool true)] 200
       /\ resp_status r = 200)
  /\ ((forall v, In v before -> vi_id v <> video_id) ->
        r = jsonify [("error", JStr "Video not found")] 404
        /\ resp_status r = 404
        /\ w' = w).
Proof.
  intros Hlog Hnd before. cbn [handle]. rewrite (delete_video_spec video_id w Hlog).
  fold before. destruct (find_video video_id before) as [first|] eqn:Hfind.
  - destruct (find_video_Some _ _ _ Hfind) as [Hin Hid].
    destruct (filter_other_id_split video_id before first Hnd Hfind)
      as (l1 & l2 & Hsplit & Hfilter & Hall).
    split.
    + intros _. exists l1, first, l2.
      cbn [load_metadata save_metadata set_metadata_file metadata_file videos
           videos_dir set_videos_dir].
      split; [exact Hsplit|]. split; [exact Hid|]. split; [exact Hfilter|].
      split; [exact Hall|].
      split; [rewrite Hfilter, Hsplit, !length_app; simpl; lia|].
      split; [apply lookup_delete_eq|].
      split; [intros path Hpath; by apply lookup_delete_ne|].
      split; reflexivity.
    + intros Hnone. exfalso. by apply (Hnone first).
  - split.
    + intros (v & Hv & Hid). exfalso.
      by apply (proj1 (find_video_None video_id before) Hfind v).
    + intros _. by repeat split.
Qed.

(** Deleting the older of two videos. *)
Lemma delete_video_removes_exactly_one_witness :
  logged_in two_videos_world = true
  /\ NoDup (map vi_id (videos (load_metadata two_videos_world)))
  /\ let before := videos (load_metadata two_videos_world) in
     let '(r, w') := handle ∅ (DeleteVideo "vid_1700000000_1234") two_videos_world in
     ((exists v, In v before /\ vi_id v = "vid_1700000000_1234") ->
        exists l1 v l2,
          before = l1 ++ v :: l2
          /\ vi_id v = "vid_1700000000_1234"
          /\ videos (load_metadata w') = l1 ++ l2
          /\ (forall x, In x (l1 ++ l2) -> vi_id x <> "vid_1700000000_1234")
          /\ S (length (videos (load_metadata w'))) = length before
          /\ videos_dir w' !! Py.path_join VIDEOS_DIR (vi_filename v) = None
          /\ (forall path, path <> Py.path_join VIDEOS_DIR (vi_filename v) ->
                videos_dir w' !! path = videos_dir two_videos_world !! path)
          /\ r = jsonify [("success", JBool true)] 200
          /\ resp_status r = 200)
     /\ ((forall v, In v before -> vi_id v <> "vid_1700000000_1234") ->
           r = jsonify [("error", JStr "Video not found")] 404
           /\ resp_status r = 404
           /\ w' = two_videos_world).
Proof.
  assert (Hnd : NoDup (map vi_id (videos (load_metadata two_videos_world))))
    by (apply (bool_decide_unpack _); vm_compute; exact I).
  split; [reflexivity|]. split; [exact Hnd|].
  apply (delete_video_removes_exactly_one ∅ "vid_1700000000_1234" two_videos_world);
    [reflexivity | exact Hnd].
Defined.

(** ** The total-generated counter *)

(** A generation answered 200 prepends one record and adds one to the
    counter; any other answer leaves the document alone. *)
Lemma generate_video_metadata env prompt num_frames e w :
  let '(r, w') := handle env (PostGenerate prompt num_frames e) w in
  session w' = session w
  /\ (resp_status r = 200 ->
        exists rec, vi_id rec = new_id e
        /\ load_metadata w' =
           {| videos := rec :: videos (load_metadata w);
              total_generated := total_generated (load_metadata w) + 1 |})
  /\ (resp_status r <> 200 -> metadata_file w' = metadata_file w).
Proof.
  cbn [handle].
  pose proof (generate_video_session prompt num_frames e w) as Hsess.
  rewrite generate_video_spec in Hsess |- *.
  destruct (fetched_fields (Py.strip (default "" prompt))
              (coerce_num_frames (default 15 num_frames)) e w)
    as (_ & _ & Hm & _).
  destruct (negb _); [by repeat split|].
  destruct (fst (generate_frames _ _ _ _)) as [|f fs]; [by repeat split|].
  destruct (encoder_fault e); [by repeat split|].
  split; [exact Hsess|]. split; [|done].
  intros _. eexists. split; [|reflexivity]. reflexivity.
Qed.

Lemma handle_total (env : environ) (r : request) (w : world) :
  let '(resp, w') := handle env r w in
  if is_generate r && (resp_status resp =? 200)
  then total w' = total w + 1
  else total w' = total w.
Proof.
  destruct r; cbn [handle is_generate andb]; try reflexivity.
  - unfold admin. by destruct (negb _).
  - unfold admin_login. destruct m; [reflexivity|].
    destruct (negb _); [reflexivity|]. by destruct (_ && _).
  - destruct (logged_in w) eqn:Hlog.
    + rewrite (delete_video_spec video_id w Hlog). by destruct (find_video _ _).
    + by rewrite (delete_video_unauthorized video_id w Hlog).
  - pose proof (generate_video_metadata env prompt num_frames e w) as Hgen.
    cbn [handle] in Hgen.
    destruct (flask_view _ w) as [resp w'].
    destruct Hgen as (_ & Hok & Hfail).
    destruct (Z.eqb_spec (resp_status resp) 200) as [H200|Hne].
    + destruct (Hok H200) as (rec & _ & Hload). unfold total. by rewrite Hload.
    + unfold total, load_metadata. by rewrite (Hfail Hne).
  - unfold download_video. by destruct (bool_decide _).
  - unfold stats. by destruct (negb _).
Qed.

Lemma handle_total_le (env : environ) (r : request) (w : world) :
  total w <= total (snd (handle env r w)).
Proof.
  pose proof (handle_total env r w) as H.
  destruct (handle env r w) as [resp w']. simpl.
  destruct (is_generate r && _); lia.
Qed.

Lemma serve_total_le (env : environ) (rs : list request) (w : world) :
  total w <= total (serve env rs w).
Proof.
  revert w. induction rs as [|r rs IH]; intros w; [reflexivity|].
  simpl. etransitivity; [apply handle_total_le | apply IH].
Qed.

Lemma serve_deletes_total (env : environ) (ids : list string) (w : world) :
  total (serve env (map DeleteVideo ids) w) = total w.
Proof.
  revert w. induction ids as [|video_id ids IH]; intros w; [reflexivity|].
  cbn [map serve]. rewrite IH.
  pose proof (handle_total env (DeleteVideo video_id) w) as Ht.
  destruct (handle env _ w) as [resp w']. exact Ht.
Qed.

(** An authorised delete of an id present in a document with unique ids. *)
Lemma delete_present (env : environ) (video_id : string) (w : world) :
  logged_in w = true ->
  NoDup (map vi_id (videos (load_metadata w))) ->
  In video_id (map vi_id (videos (load_metadata w))) ->
  let w' := snd (handle env (DeleteVideo video_id) w) in
  logged_in w' = true
  /\ total w' = total w
  /\ videos (load_metadata w') = List.filter (other_id video_id) (videos (load_metadata w))
  /\ S (length (videos (load_metadata w'))) = length (videos (load_metadata w)).
Proof.
  intros Hlog Hnd Hin. cbn [handle].
  apply in_map_iff in Hin. destruct Hin as (v & Hid & Hv).
  rewrite (delete_video_spec video_id w Hlog).
  destruct (find_video _ _) as [first|] eqn:Hfind.
  - cbn. repeat split; try done.
    apply filter_other_id_unique; [exact Hnd|]. by exists v.
  - exfalso. by apply (proj1 (find_video_None _ _) Hfind v).
Qed.

Lemma in_filter_other_id (a b : string) (vs : list video_info) :
  In b (map vi_id vs) -> a <> b ->
  In b (map vi_id (List.filter (other_id a) vs)).
Proof.
  intros Hin Hne. apply in_map_iff in Hin. destruct Hin as (v & Hid & Hv).
  apply in_map_iff. exists v. split; [exact Hid|].
  apply filter_other_id_In. split; [exact Hv | congruence].
Qed.

(** Generate three videos with distinct ids, then delete two of them. *)
Lemma three_generated_two_deleted
    (env : environ) (p1 p2 p3 : option string) (n1 n2 n3 : option Z)
    (e1 e2 e3 : gen_env) (a b : string) (w0 : world) :
  load_metadata w0 = empty_metadata ->
  logged_in w0 = true ->
  let g1 := handle env (PostGenerate p1 n1 e1) w0 in
  let g2 := handle env (PostGenerate p2 n2 e2) (snd g1) in
  let g3 := handle env (PostGenerate p3 n3 e3) (snd g2) in
  resp_status (fst g1) = 200 ->
  resp_status (fst g2) = 200 ->
  resp_status (fst g3) = 200 ->
  NoDup [new_id e1; new_id e2; new_id e3] ->
  In a [new_id e1; new_id e2; new_id e3] ->
  In b [new_id e1; new_id e2; new_id e3] ->
  a <> b ->
  let w5 := serve env [DeleteVideo a; DeleteVideo b] (snd g3) in
  total (snd g3) = 3
  /\ length (videos (load_metadata (snd g3))) = 3%nat
  /\ total w5 = 3
  /\ length (videos (load_metadata w5)) = 1%nat.
Proof.
  intros Hempty Hlog g1 g2 g3 H1 H2 H3 Hnd Ha Hb Hab w5.
  pose proof (generate_video_metadata env p1 n1 e1 w0) as G1. fold g1 in G1.
  destruct g1 as [r1 w1]. destruct G1 as (S1 & (rec1 & I1 & L1) & _); [exact H1|].
  pose proof (generate_video_metadata env p2 n2 e2 w1) as G2.
  cbn [snd] in g2. fold g2 in G2.
  destruct g2 as [r2 w2]. destruct G2 as (S2 & (rec2 & I2 & L2) & _); [exact H2|].
  pose proof (generate_video_metadata env p3 n3 e3 w2) as G3.
  cbn [snd] in g3. fold g3 in G3.
  destruct g3 as [r3 w3]. destruct G3 as (S3 & (rec3 & I3 & L3) & _); [exact H3|].
  cbn [snd fst] in *.
  rewrite L2, L1, Hempty in L3. cbn in L3.
  assert (Hids : map vi_id (videos (load_metadata w3))
                 = [new_id e3; new_id e2; new_id e1])
    by (rewrite L3; cbn; congruence).
  assert (Hlog3 : logged_in w3 = true)
    by (unfold logged_in in *; by rewrite S3, S2, S1).
  assert (Hnd3 : NoDup (map vi_id (videos (load_metadata w3)))).
  { rewrite Hids. clear -Hnd.
    apply NoDup_cons in Hnd as [Hx1 Hnd]. apply NoDup_cons in Hnd as [Hx2 _].
    rewrite list_elem_of_In in Hx1, Hx2. simpl in Hx1, Hx2.
    apply NoDup_cons. split; [|apply NoDup_cons; split; [|apply NoDup_singleton]].
    - rewrite list_elem_of_In. simpl. intuition congruence.
    - rewrite list_elem_of_In. simpl. intuition congruence. }
  assert (Hin : forall x, In x [new_id e1; new_id e2; new_id e3] ->
                          In x (map vi_id (videos (load_metadata w3)))).
  { intros x Hx. rewrite Hids. simpl in *. tauto. }
  assert (Htot3 : total w3 = 3) by (unfold total; by rewrite L3).
  assert (Hlen3 : length (videos (load_metadata w3)) = 3%nat) by (by rewrite L3).
  destruct (delete_present env a w3 Hlog3 Hnd3 (Hin a Ha)) as (Hlog4 & Htot4 & Hv4 & Hlen4).
  set (w4 := snd (handle env (DeleteVideo a) w3)) in *.
  assert (Hnd4 : NoDup (map vi_id (videos (load_metadata w4))))
    by (rewrite Hv4; by apply filter_other_id_NoDup).
  assert (Hb4 : In b (map vi_id (videos (load_metadata w4))))
    by (rewrite Hv4; apply in_filter_other_id; [by apply Hin | exact Hab]).
  destruct (delete_present env b w4 Hlog4 Hnd4 Hb4) as (_ & Htot5 & _ & Hlen5).
  subst w5. cbn [serve]. fold w4.
  repeat split; [exact Htot3 | exact Hlen3 | lia | lia].
Qed.

(** C2: a request changes the counter only if it is a generation answered
    200, in which case the counter grows by exactly one; in particular a
    delete, or any sequence of deletes, leaves it as it is, and no
    sequence of requests makes it smaller. After three successful
    generations with distinct ids on an empty document and the deletion
    of two of these videos, the counter is 3 and one record is left. *)
Theorem total_generated_only_grows :
  (forall (env : environ) (r : request) (w : world),
     let '(resp, w') := handle env r w in
     total w <= total w'
     /\ if is_generate r && (resp_status resp =? 200)
        then total w' = total w + 1
        else total w' = total w)
  /\ (forall (env : environ) (video_id : string) (w : world),
        total (snd (handle env (DeleteVideo video_id) w)) = total w)
  /\ (forall (env : environ) (ids : list string) (w : world),
        total (serve env (map DeleteVideo ids) w) = total w)
  /\ (forall (env : environ) (rs : list request) (w : world),
        total w <= total (serve env rs w))
  /\ (forall (env : environ) (p1 p2 p3 : option string) (n1 n2 n3 : option Z)
             (e1 e2 e3 : gen_env) (a b : string) (w0 : world),
        load_metadata w0 = empty_metadata ->
        logged_in w0 = true ->
        let g1 := handle env (PostGenerate p1 n1 e1) w0 in
        let g2 := handle env (PostGenerate p2 n2 e2) (snd g1) in
        let g3 := handle env (PostGenerate p3 n3 e3) (snd g2) in
        resp_status (fst g1) = 200 ->
        resp_status (fst g2) = 200 ->
        resp_status (fst g3) = 200 ->
        NoDup [new_id e1; new_id e2; new_id e3] ->
        In a [new_id e1; new_id e2; new_id e3] ->
        In b [new_id e1; new_id e2; new_id e3] ->
        a <> b ->
        let w5 := serve env [DeleteVideo a; DeleteVideo b] (snd g3) in
        total w5 = 3 /\ length (videos (load_metadata w5)) = 1%nat).
Proof.
  split; [|split; [|split; [|split]]].
  - intros env r w. pose proof (handle_total env r w) as Ht.
    pose proof (handle_total_le env r w) as Hle.
    destruct (handle env r w) as [resp w']. by split.
  - intros env video_id w. pose proof (handle_total env (DeleteVideo video_id) w) as Ht.
    destruct (handle env _ w) as [resp w']. exact Ht.
  - apply serve_deletes_total.
  - apply serve_total_le.
  - intros env p1 p2 p3 n1 n2 n3 e1 e2 e3 a b w0 Hempty Hlog g1 g2 g3
      H1 H2 H3 Hnd Ha Hb Hab w5.
    by destruct (three_generated_two_deleted env p1 p2 p3 n1 n2 n3 e1 e2 e3 a b w0
                   Hempty Hlog H1 H2 H3 Hnd Ha Hb Hab) as (_ & _ & ? & ?).
Qed.

Example generate_three_delete_two :
  let w := serve ∅ [lake 1700000000 1234; lake 1700000100 4321; lake 1700000200 1111;
                    DeleteVideo "vid_1700000000_1234";
                    DeleteVideo "vid_1700000200_1111"] admin_world in
  total w = 3
  /\ map vi_id (videos (load_metadata w)) = ["vid_1700000100_4321"]
  /\ dom (videos_dir w) = {[ "static/videos/anvesh_video_1700000100.mp4" ]}.
Proof. vm_compute. repeat split. Qed.

(** ** The properties at concrete inputs *)

(** A service that always answers 429, and one that never answers. *)
Lemma generate_image_async_retry_policy_witness :
  let tr := snd (generate_image_async (fun _ => Status 429) "p" 7 3 5) in
  followed_by tr (Request 3 1 "p" 7) (Sleep 10)
  /\ followed_by tr (Request 3 4 "p" 7) (Sleep 25)
  /\ ends_with (snd (generate_image_async (fun _ => TransportError) "p" 7 3 5))
       (Request 3 4 "p" 7).
Proof.
  pose proof (generate_image_async_retry_policy (fun _ => Status 429) "p" 7 3) as H429.
  pose proof (generate_image_async_retry_policy (fun _ => TransportError) "p" 7 3) as Herr.
  destruct (generate_image_async (fun _ => Status 429) "p" 7 3 5) as [r1 tr1].
  destruct (generate_image_async (fun _ => TransportError) "p" 7 3 5) as [r2 tr2].
  destruct H429 as (_ & H429 & _). destruct Herr as (_ & Herr & _).
  cbn [snd]. split; [|split].
  - apply (H429 2%nat); [lia | reflexivity | reflexivity].
  - apply (H429 5%nat); [lia | reflexivity | reflexivity].
  - apply (Herr 5%nat); [lia | reflexivity | reflexivity | reflexivity].
Defined.

(** A request for 25 frames asks the service for frames 0 to 14. *)
Lemma frame_count_coerced_witness :
  coerce_num_frames 25 = 15
  /\ coerce_num_frames 12 = 12
  /\ requested_frames
       (net_log (snd (handle ∅ (PostGenerate (Some "a calm lake") (Some 25)
                                  (env_at all_ok 1700000000 1234)) initial_world)))
     = requested_frames (net_log initial_world) ++ py_range (coerce_num_frames 25).
Proof.
  destruct (frame_count_coerced 25) as (Hout & _ & _ & Hreq).
  destruct (frame_count_coerced 12) as (_ & Hin & _).
  split; [apply Hout; lia|]. split; [apply Hin; lia|].
  apply Hreq. reflexivity.
Defined.

(** Fifteen frames, all obtained: the stored video lasts 4 seconds. *)
Lemma endpoint_videos_last_four_seconds_witness :
  let '(r, w') := handle ∅ (lake 1700000000 1234) initial_world in
  resp_status r = 200
  /\ videos_dir w' !! "static/videos/anvesh_video_1700000000.mp4"
     = Some (stored four_seconds 1000).
Proof.
  pose proof (endpoint_videos_last_four_seconds ∅ (Some "a calm lake at dawn")
                (Some 15) (env_at all_ok 1700000000 1234) initial_world) as H.
  cbv zeta in H. unfold lake.
  destruct (handle ∅ _ initial_world) as [r w'] eqn:E.
  assert (Hr : resp_status r = 200).
  { change r with (fst (r, w')). rewrite <- E. vm_compute. reflexivity. }
  split; [exact Hr|]. apply H. exact Hr.
Defined.

(** Three videos generated, the third and the first deleted. *)
Lemma total_generated_only_grows_witness :
  let e1 := env_at all_ok 1700000000 1234 in
  let e2 := env_at all_ok 1700000100 4321 in
  let e3 := env_at all_ok 1700000200 1111 in
  let p := Some "a calm lake at dawn" in
  let n := Some 15 in
  let g1 := handle ∅ (PostGenerate p n e1) admin_world in
  let g2 := handle ∅ (PostGenerate p n e2) (snd g1) in
  let g3 := handle ∅ (PostGenerate p n e3) (snd g2) in
  let w5 := serve ∅ [DeleteVideo (new_id e3); DeleteVideo (new_id e1)] (snd g3) in
  (load_metadata admin_world = empty_metadata
   /\ logged_in admin_world = true
   /\ resp_status (fst g1) = 200
   /\ resp_status (fst g2) = 200
   /\ resp_status (fst g3) = 200
   /\ NoDup [new_id e1; new_id e2; new_id e3]
   /\ new_id e3 <> new_id e1)
  /\ total w5 = 3
  /\ length (videos (load_metadata w5)) = 1%nat.
Proof.
  cbv zeta.
  pose proof (proj2 (proj2 (proj2 (proj2 total_generated_only_grows)))) as Hscenario.
  specialize (Hscenario ∅ (Some "a calm lake at dawn") (Some "a calm lake at dawn")
                (Some "a calm lake at dawn") (Some 15) (Some 15) (Some 15)
                (env_at all_ok 1700000000 1234) (env_at all_ok 1700000100 4321)
                (env_at all_ok 1700000200 1111)
                (new_id (env_at all_ok 1700000200 1111))
                (new_id (env_at all_ok 1700000000 1234)) admin_world).
  cbv zeta in Hscenario.
  match goal with |- ?A /\ _ => assert (Hhyp : A) end.
  { split; [reflexivity|]. split; [reflexivity|].
    split; [vm_compute; reflexivity|]. split; [vm_compute; reflexivity|].
    split; [vm_compute; reflexivity|].
    split; [apply (bool_decide_unpack _); vm_compute; exact I|].
    vm_compute. discriminate. }
  split; [exact Hhyp|].
  destruct Hhyp as (H0 & Hlog & H1 & H2 & H3 & Hnd & Hne).
  apply (Hscenario H0 Hlog H1 H2 H3 Hnd); [right; right; left| left |]; done.
Defined.

(** * Further properties of the code *)

(** ** Admin session *)

Lemma truthy_opt_Some (s : string) :
  Py.truthy_opt (Some s) = true <-> s <> "".
Proof. destruct s; simpl; split; congruence. Qed.

(** X1: with a non-empty admin password configured, [POST /admin/login]
    succeeds exactly when the submitted password equals it: the answer
    is then [success: true] and the only change is the session flag; any
    other password, an empty one or none at all is answered 401 and
    changes nothing. *)
Theorem admin_login_checks_password
    (env : environ) (pw : string) (password : option string) (w : world) :
  ADMIN_PASSWORD env = Some pw ->
  pw <> "" ->
  let '(r, w') := handle env (AdminLogin POST password) w in
  (password = Some pw ->
     r = jsonify [("success", JBool true)] 200
     /\ logged_in w' = true
     /\ w' = set_session (<["admin_logged_in" := true]> (session w)) w)
  /\ (password <> Some pw ->
        r = jsonify [("success", JBool false); ("error", JStr "Invalid password")] 401
        /\ w' = w).
Proof.
  intros Hpw Hne. cbn [handle]. unfold admin_login. rewrite Hpw.
  rewrite (proj2 (truthy_opt_Some pw) Hne). cbn [negb].
  destruct (Py.truthy_opt password) eqn:Ht; cbn [andb].
  - case_bool_decide as Heq.
    + split; [|contradiction]. intros _. split; [reflexivity|]. split; [|reflexivity].
      unfold logged_in. cbn. by rewrite lookup_insert_eq.
    + split; [contradiction|]. by intros _.
  - split; [|by intros _].
    intros ->. rewrite (proj2 (truthy_opt_Some pw) Hne) in Ht. discriminate.
Qed.

Lemma admin_login_checks_password_witness :
  ADMIN_PASSWORD secret_env = Some "s3cret"
  /\ "s3cret" <> ""
  /\ let '(r, w') := handle secret_env (AdminLogin POST (Some "s3cret")) initial_world in
     (Some "s3cret" = Some "s3cret" ->
        r = jsonify [("success", JBool true)] 200
        /\ logged_in w' = true
        /\ w' = set_session (<["admin_logged_in" := true]> (session initial_world))
                  initial_world)
     /\ (Some "s3cret" <> Some "s3cret" ->
           r = jsonify [("success", JBool false); ("error", JStr "Invalid password")] 401
           /\ w' = initial_world).
Proof.
  split; [reflexivity|]. split; [discriminate|].
  apply (admin_login_checks_password secret_env "s3cret" (Some "s3cret") initial_world);
    [reflexivity | discriminate].
Defined.

(** X2: an [ADMIN_PASSWORD] set to the empty string counts as unset: the
    warning is printed at start-up and every login attempt is answered
    500 without any change, so that the empty password does not open the
    admin area. *)
Theorem empty_admin_password_disables_login
    (env : environ) (password : option string) (w : world) :
  let env' := <["ADMIN_PASSWORD" := ""]> env in
  let '(r, w') := handle env' (AdminLogin POST password) w in
  startup_console env' = [warning_1; warning_2]
  /\ resp_status r = 500
  /\ w' = w.
Proof.
  cbn [handle]. unfold admin_login, startup_console, ADMIN_PASSWORD.
  rewrite lookup_insert_eq. by cbn.
Qed.

(** X3: without the session flag [GET /admin] redirects to the login
    page and [DELETE /admin/delete/<id>] and [GET /stats] answer 401,
    all three without touching the state; [GET /admin/logout] always
    leaves the client in that situation, redirecting to the index and
    changing nothing but the flag. *)
Theorem admin_routes_need_login (env : environ) (video_id : string) (w : world) :
  (logged_in w = false ->
     handle env GetAdmin w =
       ({| resp_body := RedirectTo "admin_login"; resp_status := 302 |}, w)
     /\ handle env (DeleteVideo video_id) w = (error_response "Unauthorized" 401, w)
     /\ handle env GetStats w = (error_response "Unauthorized" 401, w))
  /\ (let '(r, w1) := handle env GetAdminLogout w in
      r = {| resp_body := RedirectTo "index"; resp_status := 302 |}
      /\ logged_in w1 = false
      /\ w1 = set_session (delete "admin_logged_in" (session w)) w).
Proof.
  split.
  - intros Hout. cbn [handle]. unfold admin, delete_video, stats. rewrite Hout. by cbn.
  - cbn [handle admin_logout]. split; [reflexivity|]. split; [|reflexivity].
    unfold logged_in. cbn. by rewrite lookup_delete_eq.
Qed.

Lemma admin_routes_need_login_witness :
  logged_in two_videos_world = true
  /\ logged_in (snd (handle ∅ GetAdminLogout two_videos_world)) = false
  /\ handle ∅ (DeleteVideo "vid_1700000000_1234") (snd (handle ∅ GetAdminLogout two_videos_world))
     = (error_response "Unauthorized" 401, snd (handle ∅ GetAdminLogout two_videos_world)).
Proof.
  split; [reflexivity|].
  destruct (admin_routes_need_login ∅ "vid_1700000000_1234" two_videos_world)
    as (_ & Hlogout).
  destruct (handle ∅ GetAdminLogout two_videos_world) as [r w1].
  destruct Hlogout as (_ & Hout & _). split; [exact Hout|].
  by destruct (admin_routes_need_login ∅ "vid_1700000000_1234" w1) as (Hroutes & _);
    destruct (Hroutes Hout) as (_ & Hdel & _).
Defined.

Lemma delete_video_fields (video_id : string) (w : world) :
  let w' := snd (delete_video video_id w) in
  session w' = session w /\ frames_dir w' = frames_dir w /\ net_log w' = net_log w.
Proof.
  unfold delete_video. destruct (negb _); [done|].
  destruct (find_video _ _); [|done]. by case_bool_decide.
Qed.

(** X4: what a request may change. Only a login [POST] and a logout
    change the session; only a generation and a delete change the
    metadata document and the videos directory; only a generation
    changes the frames directory and talks to the image service. *)
Theorem handle_footprint (env : environ) (r : request) (w : world) :
  let w' := snd (handle env r w) in
  (touches_session r = false -> session w' = session w)
  /\ (touches_videos r = false ->
        metadata_file w' = metadata_file w /\ videos_dir w' = videos_dir w)
  /\ (touches_frames r = false ->
        frames_dir w' = frames_dir w /\ net_log w' = net_log w).
Proof.
  destruct r; cbn [handle touches_session touches_videos touches_frames].
  - done.
  - unfold admin. by destruct (negb _).
  - unfold admin_login. destruct m; [done|].
    destruct (negb _); [done|]. by destruct (_ && _).
  - done.
  - destruct (delete_video_fields video_id w) as (Hs & Hf & Hl). by repeat split.
  - split; [|done]. intros _. apply generate_video_session.
  - unfold download_video. by destruct (bool_decide _).
  - unfold stats. by destruct (negb _).
Qed.

(** ** Stored records and the counter *)

Lemma handle_stored_count (env : environ) (r : request) (w : world) :
  stored_count w <= total w ->
  stored_count (snd (handle env r w)) <= total (snd (handle env r w)).
Proof.
  intros Hinv. destruct r; cbn [handle]; try exact Hinv.
  - unfold admin. by destruct (negb _).
  - unfold admin_login. destruct m; [exact Hinv|].
    destruct (negb _); [exact Hinv|]. by destruct (_ && _).
  - destruct (logged_in w) eqn:Hlog.
    + rewrite (delete_video_spec video_id w Hlog).
      destruct (find_video _ _); [|exact Hinv].
      unfold stored_count, total in *. cbn.
      pose proof (List.filter_length_le (other_id video_id) (videos (load_metadata w))).
      lia.
    + by rewrite (delete_video_unauthorized video_id w Hlog).
  - pose proof (generate_video_metadata env prompt num_frames e w) as Hgen.
    cbn [handle] in Hgen. destruct (flask_view _ w) as [resp w'].
    destruct Hgen as (_ & Hok & Hfail). cbn [snd].
    destruct (Z.eq_dec (resp_status resp) 200) as [H200|Hne].
    + destruct (Hok H200) as (rec & _ & Hload).
      unfold stored_count, total in *. rewrite Hload. cbn [videos total_generated length]. lia.
    + unfold stored_count, total, load_metadata in *. by rewrite (Hfail Hne).
  - unfold download_video. by destruct (bool_decide _).
  - unfold stats. by destruct (negb _).
Qed.

(** X5: the number of stored records never exceeds the total-generated
    counter: if this holds before a sequence of requests, it holds after
    it. *)
Theorem stored_videos_never_exceed_total
    (env : environ) (rs : list request) (w : world) :
  stored_count w <= total w ->
  stored_count (serve env rs w) <= total (serve env rs w).
Proof.
  revert w. induction rs as [|r rs IH]; intros w Hinv; [exact Hinv|].
  cbn [serve]. apply IH. by apply handle_stored_count.
Qed.

Lemma stored_videos_never_exceed_total_witness :
  stored_count initial_world <= total initial_world
  /\ stored_count (serve ∅ [lake 1700000000 1234; DeleteVideo "vid_1700000000_1234"]
                     initial_world)
     <= total (serve ∅ [lake 1700000000 1234; DeleteVideo "vid_1700000000_1234"]
                 initial_world).
Proof.
  split; [reflexivity|].
  apply (stored_videos_never_exceed_total ∅
           [lake 1700000000 1234; DeleteVideo "vid_1700000000_1234"] initial_world).
  reflexivity.
Defined.

(** ** Deleting again, and in another order *)

Lemma find_video_filtered (video_id : string) (vs : list video_info) :
  find_video video_id (List.filter (other_id video_id) vs) = None.
Proof.
  apply find_video_None. intros x Hx. by apply filter_other_id_In in Hx as [_ Hx].
Qed.

Lemma delete_video_logged_in (video_id : string) (w : world) :
  logged_in (snd (delete_video video_id w)) = logged_in w.
Proof.
  unfold logged_in. by destruct (delete_video_fields video_id w) as (-> & _).
Qed.

(** X6: deleting is idempotent: once an authorised delete of an id has
    been served, found or not, a second delete of the same id answers
    404 and changes nothing. *)
Theorem delete_video_twice (env : environ) (video_id : string) (w : world) :
  logged_in w = true ->
  let w1 := snd (handle env (DeleteVideo video_id) w) in
  handle env (DeleteVideo video_id) w1 =
  (jsonify [("error", JStr "Video not found")] 404, w1).
Proof.
  intros Hlog w1. subst w1. cbn [handle].
  assert (Hlog1 : logged_in (snd (delete_video video_id w)) = true)
    by (by rewrite delete_video_logged_in).
  rewrite (delete_video_spec video_id _ Hlog1).
  rewrite (delete_video_spec video_id w Hlog).
  destruct (find_video video_id (videos (load_metadata w))) as [v|] eqn:Hfind.
  - cbn. by rewrite find_video_filtered.
  - cbn. by rewrite Hfind.
Qed.

Lemma delete_video_twice_witness :
  logged_in two_videos_world = true
  /\ let w1 := snd (handle ∅ (DeleteVideo "vid_1700000000_1234") two_videos_world) in
     handle ∅ (DeleteVideo "vid_1700000000_1234") w1 =
     (jsonify [("error", JStr "Video not found")] 404, w1).
Proof.
  split; [reflexivity|].
  apply (delete_video_twice ∅ "vid_1700000000_1234" two_videos_world). reflexivity.
Defined.

Lemma find_video_filter_other (a b : string) (vs : list video_info) :
  a <> b ->
  find_video b (List.filter (other_id a) vs) = find_video b vs.
Proof.
  intros Hab. induction vs as [|x vs IH]; [reflexivity|]. simpl.
  unfold other_id at 1.
  destruct (String.eqb_spec (vi_id x) a) as [Ha|Ha]; simpl.
  - destruct (String.eqb_spec (vi_id x) b) as [Hb|Hb]; [congruence | exact IH].
  - destruct (String.eqb_spec (vi_id x) b); [reflexivity | exact IH].
Qed.

Lemma filter_other_id_comm (a b : string) (vs : list video_info) :
  List.filter (other_id a) (List.filter (other_id b) vs)
  = List.filter (other_id b) (List.filter (other_id a) vs).
Proof.
  induction vs as [|x vs IH]; [reflexivity|]. simpl.
  destruct (other_id b x) eqn:Hb, (other_id a x) eqn:Ha; simpl;
    rewrite ?Ha, ?Hb; by rewrite IH.
Qed.

(** X7: authorised deletes of two different ids can be served in either
    order: the resulting state is the same. *)
Theorem deletes_commute (env : environ) (a b : string) (w : world) :
  logged_in w = true ->
  a <> b ->
  serve env [DeleteVideo a; DeleteVideo b] w
  = serve env [DeleteVideo b; DeleteVideo a] w.
Proof.
  intros Hlog Hab. cbn [serve handle].
  assert (Ha1 : logged_in (snd (delete_video a w)) = true)
    by (by rewrite delete_video_logged_in).
  assert (Hb1 : logged_in (snd (delete_video b w)) = true)
    by (by rewrite delete_video_logged_in).
  rewrite (delete_video_spec b _ Ha1), (delete_video_spec a _ Hb1).
  rewrite (delete_video_spec a w Hlog), (delete_video_spec b w Hlog).
  destruct (find_video a (videos (load_metadata w))) as [va|] eqn:Hfa;
    destruct (find_video b (videos (load_metadata w))) as [vb|] eqn:Hfb;
    cbn; rewrite ?find_video_filter_other, ?Hfa, ?Hfb by congruence; cbn;
    try reflexivity.
  unfold save_metadata, set_metadata_file, set_videos_dir. cbn.
  by rewrite filter_other_id_comm, delete_delete.
Qed.

Lemma deletes_commute_witness :
  logged_in two_videos_world = true
  /\ "vid_1700000000_1234" <> "vid_1700000100_4321"
  /\ serve ∅ [DeleteVideo "vid_1700000000_1234"; DeleteVideo "vid_1700000100_4321"]
       two_videos_world
     = serve ∅ [DeleteVideo "vid_1700000100_4321"; DeleteVideo "vid_1700000000_1234"]
         two_videos_world.
Proof.
  split; [reflexivity|]. split; [discriminate|].
  apply (deletes_commute ∅ "vid_1700000000_1234" "vid_1700000100_4321" two_videos_world);
    [reflexivity | discriminate].
Defined.

(** ** What a successful generation leaves behind *)

Lemma generate_video_success prompt num_frames e w :
  let p := Py.strip (default "" prompt) in
  let frames :=
    fst (generate_frames (server e) p (base_seed e)
           (coerce_num_frames (default 15 num_frames))) in
  let '(r, w') := flask_view (generate_video prompt num_frames e) w in
  resp_status r = 200 ->
  frames <> []
  /\ r = success_response frames e
  /\ metadata_file w' =
     Some {| videos := new_record p frames e :: videos (load_metadata w);
             total_generated := total_generated (load_metadata w) + 1 |}
  /\ videos_dir w' =
     <[video_path e := stored four_seconds (encoded_size e)]> (videos_dir w)
  /\ frames_dir w' = ∅
  /\ session w' = session w.
Proof.
  intros p frames. rewrite generate_video_spec. fold p frames.
  destruct (fetched_fields p (coerce_num_frames (default 15 num_frames)) e w)
    as (_ & _ & _ & Hs & _).
  destruct (negb _); [discriminate|].
  destruct frames as [|f fs] eqn:Hf; [discriminate|].
  destruct (encoder_fault e); [discriminate|].
  intros _. by repeat split.
Qed.

(** X8: a generation answered 200 reports the frames that were obtained
    (between 1 and 20), prepends one record for them to the stored
    records, which keep their order, with the stripped prompt and the
    number of frames obtained, stores the video under the output path,
    replacing any file already there, and leaves the frames directory
    empty. *)
Theorem successful_generation_effects
    (env : environ) (prompt : option string) (num_frames : option Z)
    (e : gen_env) (w : world) :
  let p := Py.strip (default "" prompt) in
  let frames :=
    fst (generate_frames (server e) p (base_seed e)
           (coerce_num_frames (default 15 num_frames))) in
  let '(r, w') := handle env (PostGenerate prompt num_frames e) w in
  resp_status r = 200 ->
  (1 <= length frames <= 20)%nat
  /\ r = success_response frames e
  /\ videos (load_metadata w') = new_record p frames e :: videos (load_metadata w)
  /\ vi_num_frames (new_record p frames e) = Z.of_nat (length frames)
  /\ videos_dir w' =
     <[video_path e := stored four_seconds (encoded_size e)]> (videos_dir w)
  /\ frames_dir w' = ∅.
Proof.
  intros p frames. cbn [handle].
  pose proof (generate_video_success prompt num_frames e w) as Hs.
  cbv zeta in Hs. fold p frames in Hs.
  destruct (flask_view _ w) as [r w']. intros H200.
  destruct (Hs H200) as (Hne & Hr & Hm & Hv & Hf & _).
  pose proof (generate_frames_length (server e) p (base_seed e)
                (coerce_num_frames (default 15 num_frames))) as Hlen.
  fold frames in Hlen.
  pose proof (coerce_num_frames_range (default 15 num_frames)) as Hrange.
  split.
  { split; [destruct frames; [contradiction | simpl; lia] | lia]. }
  split; [exact Hr|]. split; [unfold load_metadata at 1; by rewrite Hm|].
  by repeat split.
Qed.

Lemma successful_generation_effects_witness :
  let e := env_at frame_3_limited 1700000000 1234 in
  let frames :=
    fst (generate_frames (server e) (Py.strip (default "" (Some " a calm lake ")))
           (base_seed e) (coerce_num_frames (default 15 (Some 15)))) in
  let '(r, w') := handle ∅ (PostGenerate (Some " a calm lake ") (Some 15) e)
                    initial_world in
  resp_status r = 200
  /\ (1 <= length frames <= 20)%nat
  /\ r = success_response frames e
  /\ videos (load_metadata w') =
     new_record (Py.strip (default "" (Some " a calm lake "))) frames e
       :: videos (load_metadata initial_world)
  /\ vi_num_frames (new_record (Py.strip (default "" (Some " a calm lake "))) frames e)
     = Z.of_nat (length frames)
  /\ videos_dir w' =
     <[video_path e := stored four_seconds (encoded_size e)]> (videos_dir initial_world)
  /\ frames_dir w' = ∅.
Proof.
  cbv zeta.
  pose proof (successful_generation_effects ∅ (Some " a calm lake ") (Some 15)
                (env_at frame_3_limited 1700000000 1234) initial_world) as H.
  cbv zeta in H.
  destruct (handle ∅ _ initial_world) as [r w'] eqn:E.
  assert (Hr : resp_status r = 200).
  { change r with (fst (r, w')). rewrite <- E. vm_compute. reflexivity. }
  split; [exact Hr|]. exact (H Hr).
Defined.

(** ** Downloading *)

(** X9: the video of a generation answered 200 can be downloaded under
    the name given in the answer; once an admin has deleted its record
    through its id, the same download answers 404. *)
Theorem generated_video_is_downloadable
    (env : environ) (prompt : option string) (num_frames : option Z)
    (e : gen_env) (w : world) :
  let '(r, w1) := handle env (PostGenerate prompt num_frames e) w in
  resp_status r = 200 ->
  logged_in w = true ->
  handle env (GetDownload (output_name e)) w1 =
    ({| resp_body := SendFile (video_path e); resp_status := 200 |}, w1)
  /\ let '(r2, w2) := handle env (DeleteVideo (new_id e)) w1 in
     r2 = jsonify [("success", JBool true)] 200
     /\ handle env (GetDownload (output_name e)) w2 =
        ({| resp_body := Text "Video not found"; resp_status := 404 |}, w2).
Proof.
  cbn [handle].
  pose proof (generate_video_success prompt num_frames e w) as Hs. cbv zeta in Hs.
  destruct (flask_view _ w) as [r w1]. intros H200 Hlog.
  destruct (Hs H200) as (_ & _ & Hm & Hv & _ & Hsess).
  assert (Hlog1 : logged_in w1 = true) by (unfold logged_in in *; by rewrite Hsess).
  split.
  - unfold download_video. fold (video_path e). rewrite Hv, lookup_insert_eq.
    by rewrite bool_decide_eq_true_2.
  - rewrite (delete_video_spec (new_id e) w1 Hlog1).
    unfold load_metadata at 1. rewrite Hm. cbn [videos find_video new_record vi_id].
    rewrite String.eqb_refl. split; [reflexivity|].
    unfold download_video. fold (video_path e).
    cbn [vi_filename videos_dir save_metadata set_metadata_file set_videos_dir].
    fold (video_path e). rewrite lookup_delete_eq.
    by rewrite bool_decide_eq_false_2 by (by intros [? ?]).
Qed.

Lemma generated_video_is_downloadable_witness :
  let e := env_at all_ok 1700000000 1234 in
  let '(r, w1) := handle ∅ (PostGenerate (Some "a calm lake at dawn") (Some 15) e)
                    admin_world in
  resp_status r = 200
  /\ logged_in admin_world = true
  /\ handle ∅ (GetDownload (output_name e)) w1 =
       ({| resp_body := SendFile (video_path e); resp_status := 200 |}, w1)
  /\ let '(r2, w2) := handle ∅ (DeleteVideo (new_id e)) w1 in
     r2 = jsonify [("success", JBool true)] 200
     /\ handle ∅ (GetDownload (output_name e)) w2 =
        ({| resp_body := Text "Video not found"; resp_status := 404 |}, w2).
Proof.
  cbv zeta.
  pose proof (generated_video_is_downloadable ∅ (Some "a calm lake at dawn") (Some 15)
                (env_at all_ok 1700000000 1234) admin_world) as H.
  destruct (handle ∅ (PostGenerate _ _ _) admin_world) as [r w1] eqn:E.
  assert (Hr : resp_status r = 200).
  { change r with (fst (r, w1)). rewrite <- E. vm_compute. reflexivity. }
  split; [exact Hr|]. split; [reflexivity|]. exact (H Hr eq_refl).
Defined.

(** ** Statistics *)

(** X10: for a logged-in admin [GET /stats] reports the number of stored
    records, the counter and the sum of the file sizes; after a
    generation answered 200 the three figures have grown by 1, 1 and the
    size of the new file, and after a failed generation the report is
    unchanged. *)
Theorem stats_follow_generation
    (env : environ) (prompt : option string) (num_frames : option Z)
    (e : gen_env) (w : world) :
  logged_in w = true ->
  let '(r, w') := handle env (PostGenerate prompt num_frames e) w in
  handle env GetStats w = (stats_response (stored_count w) (total w) (storage_bytes w), w)
  /\ (resp_status r = 200 ->
        handle env GetStats w' =
        (stats_response (stored_count w + 1) (total w + 1)
           (storage_bytes w + encoded_size e), w'))
  /\ (resp_status r <> 200 ->
        fst (handle env GetStats w') = fst (handle env GetStats w)).
Proof.
  intros Hlog. cbn [handle].
  pose proof (generate_video_success prompt num_frames e w) as Hs. cbv zeta in Hs.
  pose proof (generate_video_metadata env prompt num_frames e w) as Hm.
  cbn [handle] in Hm.
  destruct (flask_view _ w) as [r w']. destruct Hm as (Hsess & _ & Hfail).
  assert (Hlog' : logged_in w' = true) by (unfold logged_in in *; by rewrite Hsess).
  split; [|split].
  - unfold stats. rewrite Hlog. reflexivity.
  - intros H200. destruct (Hs H200) as (_ & _ & Hmeta & _).
    unfold stats. rewrite Hlog'. cbn [negb].
    unfold stats_response, stored_count, total, storage_bytes, load_metadata.
    rewrite Hmeta. cbn [videos total_generated length map fold_right new_record vi_file_size].
    rewrite Nat2Z.inj_succ, (Z.add_comm (encoded_size e)). reflexivity.
  - intros Hne. unfold stats. rewrite Hlog, Hlog'. cbn [negb fst].
    unfold load_metadata. by rewrite (Hfail Hne).
Qed.

Lemma stats_follow_generation_witness :
  logged_in admin_world = true
  /\ let e := env_at all_ok 1700000000 1234 in
     let '(r, w') := handle ∅ (PostGenerate (Some "a calm lake at dawn") (Some 15) e)
                       admin_world in
     handle ∅ GetStats admin_world =
       (stats_response (stored_count admin_world) (total admin_world)
          (storage_bytes admin_world), admin_world)
     /\ (resp_status r = 200 ->
           handle ∅ GetStats w' =
           (stats_response (stored_count admin_world + 1) (total admin_world + 1)
              (storage_bytes admin_world + encoded_size e), w'))
     /\ (resp_status r <> 200 ->
           fst (handle ∅ GetStats w') = fst (handle ∅ GetStats admin_world)).
Proof.
  split; [reflexivity|]. cbv zeta.
  apply (stats_follow_generation ∅ (Some "a calm lake at dawn") (Some 15)
           (env_at all_ok 1700000000 1234) admin_world).
  reflexivity.
Defined.

(** ** Prompts made of white space *)

Lemma lstrip_blank (s : string) :
  forallb Py.isspace (list_ascii_of_string s) = true -> Py.lstrip s = "".
Proof.
  induction s as [|c s IH]; [reflexivity|]. simpl.
  intros H. apply andb_prop in H. destruct H as [Hc Hs]. rewrite Hc. by apply IH.
Qed.

(** X11: a generation request whose prompt is missing or consists of
    white space only is answered 400 "Prompt is required" before
    anything happens: the frames directory is not cleared and no request
    is sent. *)
Theorem blank_prompt_rejected
    (env : environ) (prompt : string) (num_frames : option Z) (e : gen_env) (w : world) :
  forallb Py.isspace (list_ascii_of_string prompt) = true ->
  handle env (PostGenerate (Some prompt) num_frames e) w
    = (error_response "Prompt is required" 400, w)
  /\ handle env (PostGenerate None num_frames e) w
    = (error_response "Prompt is required" 400, w).
Proof.
  intros Hblank. cbn [handle]. split.
  - rewrite generate_video_spec. cbn [from_option id].
    unfold Py.strip. by rewrite (lstrip_blank prompt Hblank).
  - by rewrite generate_video_spec.
Qed.

Lemma blank_prompt_rejected_witness :
  forallb Py.isspace (list_ascii_of_string "   ") = true
  /\ handle ∅ (PostGenerate (Some "   ") (Some 12) (env_at all_ok 1 1000)) stale_world
     = (error_response "Prompt is required" 400, stale_world)
  /\ handle ∅ (PostGenerate None (Some 12) (env_at all_ok 1 1000)) stale_world
     = (error_response "Prompt is required" 400, stale_world).
Proof.
  split; [reflexivity|].
  apply (blank_prompt_rejected ∅ "   " (Some 12) (env_at all_ok 1 1000) stale_world).
  reflexivity.
Defined.

(** ** Measures on traces *)

Lemma sleep_total_app (l1 l2 : list event) :
  sleep_total (l1 ++ l2) = sleep_total l1 + sleep_total l2.
Proof.
  induction l1 as [|ev l1 IH]; [reflexivity|].
  simpl. rewrite IH. destruct ev; lia.
Qed.

Lemma count_requests_app (l1 l2 : list event) :
  count_requests (l1 ++ l2) = (count_requests l1 + count_requests l2)%nat.
Proof. unfold count_requests. by rewrite List.filter_app, length_app. Qed.

Lemma count_pauses_app (l1 l2 : list event) :
  count_pauses (l1 ++ l2) = (count_pauses l1 + count_pauses l2)%nat.
Proof. unfold count_pauses. by rewrite List.filter_app, length_app. Qed.

Lemma frames_loop_trace srv prompt base_seed num_frames (i : nat) (rest : list nat) :
  snd (frames_loop srv prompt base_seed num_frames (i :: rest)) =
  snd (generate_image_async (srv i) (variation prompt i) (base_seed + Z.of_nat i) i 5)
    ++ pause_after num_frames i
    ++ snd (frames_loop srv prompt base_seed num_frames rest).
Proof.
  simpl. fold (variation prompt i). fold (pause_after num_frames i).
  destruct (generate_image_async _ _ _ _ _) as [fp evs].
  by destruct (frames_loop _ _ _ _ rest) as [paths evs'].
Qed.

Lemma generate_frames_trace srv prompt base_seed num_frames :
  snd (generate_frames srv prompt base_seed num_frames) =
  snd (frames_loop srv prompt base_seed num_frames (py_range num_frames)).
Proof.
  unfold generate_frames. by destruct (frames_loop _ _ _ _ _).
Qed.

(** One attempt: what it sleeps. *)
Lemma attempt_body_sleep (o : outcome) (index attempt max_retries : nat) :
  let evs := snd (attempt_body o index attempt max_retries) in
  0 <= sleep_total evs <= 5 * (Z.of_nat attempt + 1)
  /\ count_pauses evs = 0%nat
  /\ count_requests evs = 0%nat.
Proof.
  pose proof (Nat2Z.is_nonneg attempt) as Hpos.
  destruct o as [code|]; cbn [attempt_body].
  - destruct (code =? 200); [by (repeat split; cbn; try lia)|].
    destruct (code =? 429).
    + unfold count_pauses, count_requests.
      cbn [snd sleep_total fold_right List.filter is_pause is_request].
      destruct (Z.eqb_spec ((Z.of_nat attempt + 1) * 5) 2); [lia|].
      repeat split; try reflexivity; lia.
    + repeat split; cbn; lia.
  - destruct (_ <? _); repeat split; cbn; lia.
Qed.

Section RetryMeasures.
Variable srv : nat -> outcome.
Variables (prompt : string) (seed : Z) (index max_retries : nat).

Local Abbreviation loop := (retry_loop srv prompt seed index max_retries).

Lemma retry_loop_trace (attempt : nat) (rest : list nat) :
  snd (loop (attempt :: rest)) =
  Request index attempt prompt seed
    :: snd (attempt_body (srv attempt) index attempt max_retries)
    ++ (if is_ok (srv attempt) then [] else snd (loop rest)).
Proof.
  rewrite retry_loop_cons. destruct (is_ok (srv attempt)); [|reflexivity].
  simpl. by rewrite app_nil_r.
Qed.

Lemma retry_loop_sleep (attempts : list nat) :
  0 <= sleep_total (snd (loop attempts))
    <= fold_right (fun a acc => 5 * (Z.of_nat a + 1) + acc) 0 attempts.
Proof.
  induction attempts as [|a rest IH]; [simpl; lia|].
  rewrite retry_loop_trace. cbn [sleep_total fold_right].
  fold (sleep_total (snd (attempt_body (srv a) index a max_retries)
                       ++ (if is_ok (srv a) then [] else snd (loop rest)))).
  rewrite sleep_total_app.
  destruct (attempt_body_sleep (srv a) index a max_retries) as (Hs & _).
  cbv zeta in Hs. destruct (is_ok (srv a)).
  - change (sleep_total []) with 0.
    pose proof (proj2 IH) as Hrest. clear IH.
    assert (0 <= fold_right (fun a acc => 5 * (Z.of_nat a + 1) + acc) 0 rest).
    { clear. induction rest as [|x rest IH]; simpl fold_right; lia. }
    lia.
  - lia.
Qed.

Lemma retry_loop_no_pause (attempts : list nat) :
  count_pauses (snd (loop attempts)) = 0%nat.
Proof.
  induction attempts as [|a rest IH]; [reflexivity|].
  rewrite retry_loop_trace.
  change (count_pauses (Request ?i ?k ?p ?s :: ?l)) with (count_pauses l).
  rewrite count_pauses_app.
  destruct (attempt_body_sleep (srv a) index a max_retries) as (_ & -> & _).
  by destruct (is_ok (srv a)).
Qed.

Lemma retry_loop_count (attempts : list nat) :
  attempts <> [] ->
  (1 <= count_requests (snd (loop attempts)) <= length attempts)%nat.
Proof.
  intros Hne. split; [|apply retry_loop_requests].
  destruct attempts as [|a rest]; [contradiction|].
  rewrite retry_loop_trace. unfold count_requests. simpl. lia.
Qed.

(** The requests of one frame all carry its index, prompt and seed. *)
Lemma retry_loop_requests_shape (attempts : list nat) :
  Forall (fun ev => match ev with
                    | Request i a p s =>
                        i = index /\ In a attempts /\ p = prompt /\ s = seed
                    | _ => True
                    end) (snd (loop attempts)).
Proof.
  induction attempts as [|a rest IH]; [constructor|].
  rewrite retry_loop_trace. constructor; [by repeat split; try left|].
  apply Forall_app. split.
  - destruct (srv a) as [code|]; simpl.
    + destruct (code =? 200); [by repeat constructor|].
      destruct (code =? 429); by repeat constructor.
    + destruct (_ <? _); by repeat constructor.
  - destruct (is_ok (srv a)); [constructor|].
    eapply Forall_impl; [exact IH|].
    intros [i k p s| |]; [|done|done]. intros (? & ? & ? & ?). repeat split; try done.
    by right.
Qed.

(** The first attempt answered 200 ends the loop. *)
Lemma retry_loop_first_success (before : list nat) (k : nat) (after : list nat) :
  (forall b, In b before -> is_ok (srv b) = false) ->
  is_ok (srv k) = true ->
  fst (loop (before ++ k :: after)) = Some (frame_file index)
  /\ count_requests (snd (loop (before ++ k :: after))) = S (length before)
  /\ written (snd (loop (before ++ k :: after))) = [frame_file index]
  /\ exists pre, snd (loop (before ++ k :: after)) =
                 pre ++ [Request index k prompt seed; WriteFrame (frame_file index)].
Proof.
  intros Hfail Hok.
  assert (Hbody : snd (attempt_body (srv k) index k max_retries)
                  = [WriteFrame (frame_file index)]).
  { destruct (srv k) as [code|]; [|discriminate]. simpl in *. by rewrite Hok. }
  induction before as [|b before IH].
  - simpl app. rewrite retry_loop_cons, Hok, Hbody. repeat split. by exists [].
  - destruct IH as (I1 & I2 & I3 & pre & I4); [intros; apply Hfail; by right|].
    assert (Hb : is_ok (srv b) = false) by (apply Hfail; by left).
    simpl app. rewrite retry_loop_cons, Hb. cbn [fst snd].
    destruct (attempt_body_sleep (srv b) index b max_retries) as (_ & _ & Hreq).
    cbv zeta in Hreq.
    assert (Hwb : written (snd (attempt_body (srv b) index b max_retries)) = []).
    { destruct (srv b) as [code|]; simpl in *.
      - rewrite Hb. by destruct (code =? 429).
      - by destruct (_ <? _). }
    split; [exact I1|]. split; [|split].
    + change (count_requests (Request ?i ?a ?p ?s :: ?l)) with (S (count_requests l)).
      rewrite count_requests_app, Hreq, I2. reflexivity.
    + change (written (Request ?i ?a ?p ?s :: ?l)) with (written l).
      by rewrite written_app, Hwb, I3.
    + exists (Request index b prompt seed
                :: snd (attempt_body (srv b) index b max_retries) ++ pre).
      rewrite I4. simpl. by rewrite <- app_assoc.
Qed.

End RetryMeasures.

Lemma range_split (k m : nat) :
  (k < m)%nat -> seq 0 m = seq 0 k ++ k :: seq (S k) (m - S k).
Proof.
  intros Hk. replace m with (k + S (m - S k))%nat at 1 by lia.
  by rewrite seq_app.
Qed.

Lemma backoff_sum (m : nat) :
  2 * fold_right (fun a acc => 5 * (Z.of_nat a + 1) + acc) 0 (seq 0 m)
  = 5 * Z.of_nat m * (Z.of_nat m + 1).
Proof.
  induction m as [|m IH]; [reflexivity|].
  rewrite seq_S, fold_right_app. cbn [fold_right Nat.add].
  assert (Hshift : forall l z,
            fold_right (fun a acc => 5 * (Z.of_nat a + 1) + acc) z l
            = fold_right (fun a acc => 5 * (Z.of_nat a + 1) + acc) 0 l + z).
  { induction l as [|x l IHl]; intros z; simpl fold_right; [lia|]. rewrite IHl. lia. }
  rewrite Hshift. lia.
Qed.

(** X12: for any retry budget, if attempt [k] (counted from 0) is within
    the budget and is the first one answered 200, the fetcher returns
    the frame path after exactly [k + 1] requests, writes that one file
    and nothing else, and the write is its last effect. *)
Theorem fetch_stops_at_first_success
    (srv : nat -> outcome) (prompt : string) (seed : Z) (index max_retries k : nat) :
  (k < max_retries)%nat ->
  (forall j, (j < k)%nat -> is_ok (srv j) = false) ->
  is_ok (srv k) = true ->
  let '(r, tr) := generate_image_async srv prompt seed index max_retries in
  r = Some (frame_file index)
  /\ count_requests tr = S k
  /\ written tr = [frame_file index]
  /\ exists pre, tr = pre ++ [Request index k prompt seed; WriteFrame (frame_file index)].
Proof.
  intros Hk Hfail Hok. unfold generate_image_async.
  rewrite (range_split k max_retries Hk).
  destruct (retry_loop_first_success srv prompt seed index max_retries
              (seq 0 k) k (seq (S k) (max_retries - S k))) as (H1 & H2 & H3 & H4).
  { intros b Hb. apply in_seq in Hb. apply Hfail. lia. }
  { exact Hok. }
  destruct (retry_loop _ _ _ _ _ _) as [r tr]. cbn [fst snd] in *.
  rewrite length_seq in H2. by repeat split.
Qed.

Lemma fetch_stops_at_first_success_witness :
  let srv := fun a => match a with 0%nat => Status 503 | 1%nat => Status 429
                                 | _ => Status 200 end in
  (2 < 5)%nat
  /\ (forall j, (j < 2)%nat -> is_ok (srv j) = false)
  /\ is_ok (srv 2%nat) = true
  /\ let '(r, tr) := generate_image_async srv "p" 7 3 5 in
     r = Some (frame_file 3)
     /\ count_requests tr = 3%nat
     /\ written tr = [frame_file 3]
     /\ exists pre, tr = pre ++ [Request 3 2 "p" 7; WriteFrame (frame_file 3)].
Proof.
  intros srv.
  assert (Hfail : forall j, (j < 2)%nat -> is_ok (srv j) = false).
  { intros j Hj. destruct j as [|[|j]]; [reflexivity | reflexivity | lia]. }
  split; [lia|]. split; [exact Hfail|]. split; [reflexivity|].
  apply (fetch_stops_at_first_success srv "p" 7 3 5 2); [lia | exact Hfail | reflexivity].
Defined.

(** X13: for any retry budget [m] the fetcher sends at most [m]
    requests; it returns [None] exactly when none of the first [m]
    attempts is answered 200, and then it has sent all [m] requests and
    written no file; a returned path is the file of the frame and the
    only file written; the time slept is at most [5 * (1 + ... + m)]
    seconds; none of its sleeps is a 2 second one. *)
Theorem retry_budget
    (srv : nat -> outcome) (prompt : string) (seed : Z) (index max_retries : nat) :
  let '(r, tr) := generate_image_async srv prompt seed index max_retries in
  (count_requests tr <= max_retries)%nat
  /\ (r = None <-> forall a, (a < max_retries)%nat -> is_ok (srv a) = false)
  /\ (r = None -> count_requests tr = max_retries)
  /\ (forall p, r = Some p -> p = frame_file index /\ written tr = [p])
  /\ (r = None -> written tr = [])
  /\ 0 <= 2 * sleep_total tr <= 5 * Z.of_nat max_retries * (Z.of_nat max_retries + 1)
  /\ count_pauses tr = 0%nat.
Proof.
  unfold generate_image_async.
  pose proof (retry_loop_requests srv prompt seed index max_retries (seq 0 max_retries)) as Hreq.
  pose proof (retry_loop_result srv prompt seed index max_retries (seq 0 max_retries)) as Hres.
  pose proof (retry_loop_written srv prompt seed index max_retries (seq 0 max_retries)) as Hwr.
  pose proof (retry_loop_sleep srv prompt seed index max_retries (seq 0 max_retries)) as Hsl.
  pose proof (retry_loop_no_pause srv prompt seed index max_retries (seq 0 max_retries)) as Hpa.
  pose proof (retry_loop_exhausted srv prompt seed index max_retries (seq 0 max_retries)) as Hex.
  pose proof (backoff_sum max_retries) as Hsum.
  destruct (retry_loop _ _ _ _ _ _) as [r tr]. cbn [fst snd] in *.
  rewrite length_seq in Hreq, Hex.
  assert (Hnone : r = None <-> forall a, (a < max_retries)%nat -> is_ok (srv a) = false).
  { rewrite Hres. split.
    - intros Hn a Ha. destruct (is_ok (srv a)) eqn:Hok; [|reflexivity].
      assert (Ht : existsb (fun a => is_ok (srv a)) (seq 0 max_retries) = true).
      { apply existsb_exists. exists a. split; [apply in_seq; lia | exact Hok]. }
      rewrite Ht in Hn. discriminate.
    - intros Hall. destruct (existsb _ _) eqn:Ht; [|reflexivity].
      apply existsb_exists in Ht. destruct Ht as (a & Ha & Hok).
      apply in_seq in Ha. rewrite Hall in Hok by lia. discriminate. }
  split; [exact Hreq|]. split; [exact Hnone|]. split.
  { intros Hn. apply Hex. intros a Ha. apply elem_of_seq in Ha.
    apply (proj1 Hnone Hn). lia. }
  split.
  { intros p Hp. rewrite Hwr, Hp. split; [|reflexivity].
    rewrite Hres in Hp. destruct (existsb _ _); congruence. }
  split; [intros Hn; by rewrite Hwr, Hn|].
  split; [lia | exact Hpa].
Qed.

(** ** Measures on the orchestrator *)

Section OrchestratorMeasures.
Variable srv : nat -> nat -> outcome.
Variables (prompt : string) (base_seed num_frames : Z).

Local Abbreviation loop := (frames_loop srv prompt base_seed num_frames).

Lemma frame_trace_measures (i : nat) :
  let tr := snd (generate_image_async (srv i) (variation prompt i)
                   (base_seed + Z.of_nat i) i 5) in
  (1 <= count_requests tr <= 5)%nat
  /\ 0 <= sleep_total tr <= 75
  /\ count_pauses tr = 0%nat.
Proof.
  unfold generate_image_async.
  pose proof (retry_loop_count (srv i) (variation prompt i) (base_seed + Z.of_nat i)
                i 5 (seq 0 5)) as Hc.
  pose proof (retry_loop_sleep (srv i) (variation prompt i) (base_seed + Z.of_nat i)
                i 5 (seq 0 5)) as Hs.
  pose proof (retry_loop_no_pause (srv i) (variation prompt i) (base_seed + Z.of_nat i)
                i 5 (seq 0 5)) as Hp.
  cbv zeta. split; [apply Hc; discriminate|]. split; [|exact Hp].
  change (fold_right _ 0 (seq 0 5)) with 75 in Hs. exact Hs.
Qed.

Lemma frames_loop_measures (indices : list nat) :
  let tr := snd (loop indices) in
  count_pauses tr = length (List.filter (before_last num_frames) indices)
  /\ (length indices <= count_requests tr <= 5 * length indices)%nat
  /\ 0 <= sleep_total tr
       <= 75 * Z.of_nat (length indices)
          + 2 * Z.of_nat (length (List.filter (before_last num_frames) indices)).
Proof.
  induction indices as [|i rest IH]; [cbn; lia|].
  cbv zeta in *. rewrite frames_loop_trace.
  rewrite !count_pauses_app, !count_requests_app, !sleep_total_app.
  destruct (frame_trace_measures i) as (Hc & Hs & Hp). cbv zeta in Hc, Hs, Hp.
  destruct IH as (I1 & I2 & I3).
  cbn [List.filter length]. unfold pause_after. fold (before_last num_frames i).
  destruct (before_last num_frames i).
  - change (count_pauses [Sleep 2]) with 1%nat.
    change (count_requests [Sleep 2]) with 0%nat.
    change (sleep_total [Sleep 2]) with 2.
    cbn [length]. rewrite !Nat2Z.inj_succ. lia.
  - change (count_pauses []) with 0%nat.
    change (count_requests []) with 0%nat.
    change (sleep_total []) with 0.
    rewrite !Nat2Z.inj_succ. lia.
Qed.

Lemma frames_loop_shape (indices : list nat) :
  Forall (fun ev => match ev with
                    | Request i a p s =>
                        In i indices /\ (a < 5)%nat
                        /\ p = variation prompt i /\ s = base_seed + Z.of_nat i
                    | _ => True
                    end) (snd (loop indices)).
Proof.
  induction indices as [|i rest IH]; [constructor|].
  rewrite frames_loop_trace. apply Forall_app. split; [|apply Forall_app; split].
  - unfold generate_image_async.
    eapply Forall_impl;
      [apply (retry_loop_requests_shape (srv i) (variation prompt i)
                (base_seed + Z.of_nat i) i 5 (seq 0 5))|].
    intros [j a p s| |]; [|done|done]. intros (-> & Ha & -> & ->).
    apply in_seq in Ha. repeat split; [by left | lia].
  - unfold pause_after. destruct (_ <? _); by repeat constructor.
  - eapply Forall_impl; [exact IH|].
    intros [j a p s| |]; [|done|done]. intros (? & ? & ? & ?).
    repeat split; try done. by right.
Qed.

End OrchestratorMeasures.

Lemma before_last_count (n : Z) :
  length (List.filter (before_last n) (py_range n)) = (Z.to_nat n - 1)%nat.
Proof.
  unfold py_range.
  assert (Hgen : forall m : nat,
            (m <= Z.to_nat n)%nat ->
            length (List.filter (before_last n) (seq 0 m)) = Nat.min m (Z.to_nat n - 1)).
  { induction m as [|m IH]; intros Hm; [reflexivity|].
    rewrite seq_S, List.filter_app, length_app, IH by lia. cbn [List.filter Nat.add].
    unfold before_last. destruct (Z.ltb_spec (Z.of_nat m) (n - 1)); cbn [length]; lia. }
  rewrite Hgen by lia. lia.
Qed.

Lemma generate_frames_measures
    (srv : nat -> nat -> outcome) (prompt : string) (base_seed num_frames : Z) :
  let tr := snd (generate_frames srv prompt base_seed num_frames) in
  let n := Z.to_nat num_frames in
  count_pauses tr = (n - 1)%nat
  /\ (n <= count_requests tr <= 5 * n)%nat
  /\ 0 <= sleep_total tr <= 75 * Z.of_nat n + 2 * Z.of_nat (n - 1).
Proof.
  cbv zeta. rewrite generate_frames_trace.
  destruct (frames_loop_measures srv prompt base_seed num_frames (py_range num_frames))
    as (Hp & Hc & Hs).
  cbv zeta in Hp, Hc, Hs. rewrite before_last_count in Hp, Hs.
  unfold py_range in Hc, Hs. rewrite length_seq in Hc, Hs.
  split; [exact Hp|]. split; [exact Hc | exact Hs].
Qed.

(** X14: the orchestrator pauses 2 seconds after every frame but the
    last: the trace of [generate_frames] holds exactly [num_frames - 1]
    sleeps of 2 seconds (none for [num_frames <= 1]). *)
Theorem one_pause_between_frames
    (srv : nat -> nat -> outcome) (prompt : string) (base_seed num_frames : Z) :
  count_pauses (snd (generate_frames srv prompt base_seed num_frames))
  = (Z.to_nat num_frames - 1)%nat.
Proof.
  destruct (generate_frames_measures srv prompt base_seed num_frames) as (Hp & _).
  exact Hp.
Qed.

(** X15: for [n] frames the orchestrator sends at least [n] and at most
    [5 n] requests and sleeps at most [75 n + 2 (n - 1)] seconds in
    total. *)
Theorem generation_budget
    (srv : nat -> nat -> outcome) (prompt : string) (base_seed num_frames : Z) :
  let tr := snd (generate_frames srv prompt base_seed num_frames) in
  let n := Z.to_nat num_frames in
  (n <= count_requests tr <= 5 * n)%nat
  /\ 0 <= sleep_total tr <= 75 * Z.of_nat n + 2 * Z.of_nat (n - 1).
Proof.
  destruct (generate_frames_measures srv prompt base_seed num_frames) as (_ & Hc & Hs).
  split; [exact Hc | exact Hs].
Qed.

(** X16: every request sent by [generate_frames] is for a frame index
    below [num_frames], is one of the five attempts, and carries the
    seed [base_seed + i] and the prompt extended by ", cinematic scene
    i+1". *)
Theorem requests_carry_seed_and_scene
    (srv : nat -> nat -> outcome) (prompt : string) (base_seed num_frames : Z)
    (i a : nat) (p : string) (s : Z) :
  In (Request i a p s) (snd (generate_frames srv prompt base_seed num_frames)) ->
  Z.of_nat i < num_frames
  /\ (a < 5)%nat
  /\ s = base_seed + Z.of_nat i
  /\ p = prompt +:+ ", cinematic scene " +:+ Py.str_int (Z.of_nat i + 1).
Proof.
  intros Hin. rewrite generate_frames_trace in Hin.
  pose proof (frames_loop_shape srv prompt base_seed num_frames (py_range num_frames)) as Hall.
  rewrite List.Forall_forall in Hall. specialize (Hall _ Hin). cbn in Hall.
  destruct Hall as (Hi & Ha & Hp & Hs). unfold py_range in Hi. apply in_seq in Hi.
  repeat split; try done. lia.
Qed.

Lemma requests_carry_seed_and_scene_witness :
  In (Request 1 0 "lake, cinematic scene 2" 43)
     (snd (generate_frames all_ok "lake" 42 3))
  /\ Z.of_nat 1 < 3
  /\ (0 < 5)%nat
  /\ 43 = 42 + Z.of_nat 1
  /\ "lake, cinematic scene 2" = "lake" +:+ ", cinematic scene " +:+ Py.str_int (Z.of_nat 1 + 1).
Proof.
  assert (Hin : In (Request 1 0 "lake, cinematic scene 2" 43)
                   (snd (generate_frames all_ok "lake" 42 3))).
  { vm_compute. right. right. right. by left. }
  split; [exact Hin|].
  exact (requests_carry_seed_and_scene all_ok "lake" 42 3 1 0 "lake, cinematic scene 2" 43 Hin).
Defined.

(** X17: a single HTTP request only appends to the log of network
    effects, and what it appends holds at most 100 requests to the image
    service and at most 1538 seconds of sleep; requests other than a
    generation append nothing. *)
Theorem request_budget (env : environ) (r : request) (w : world) :
  exists tr,
    net_log (snd (handle env r w)) = net_log w ++ tr
    /\ (count_requests tr <= 100)%nat
    /\ 0 <= sleep_total tr <= 1538
    /\ (touches_frames r = false -> tr = []).
Proof.
  destruct r;
    try (exists []; cbn [handle]; rewrite app_nil_r;
         repeat split; try (cbn; lia);
         first [ reflexivity
               | unfold admin; by destruct (negb _)
               | unfold admin_login; destruct m; [done|];
                 destruct (negb _); [done|]; by destruct (_ && _)
               | by destruct (delete_video_fields video_id w) as (_ & _ & ->)
               | unfold download_video; by destruct (bool_decide _)
               | unfold stats; by destruct (negb _) ]).
  cbn [handle touches_frames]. rewrite generate_video_net_log.
  destruct (negb _).
  - exists []. rewrite app_nil_r. repeat split; cbn; lia.
  - eexists. split; [reflexivity|].
    pose proof (coerce_num_frames_range (default 15 num_frames)) as Hn.
    destruct (generate_frames_measures (server e) (Py.strip (default "" prompt)) (base_seed e)
                (coerce_num_frames (default 15 num_frames))) as (_ & Hc & Hs).
    cbv zeta in Hc, Hs. split; [lia|]. split; [lia|]. discriminate.
Qed.

(** ** When the service answers at once *)

Lemma first_attempt_ok srv prompt seed index :
  is_ok (srv 0%nat) = true ->
  generate_image_async srv prompt seed index 5 =
  (Some (frame_file index),
   [Request index 0 prompt seed; WriteFrame (frame_file index)]).
Proof.
  intros Hok. unfold generate_image_async. change (seq 0 5) with (0%nat :: seq 1 4).
  rewrite retry_loop_cons, Hok. do 2 f_equal.
  destruct (srv 0%nat) as [code|]; [|discriminate]. simpl in *. by rewrite Hok.
Qed.

Lemma frames_loop_all_ok srv prompt base_seed num_frames (indices : list nat) :
  (forall i, In i indices -> is_ok (srv i 0%nat) = true) ->
  fst (frames_loop srv prompt base_seed num_frames indices) = map Some (map frame_file indices)
  /\ count_requests (snd (frames_loop srv prompt base_seed num_frames indices))
     = length indices
  /\ sleep_total (snd (frames_loop srv prompt base_seed num_frames indices))
     = 2 * Z.of_nat (length (List.filter (before_last num_frames) indices)).
Proof.
  induction indices as [|i rest IH]; intros Hall; [by repeat split|].
  destruct IH as (I1 & I2 & I3); [intros; apply Hall; by right|].
  assert (Hi : is_ok (srv i 0%nat) = true) by (apply Hall; by left).
  rewrite frames_loop_trace.
  rewrite (first_attempt_ok (srv i) (variation prompt i) (base_seed + Z.of_nat i) i Hi).
  cbn [snd]. split; [|split].
  - simpl. fold (variation prompt i).
    rewrite (first_attempt_ok (srv i) (variation prompt i) (base_seed + Z.of_nat i) i Hi).
    destruct (frames_loop _ _ _ _ rest) as [paths evs]. cbn [fst] in *. by rewrite I1.
  - rewrite !count_requests_app, I2. unfold pause_after.
    destruct (_ <? _); reflexivity.
  - rewrite !sleep_total_app, I3. cbn [List.filter length].
    unfold pause_after. fold (before_last num_frames i).
    destruct (before_last num_frames i).
    + change (sleep_total [Sleep 2]) with 2.
      change (sleep_total [_; _]) with 0. cbn [length]. rewrite Nat2Z.inj_succ. lia.
    + change (sleep_total []) with 0. change (sleep_total [_; _]) with 0. lia.
Qed.

(** X18: if the service answers 200 to the first attempt for every
    frame, [generate_frames] returns all [num_frames] frame files in
    index order after exactly [num_frames] requests, and the only time
    slept is the pacing, [2 (num_frames - 1)] seconds. *)
Theorem all_first_attempts_succeed
    (srv : nat -> nat -> outcome) (prompt : string) (base_seed num_frames : Z) :
  (forall i, Z.of_nat i < num_frames -> is_ok (srv i 0%nat) = true) ->
  let '(frames, tr) := generate_frames srv prompt base_seed num_frames in
  frames = map frame_file (py_range num_frames)
  /\ length frames = Z.to_nat num_frames
  /\ count_requests tr = Z.to_nat num_frames
  /\ sleep_total tr = 2 * Z.of_nat (Z.to_nat num_frames - 1).
Proof.
  intros Hall.
  destruct (frames_loop_all_ok srv prompt base_seed num_frames (py_range num_frames))
    as (H1 & H2 & H3).
  { intros i Hi. unfold py_range in Hi. apply in_seq in Hi. apply Hall. lia. }
  rewrite before_last_count in H3.
  unfold generate_frames.
  destruct (frames_loop _ _ _ _ _) as [paths evs]. cbn [fst snd] in *.
  subst paths. unfold py_range in *. rewrite length_seq in H2.
  assert (Hom : forall l : list string, omap id (map Some l) = l).
  { induction l as [|x l IHl]; [reflexivity|]. cbn. by rewrite IHl. }
  rewrite Hom. rewrite length_map, length_seq. by repeat split.
Qed.

Lemma all_first_attempts_succeed_witness :
  (forall i, Z.of_nat i < 15 -> is_ok (all_ok i 0%nat) = true)
  /\ let '(frames, tr) := generate_frames all_ok "a calm lake at dawn" 42 15 in
     frames = map frame_file (py_range 15)
     /\ length frames = Z.to_nat 15
     /\ count_requests tr = Z.to_nat 15
     /\ sleep_total tr = 2 * Z.of_nat (Z.to_nat 15 - 1).
Proof.
  split; [reflexivity|].
  apply (all_first_attempts_succeed all_ok "a calm lake at dawn" 42 15). reflexivity.
Defined.

(** ** Names of files and ids *)

Lemma str_int_nonneg_digits (z : Z) :
  0 <= z -> digits_value (Py.str_int z) = Some z.
Proof.
  intros Hz. destruct z as [|p|p]; [reflexivity| |lia].
  unfold Py.str_int, digits_value. cbn [Z.to_int NilZero.string_of_int].
  pose proof (DecimalPos.Unsigned.to_uint_nonnil p) as Hnil.
  unfold NilZero.string_of_uint.
  destruct (Pos.to_uint p) eqn:Hp; [contradiction|..];
    rewrite <- Hp, NilEmpty.usu; cbn [option_map]; f_equal;
    unfold Z.of_uint; by rewrite DecimalPos.Unsigned.of_to.
Qed.

Lemma digits_value_zeros (k : nat) (s : string) :
  digits_value (Py.zeros k +:+ s) = digits_value s.
Proof.
  induction k as [|k IH]; [reflexivity|].
  change (Py.zeros (S k) +:+ s) with (String "0" (Py.zeros k +:+ s)).
  unfold digits_value in *. cbn [NilEmpty.uint_of_string].
  rewrite <- IH.
  destruct (NilEmpty.uint_of_string (Py.zeros k +:+ s)) as [d|]; reflexivity.
Qed.

Lemma fmt_03d_value (n : nat) : digits_value (Py.fmt_03d n) = Some (Z.of_nat n).
Proof.
  unfold Py.fmt_03d. rewrite digits_value_zeros. apply str_int_nonneg_digits. lia.
Qed.

Lemma fmt_03d_inj (i j : nat) : Py.fmt_03d i = Py.fmt_03d j -> i = j.
Proof.
  intros H. apply (f_equal digits_value) in H. rewrite !fmt_03d_value in H.
  injection H as H. lia.
Qed.

Lemma string_app_length (s t : string) :
  String.length (s +:+ t) = (String.length s + String.length t)%nat.
Proof. induction s as [|c s IH]; simpl; [reflexivity | by rewrite IH]. Qed.

Lemma string_app_inv_tail (s1 s2 t : string) : s1 +:+ t = s2 +:+ t -> s1 = s2.
Proof.
  revert s2. induction s1 as [|c s1 IH]; intros [|c2 s2] H.
  - reflexivity.
  - apply (f_equal String.length) in H. rewrite !string_app_length in H.
    cbn [String.length] in H. lia.
  - apply (f_equal String.length) in H. rewrite !string_app_length in H.
    cbn [String.length] in H. lia.
  - change (String c s1 +:+ t) with (String c (s1 +:+ t)) in H.
    change (String c2 s2 +:+ t) with (String c2 (s2 +:+ t)) in H.
    injection H as -> H. f_equal. by apply IH.
Qed.

Lemma string_app_inv_head (p s1 s2 : string) : p +:+ s1 = p +:+ s2 -> s1 = s2.
Proof.
  induction p as [|c p IH]; intros H; [exact H|].
  change (String c p +:+ s1) with (String c (p +:+ s1)) in H.
  change (String c p +:+ s2) with (String c (p +:+ s2)) in H.
  injection H as H. by apply IH.
Qed.

Lemma frame_file_inj (i j : nat) : frame_file i = frame_file j -> i = j.
Proof.
  change (frame_file i) with ("frames/frame_" +:+ Py.fmt_03d i +:+ ".png").
  change (frame_file j) with ("frames/frame_" +:+ Py.fmt_03d j +:+ ".png").
  intros H. apply string_app_inv_head, string_app_inv_tail in H.
  by apply fmt_03d_inj.
Qed.

Lemma str_int_inj (a b : Z) : Py.str_int a = Py.str_int b -> a = b.
Proof.
  unfold Py.str_int. intros H.
  assert (Hint : forall z, NilZero.int_of_string (NilZero.string_of_int (Z.to_int z))
                           = Some (Z.to_int z)).
  { intros z. destruct z as [|p|p]; [reflexivity|..];
      (apply NilZero.isi; cbn [Z.to_int]; intros [= Hp];
       by apply (DecimalPos.Unsigned.to_uint_nonnil p)). }
  apply (f_equal NilZero.int_of_string) in H. rewrite !Hint in H.
  injection H as H. by apply DecimalZ.to_int_inj.
Qed.

Lemma output_name_inj (e1 e2 : gen_env) :
  output_name e1 = output_name e2 <-> clock e1 = clock e2.
Proof.
  unfold output_name. split; [|by intros ->].
  intros H. apply string_app_inv_head, string_app_inv_tail in H.
  by apply str_int_inj.
Qed.

Lemma uint_no_underscore (d : Decimal.uint) :
  has_char "_" (NilEmpty.string_of_uint d) = false.
Proof. induction d; simpl; auto. Qed.

Lemma str_int_no_underscore (z : Z) : has_char "_" (Py.str_int z) = false.
Proof.
  unfold Py.str_int.
  destruct (Z.to_int z) as [d|d]; cbn [NilZero.string_of_int has_char];
    unfold NilZero.string_of_uint;
    (destruct d; [reflexivity|..]);
    try apply uint_no_underscore;
    cbn [Ascii.eqb Bool.eqb orb]; apply uint_no_underscore.
Qed.

Lemma split_at_underscore (a a' b b' : string) :
  has_char "_" a = false ->
  has_char "_" a' = false ->
  a +:+ String "_" b = a' +:+ String "_" b' ->
  a = a' /\ b = b'.
Proof.
  revert a'. induction a as [|c a IH]; intros [|c' a'] Ha Ha' H.
  - by injection H as ->.
  - change (String c' a' +:+ String "_" b') with (String c' (a' +:+ String "_" b')) in H.
    injection H as <- _. simpl in Ha'. discriminate.
  - change (String c a +:+ String "_" b) with (String c (a +:+ String "_" b)) in H.
    injection H as -> _. simpl in Ha. discriminate.
  - change (String c a +:+ String "_" b) with (String c (a +:+ String "_" b)) in H.
    change (String c' a' +:+ String "_" b') with (String c' (a' +:+ String "_" b')) in H.
    injection H as -> H. simpl in Ha, Ha'.
    apply orb_false_elim in Ha as [_ Ha]. apply orb_false_elim in Ha' as [_ Ha'].
    destruct (IH a' Ha Ha' H) as [-> ->]. by split.
Qed.

Lemma new_id_inj (e1 e2 : gen_env) :
  new_id e1 = new_id e2 <-> clock e1 = clock e2 /\ id_suffix e1 = id_suffix e2.
Proof.
  unfold new_id. split; [|by intros [-> ->]].
  intros H. apply string_app_inv_head in H.
  apply split_at_underscore in H as [Ht Hr]; try apply str_int_no_underscore.
  split; by apply str_int_inj.
Qed.

(** X22: two generations give their videos the same file name exactly
    when they read the same clock second, and the same id exactly when
    in addition they draw the same random suffix. *)
Theorem generated_names_collide_within_a_second (e1 e2 : gen_env) :
  (output_name e1 = output_name e2 <-> clock e1 = clock e2)
  /\ (new_id e1 = new_id e2 <-> clock e1 = clock e2 /\ id_suffix e1 = id_suffix e2)
  /\ (new_id e1 = new_id e2 -> output_name e1 = output_name e2).
Proof.
  split; [apply output_name_inj|]. split; [apply new_id_inj|].
  intros H. apply new_id_inj in H as [H _]. by apply output_name_inj.
Qed.

(** X21: different frame indices have different frame files, whatever
    the index (the zero padded number can be read back), so the paths
    returned by [generate_frames] are pairwise distinct and no frame
    overwrites another. *)
Theorem frame_files_distinct
    (srv : nat -> nat -> outcome) (prompt : string) (base_seed num_frames : Z) :
  (forall i j, frame_file i = frame_file j -> i = j)
  /\ NoDup (fst (generate_frames srv prompt base_seed num_frames)).
Proof.
  split; [apply frame_file_inj|].
  rewrite generate_frames_result.
  apply NoDup_ListNoDup.
  assert (Hnd : List.NoDup (List.filter (fun i => succeeds (srv i)) (py_range num_frames)))
    by apply List.NoDup_filter, List.seq_NoDup.
  induction Hnd as [|i l Hi Hnd IH]; [constructor|].
  cbn [map]. constructor; [|exact IH].
  intros Hin. apply Hi. apply in_map_iff in Hin. destruct Hin as (j & Hj & Hjl).
  by rewrite <- (frame_file_inj j i Hj).
Qed.

(** ** Ids and files shared between records *)

(** X23: if the ids of the stored records are pairwise distinct, they
    still are after any request, provided that a generation request does
    not produce an id that is already stored. *)
Theorem unique_ids_preserved (env : environ) (r : request) (w : world) :
  NoDup (ids w) ->
  (forall prompt num_frames e,
     r = PostGenerate prompt num_frames e -> ~ In (new_id e) (ids w)) ->
  NoDup (ids (snd (handle env r w))).
Proof.
  intros Hnd Hfresh. unfold ids in *.
  destruct r; cbn [handle]; try exact Hnd.
  - unfold admin. by destruct (negb _).
  - unfold admin_login. destruct m; [exact Hnd|].
    destruct (negb _); [exact Hnd|]. by destruct (_ && _).
  - destruct (logged_in w) eqn:Hlog.
    + rewrite (delete_video_spec video_id w Hlog).
      destruct (find_video _ _); [|exact Hnd].
      cbn. by apply filter_other_id_NoDup.
    + by rewrite (delete_video_unauthorized video_id w Hlog).
  - pose proof (generate_video_metadata env prompt num_frames e w) as Hgen.
    cbn [handle] in Hgen. destruct (flask_view _ w) as [resp w'].
    destruct Hgen as (_ & Hok & Hfail). cbn [snd].
    destruct (Z.eq_dec (resp_status resp) 200) as [H200|Hne].
    + destruct (Hok H200) as (rec & Hid & ->). cbn [videos map]. rewrite Hid.
      apply NoDup_cons. split; [|exact Hnd].
      rewrite list_elem_of_In. by apply (Hfresh prompt num_frames e).
    + unfold load_metadata in *. by rewrite (Hfail Hne).
  - unfold download_video. by destruct (bool_decide _).
  - unfold stats. by destruct (negb _).
Qed.

Lemma unique_ids_preserved_witness :
  NoDup (ids two_videos_world)
  /\ (forall prompt num_frames e,
        lake 1700000200 1111 = PostGenerate prompt num_frames e ->
        ~ In (new_id e) (ids two_videos_world))
  /\ NoDup (ids (snd (handle ∅ (lake 1700000200 1111) two_videos_world))).
Proof.
  assert (Hnd : NoDup (ids two_videos_world))
    by (apply (bool_decide_unpack _); vm_compute; exact I).
  assert (Hfresh : forall prompt num_frames e,
             lake 1700000200 1111 = PostGenerate prompt num_frames e ->
             ~ In (new_id e) (ids two_videos_world)).
  { intros prompt num_frames e [= _ _ <-]. vm_compute. intros [H|[H|[]]]; discriminate. }
  split; [exact Hnd|]. split; [exact Hfresh|].
  exact (unique_ids_preserved ∅ (lake 1700000200 1111) two_videos_world Hnd Hfresh).
Defined.

(** X24: two successful generations that read the same clock second and
    draw different suffixes write the same file, the second replacing
    the first; when an admin then deletes the second video, the record
    of the first stays in the document but its download answers 404. *)
Theorem same_second_videos_share_a_file
    (env : environ) (p1 p2 : option string) (n1 n2 : option Z)
    (e1 e2 : gen_env) (w : world) :
  logged_in w = true ->
  clock e1 = clock e2 ->
  id_suffix e1 <> id_suffix e2 ->
  let '(r1, w1) := handle env (PostGenerate p1 n1 e1) w in
  let '(r2, w2) := handle env (PostGenerate p2 n2 e2) w1 in
  resp_status r1 = 200 ->
  resp_status r2 = 200 ->
  let w3 := snd (handle env (DeleteVideo (new_id e2)) w2) in
  output_name e1 = output_name e2
  /\ videos_dir w2 !! video_path e1 = Some (stored four_seconds (encoded_size e2))
  /\ In (new_id e1) (ids w3)
  /\ ~ In (new_id e2) (ids w3)
  /\ handle env (GetDownload (output_name e1)) w3 =
     ({| resp_body := Text "Video not found"; resp_status := 404 |}, w3).
Proof.
  intros Hlog Hclock Hsuffix. cbn [handle].
  pose proof (generate_video_success p1 n1 e1 w) as G1. cbv zeta in G1.
  destruct (flask_view (generate_video p1 n1 e1) w) as [r1 w1].
  pose proof (generate_video_success p2 n2 e2 w1) as G2. cbv zeta in G2.
  cbn [handle].
  destruct (flask_view (generate_video p2 n2 e2) w1) as [r2 w2].
  intros H1 H2.
  destruct (G1 H1) as (_ & _ & M1 & V1 & _ & S1).
  destruct (G2 H2) as (_ & _ & M2 & V2 & _ & S2).
  assert (Hname : output_name e1 = output_name e2) by (by apply output_name_inj).
  assert (Hpath : video_path e1 = video_path e2) by (unfold video_path; by rewrite Hname).
  assert (Hids : new_id e1 <> new_id e2).
  { intros Heq. apply new_id_inj in Heq as [_ Heq]. contradiction. }
  assert (Hlog2 : logged_in w2 = true) by (unfold logged_in in *; by rewrite S2, S1).
  assert (Hload1 : load_metadata w1 = {| videos := new_record (Py.strip (default "" p1))
              (fst (generate_frames (server e1) (Py.strip (default "" p1)) (base_seed e1)
                      (coerce_num_frames (default 15 n1)))) e1 :: videos (load_metadata w);
              total_generated := total_generated (load_metadata w) + 1 |})
    by (unfold load_metadata at 1; by rewrite M1).
  set (rec1 := new_record (Py.strip (default "" p1))
                 (fst (generate_frames (server e1) (Py.strip (default "" p1)) (base_seed e1)
                         (coerce_num_frames (default 15 n1)))) e1) in *.
  set (rec2 := new_record (Py.strip (default "" p2))
                 (fst (generate_frames (server e2) (Py.strip (default "" p2)) (base_seed e2)
                         (coerce_num_frames (default 15 n2)))) e2) in *.
  assert (Hload2 : load_metadata w2 =
            {| videos := rec2 :: rec1 :: videos (load_metadata w);
               total_generated := total_generated (load_metadata w) + 1 + 1 |}).
  { unfold load_metadata at 1. rewrite M2, Hload1. reflexivity. }
  assert (Hfind : find_video (new_id e2) (rec2 :: rec1 :: videos (load_metadata w))
                  = Some rec2).
  { cbn [find_video]. change (vi_id rec2) with (new_id e2). by rewrite String.eqb_refl. }
  assert (Hfilter : List.filter (other_id (new_id e2))
                      (rec2 :: rec1 :: videos (load_metadata w))
                    = rec1 :: List.filter (other_id (new_id e2)) (videos (load_metadata w))).
  { assert (O2 : other_id (new_id e2) rec2 = false).
    { unfold other_id. change (vi_id rec2) with (new_id e2). by rewrite String.eqb_refl. }
    assert (O1 : other_id (new_id e2) rec1 = true).
    { unfold other_id. change (vi_id rec1) with (new_id e1).
      by rewrite (proj2 (String.eqb_neq _ _) Hids). }
    cbn [List.filter]. by rewrite O2, O1. }
  rewrite (delete_video_spec (new_id e2) w2 Hlog2), Hload2.
  cbn [videos total_generated]. rewrite Hfind, Hfilter. cbn [snd].
  change (vi_filename rec2) with (output_name e2). fold (video_path e2).
  split; [exact Hname|]. split; [by rewrite V2, Hpath, lookup_insert_eq|].
  unfold ids, load_metadata.
  cbn [save_metadata set_metadata_file metadata_file videos map].
  change (vi_id rec1) with (new_id e1).
  split; [by left|]. split.
  - intros [H|H]; [contradiction|].
    apply in_map_iff in H. destruct H as (v & Hv & Hin).
    apply filter_other_id_In in Hin. tauto.
  - unfold download_video. fold (video_path e1). rewrite Hpath.
    cbn [videos_dir save_metadata set_metadata_file set_videos_dir].
    rewrite lookup_delete_eq.
    by rewrite bool_decide_eq_false_2 by (by intros [? ?]).
Qed.

Lemma same_second_videos_share_a_file_witness :
  let e1 := env_at all_ok 1700000000 1234 in
  let e2 := env_at all_ok 1700000000 4321 in
  let p := Some "a calm lake at dawn" in
  logged_in admin_world = true
  /\ clock e1 = clock e2
  /\ id_suffix e1 <> id_suffix e2
  /\ let '(r1, w1) := handle ∅ (PostGenerate p (Some 15) e1) admin_world in
     let '(r2, w2) := handle ∅ (PostGenerate p (Some 15) e2) w1 in
     resp_status r1 = 200
     /\ resp_status r2 = 200
     /\ let w3 := snd (handle ∅ (DeleteVideo (new_id e2)) w2) in
        output_name e1 = output_name e2
        /\ videos_dir w2 !! video_path e1 = Some (stored four_seconds (encoded_size e2))
        /\ In (new_id e1) (ids w3)
        /\ ~ In (new_id e2) (ids w3)
        /\ handle ∅ (GetDownload (output_name e1)) w3 =
           ({| resp_body := Text "Video not found"; resp_status := 404 |}, w3).
Proof.
  cbv zeta.
  pose proof (same_second_videos_share_a_file ∅ (Some "a calm lake at dawn")
                (Some "a calm lake at dawn") (Some 15) (Some 15)
                (env_at all_ok 1700000000 1234) (env_at all_ok 1700000000 4321)
                admin_world eq_refl eq_refl) as H.
  split; [reflexivity|]. split; [reflexivity|]. split; [discriminate|].
  specialize (H ltac:(discriminate)).
  destruct (handle ∅ (PostGenerate _ _ (env_at all_ok 1700000000 1234)) admin_world)
    as [r1 w1] eqn:E1.
  destruct (handle ∅ (PostGenerate _ _ (env_at all_ok 1700000000 4321)) w1)
    as [r2 w2] eqn:E2.
  assert (Hr1 : resp_status r1 = 200).
  { change r1 with (fst (r1, w1)). rewrite <- E1. vm_compute. reflexivity. }
  assert (Hw1 : w1 = snd (handle ∅ (PostGenerate (Some "a calm lake at dawn") (Some 15)
                                     (env_at all_ok 1700000000 1234)) admin_world))
    by (by rewrite E1).
  assert (Hr2 : resp_status r2 = 200).
  { change r2 with (fst (r2, w2)). rewrite <- E2, Hw1. vm_compute. reflexivity. }
  split; [exact Hr1|]. split; [exact Hr2|]. exact (H Hr1 Hr2).
Defined.
